(** * Grain distribution dashboard: the metrics engine of [app.py]

    A shallow embedding of the derived-metrics pipeline of the dashboard
    (feasibility window, aggregation views, per-shop projection and the KPI
    rollup) together with the properties its specification states.

    Conventions of the embedding.
    - Day numbers, counts and the results of [math.ceil] are [Z].
    - Tonnages are read in two ways.  The modules [Feasibility] to
      [AtRiskList] read them as exact rationals [Q], with [==] for their
      equalities: they settle which rows an output is computed from, in
      which order, and what is raised, not the last binary digit of a sum.
      The module [Binary64] embeds the start-up loop and the column sums on
      IEEE 754 binary64 numbers, as the interpreter computes them; the
      statements that depend on rounding are made there.
    - A pandas table is the list of its rows, in row order; a missing cell
      (NaN) of a pivoted table is [None].
    - A Python exception is an explicit [Raise] result. *)

From Stdlib Require Import ZArith QArith Qround List String Bool Lia Lqa.
From Stdlib Require Import Sorting.Sorted Sorting.Permutation.
From Stdlib Require Floats.
Import ListNotations.

Local Open Scope Z_scope.

(* ------------------------------------------------------------------ *)
(** * Python values and exceptions *)
(* ------------------------------------------------------------------ *)

Module Py.

Inductive exn : Type :=
| ZeroDivisionError
| ValueError
| KeyError
| TypeError.

Inductive result (A : Type) : Type :=
| Ok (a : A)
| Raise (e : exn).

Arguments Ok {A} a.
Arguments Raise {A} e.

Definition bind {A B : Type} (c : result A) (k : A -> result B) : result B :=
  match c with
  | Ok a => k a
  | Raise e => Raise e
  end.

Definition raises {A : Type} (c : result A) : Prop :=
  exists e, c = Raise e.

(** [range(lo, hi)], built as Python does: [lo], [lo+1], ... below [hi]. *)
Fixpoint range_from (lo : Z) (n : nat) : list Z :=
  match n with
  | O => []
  | S n' => lo :: range_from (lo + 1) n'
  end.

Definition range (lo hi : Z) : list Z := range_from lo (Z.to_nat (hi - lo)).

(** [max(l)] on a list of integers; the empty list raises [ValueError]. *)
Definition max (l : list Z) : result Z :=
  match l with
  | [] => Raise ValueError
  | x :: xs => Ok (fold_left Z.max xs x)
  end.

(** [x / y] on Python floats, read as rationals; a zero divisor is the
    division error that the feasibility calculation is documented to fail
    with.  Dividing a numpy number by zero raises nothing and gives an
    infinity or a NaN: that case of line 47 is in [Binary64]. *)
Definition div (x y : Q) : result Q :=
  if Qeq_bool y 0%Q then Raise ZeroDivisionError else Ok (x / y)%Q.

(** Truth value of a number in a condition ([if x], [x if c else y]). *)
Definition truthy (x : Q) : bool := negb (Qeq_bool x 0%Q).

(** [x > 0] on floats. *)
Definition gt0 (x : Q) : bool :=
  match (0 ?= x)%Q with
  | Lt => true
  | _ => false
  end.

(** Sum of a column, in exact arithmetic: the order of the additions does
    not matter here, as it does in [Binary64.sum]. *)
Fixpoint sum (l : list Q) : Q :=
  match l with
  | [] => 0%Q
  | x :: xs => (x + sum xs)%Q
  end.

(** Sum of a column with missing cells: pandas skips them. *)
Fixpoint sum_skipna (l : list (option Q)) : Q :=
  match l with
  | [] => 0%Q
  | Some x :: xs => (x + sum_skipna xs)%Q
  | None :: xs => sum_skipna xs
  end.

End Py.

Import Py.

Notation "x <- c ;; k" := (Py.bind c (fun x => k))
  (at level 61, c at next level, right associativity).

(* ------------------------------------------------------------------ *)
(** * Table operations (pandas) *)
(* ------------------------------------------------------------------ *)

Module Frame.

(** The sorted, duplicate-free list of the keys of a column: the index that
    [groupby] and [pivot] give their result. *)
Section SortedKeys.
Context {K : Type} (cmp : K -> K -> comparison).

Fixpoint insert_key (k : K) (ks : list K) : list K :=
  match ks with
  | [] => [k]
  | k' :: ks' =>
      match cmp k k' with
      | Lt => k :: ks
      | Eq => ks
      | Gt => k' :: insert_key k ks'
      end
  end.

Definition sorted_keys (l : list K) : list K := fold_right insert_key [] l.

End SortedKeys.

Definition day_keys : list Z -> list Z := sorted_keys Z.compare.
Definition id_keys : list string -> list string := sorted_keys String.compare.

(** [rows.groupby(key)[val].sum()]: one entry per distinct key, keys
    ascending, each with the sum of the values of its group. *)
Definition groupby_sum {A : Type} (key : A -> Z) (val : A -> Q)
    (rows : list A) : list (Z * Q) :=
  map (fun k => (k, sum (map val (filter (fun r => key r =? k) rows))))
      (day_keys (map key rows)).

(** [series.get(d, default)]. *)
Fixpoint get (s : list (Z * Q)) (d : Z) (default : Q) : Q :=
  match s with
  | [] => default
  | (k, v) :: s' => if k =? d then v else get s' d default
  end.

(** Number of distinct values of a column of identifiers. *)
Definition nunique (l : list string) : Z :=
  Z.of_nat (List.length (nodup string_dec l)).

End Frame.

Import Frame.

(* ------------------------------------------------------------------ *)
(** * Data model: the six sheets of the workbook *)
(* ------------------------------------------------------------------ *)

(** The four values read from the Settings sheet, after [int(...)] and
    [float(...)]. *)
Record settings_t : Type := {
  Distribution_Days : Z;
  Vehicle_Capacity_tons : Q;
  Vehicles_Total : Z;
  Max_Trips_Per_Vehicle_Per_Day : Z
}.

Record cg_dispatch_row : Type := {
  Dispatch_Day : Z;
  cg_LG_ID : string;
  cg_Quantity_tons : Q
}.

Record lg_dispatch_row : Type := {
  Day : Z;
  lg_LG_ID : string;
  lg_FPS_ID : string;
  Vehicle_ID : string;
  Quantity_tons : Q
}.

Record stock_row : Type := {
  Entity_Type : string;
  Entity_ID : string;
  st_Day : Z;
  Stock_Level_tons : Q
}.

Record lg_row : Type := {
  LG_ID : string;
  Storage_Capacity_tons : Q
}.

Record fps_row : Type := {
  FPS_ID : string;
  FPS_Name : string;
  Reorder_Threshold_tons : Q
}.

Record workbook : Type := {
  settings : settings_t;
  dispatch_cg : list cg_dispatch_row;
  dispatch_lg : list lg_dispatch_row;
  stock_levels : list stock_row;
  lgs : list lg_row;
  fps : list fps_row
}.

Definition DAYS (w : workbook) : Z := Distribution_Days (settings w).
Definition TRUCK_CAP (w : workbook) : Q := Vehicle_Capacity_tons (settings w).
Definition MAX_TRIPS (w : workbook) : Z :=
  Vehicles_Total (settings w) * Max_Trips_Per_Vehicle_Per_Day (settings w).
Definition DAILY_CAP (w : workbook) : Q := (inject_Z (MAX_TRIPS w) * TRUCK_CAP w)%Q.

(* ------------------------------------------------------------------ *)
(** * Feasibility window: the pre-dispatch offset [X] *)
(* ------------------------------------------------------------------ *)

Module Feasibility.

Definition daily_total_cg (w : workbook) : list (Z * Q) :=
  groupby_sum Dispatch_Day cg_Quantity_tons (dispatch_cg w).

(** The running sum the loop keeps in [cum_need]. *)
Definition add_need (totals : list (Z * Q)) (cum_need : Q) (d : Z) : Q :=
  (cum_need + get totals d 0)%Q.

(** The entry appended to [adv] for day [d], given the updated [cum_need],
    in exact arithmetic; [Binary64.adv_entry] is the entry as the floats
    give it. *)
Definition adv_entry (cap : Q) (cum_need : Q) (d : Z) : result Z :=
  over <- Py.div (cum_need - cap * inject_Z d)%Q cap ;;
  Ok (if gt0 over then Qceiling over else 0).

(** The body of the [for d in range(1, DAYS+1)] loop on the state
    [(cum_need, adv)]. *)
Fixpoint adv_loop (cap : Q) (totals : list (Z * Q)) (cum_need : Q)
    (adv : list Z) (days : list Z) : result (Q * list Z) :=
  match days with
  | [] => Ok (cum_need, adv)
  | d :: days' =>
      let cum_need := add_need totals cum_need d in
      a <- adv_entry cap cum_need d ;;
      adv_loop cap totals cum_need (adv ++ [a]) days'
  end.

Definition X (w : workbook) : result Z :=
  st <- adv_loop (DAILY_CAP w) (daily_total_cg w) 0%Q [] (range 1 (DAYS w + 1)) ;;
  Py.max (snd st).

Definition MIN_DAY (w : workbook) : result Z := x <- X w ;; Ok (1 - x).
Definition MAX_DAY (w : workbook) : Z := DAYS w.

(** The range slider of the sidebar: its bounds and its initial value. *)
Record slider : Type := {
  min_value : Z;
  max_value : Z;
  value : Z * Z
}.

Definition day_range_slider (w : workbook) : result slider :=
  lo <- MIN_DAY w ;;
  Ok {| min_value := lo; max_value := MAX_DAY w; value := (lo, MAX_DAY w) |}.

(** Cumulative CG->LG demand through day [d]: the demand of days [1..d]
    added up in day order. *)
Definition cumulative_need (w : workbook) (d : Z) : Q :=
  fold_left (add_need (daily_total_cg w)) (range 1 (d + 1)) 0%Q.

(** Cumulative CG->LG demand through day [d], read off the records: the
    total quantity of the dispatch records of the days [1..d]. *)
Definition cumulative_demand (w : workbook) (d : Z) : Q :=
  sum (map cg_Quantity_tons
           (filter (fun r => (1 <=? Dispatch_Day r) && (Dispatch_Day r <=? d))
                   (dispatch_cg w))).

(** Starting [x] days early, the fleet can carry the cumulative demand of
    every day of the horizon. *)
Definition feasible (w : workbook) (x : Z) : Prop :=
  forall d, 1 <= d <= DAYS w ->
    (cumulative_need w d <= DAILY_CAP w * inject_Z (d + x))%Q.

End Feasibility.

(* ------------------------------------------------------------------ *)
(** * Pivoted tables and forward fill *)
(* ------------------------------------------------------------------ *)

Module Pivot.

(** A table indexed by day with one column per entity id; [cells] is
    row-major and a missing cell is [None]. *)
Record frame : Type := {
  index : list Z;
  columns : list string;
  cells : list (list (option Q))
}.

Definition same_cell (d : Z) (c : string) (r : stock_row) : bool :=
  (st_Day r =? d) && (Entity_ID r =? c)%string.

(** [pivot] refuses an input with two rows for the same (day, id). *)
Fixpoint has_duplicates (rows : list stock_row) : bool :=
  match rows with
  | [] => false
  | r :: rows' =>
      existsb (same_cell (st_Day r) (Entity_ID r)) rows' || has_duplicates rows'
  end.

(** The value recorded for (day, id), if any. *)
Definition raw_cell (rows : list stock_row) (d : Z) (c : string) : option Q :=
  hd_error (map Stock_Level_tons (filter (same_cell d c) rows)).

(** [rows.pivot(index="Day", columns="Entity_ID", values="Stock_Level_tons")] *)
Definition pivot (rows : list stock_row) : result frame :=
  if has_duplicates rows then Raise ValueError
  else
    let idx := day_keys (map st_Day rows) in
    let cols := id_keys (map Entity_ID rows) in
    Ok {| index := idx;
          columns := cols;
          cells := map (fun d => map (raw_cell rows d) cols) idx |}.

(** One row of the forward fill: a missing cell takes the cell above. *)
Fixpoint fill_row (prev row : list (option Q)) : list (option Q) :=
  match row with
  | [] => []
  | c :: row' =>
      match c with
      | Some v => Some v
      | None => hd None prev
      end :: fill_row (tl prev) row'
  end.

Fixpoint ffill_from (prev : list (option Q)) (rows : list (list (option Q)))
    : list (list (option Q)) :=
  match rows with
  | [] => []
  | r :: rows' =>
      let r' := fill_row prev r in
      r' :: ffill_from r' rows'
  end.

(** [frame.fillna(method="ffill")]: down the rows, column by column. *)
Definition ffill (f : frame) : frame :=
  {| index := index f; columns := columns f; cells := ffill_from [] (cells f) |}.

(** Label-based access, [KeyError] on an unknown row or column label. *)
Fixpoint lookup_row (idx : list Z) (rows : list (list (option Q))) (d : Z)
    : result (list (option Q)) :=
  match idx, rows with
  | i :: idx', r :: rows' => if i =? d then Ok r else lookup_row idx' rows' d
  | _, _ => Raise KeyError
  end.

Fixpoint lookup_col (cols : list string) (row : list (option Q)) (c : string)
    : result (option Q) :=
  match cols, row with
  | k :: cols', v :: row' => if (k =? c)%string then Ok v else lookup_col cols' row' c
  | _, _ => Raise KeyError
  end.

Fixpoint traverse {A B : Type} (f : A -> result B) (l : list A) : result (list B) :=
  match l with
  | [] => Ok []
  | a :: l' => b <- f a ;; bs <- traverse f l' ;; Ok (b :: bs)
  end.

(** [frame.loc[d]] *)
Definition loc_row (f : frame) (d : Z) : result (list (option Q)) :=
  lookup_row (index f) (cells f) d.

(** [frame.loc[d, c]] *)
Definition loc_cell (f : frame) (d : Z) (c : string) : result (option Q) :=
  row <- loc_row f d ;; lookup_col (columns f) row c.

(** [frame.loc[d, sel]] for a list of column labels. *)
Definition loc (f : frame) (d : Z) (sel : list string) : result (list (option Q)) :=
  row <- loc_row f d ;; traverse (lookup_col (columns f) row) sel.

(** The value carried down a column: the value seen so far, replaced by the
    value recorded on day [d] when there is one. *)
Definition carry (raw : Z -> string -> option Q) (c : string)
    (acc : option Q) (d : Z) : option Q :=
  match raw d c with
  | Some v => Some v
  | None => acc
  end.

End Pivot.

(* ------------------------------------------------------------------ *)
(** * Aggregation views *)
(* ------------------------------------------------------------------ *)

Module Views.

Import Pivot.

(** Daily dispatch totals, as (Day, Quantity_tons) rows. *)
Definition day_totals_cg (w : workbook) : list (Z * Q) :=
  groupby_sum Dispatch_Day cg_Quantity_tons (dispatch_cg w).

Definition day_totals_lg (w : workbook) : list (Z * Q) :=
  groupby_sum Day Quantity_tons (dispatch_lg w).

(** Vehicle utilisation, as (Day, Trips_Used) rows. *)
Definition veh_usage (w : workbook) : list (Z * Z) :=
  map (fun d => (d, nunique (map Vehicle_ID
                               (filter (fun r => Day r =? d) (dispatch_lg w)))))
      (day_keys (map Day (dispatch_lg w))).

Definition is_LG (r : stock_row) : bool := (Entity_Type r =? "LG")%string.
Definition is_FPS (r : stock_row) : bool := (Entity_Type r =? "FPS")%string.

(** LG stock timeline. *)
Definition lg_stock (w : workbook) : result frame :=
  f <- pivot (filter is_LG (stock_levels w)) ;; Ok (ffill f).

(** A row of the FPS stock table: a snapshot merged with the registry row
    of the same id, and its at-risk flag. *)
Record fps_stock_row : Type := {
  snapshot : stock_row;
  fs_FPS_ID : string;
  fs_Reorder_Threshold_tons : Q;
  At_Risk : bool
}.

Definition merge_row (s : stock_row) (f : fps_row) : fps_stock_row :=
  {| snapshot := s;
     fs_FPS_ID := FPS_ID f;
     fs_Reorder_Threshold_tons := Reorder_Threshold_tons f;
     At_Risk := Qle_bool (Stock_Level_tons s) (Reorder_Threshold_tons f) |}.

(** FPS stock & at-risk: the inner join on [Entity_ID = FPS_ID]. *)
Definition fps_stock (w : workbook) : list fps_stock_row :=
  flat_map (fun s => map (merge_row s)
                         (filter (fun f => (Entity_ID s =? FPS_ID f)%string) (fps w)))
           (filter is_FPS (stock_levels w)).

(** LG [c] has a snapshot at or before day [d]. *)
Definition has_snapshot_by (w : workbook) (d : Z) (c : string) : bool :=
  existsb (fun r => is_LG r && (Entity_ID r =? c)%string && (st_Day r <=? d))
          (stock_levels w).

(** Total plan. *)
Definition total_plan (w : workbook) : Q := sum (map snd (day_totals_lg w)).

(** The sidebar totals for the selected [day_range]. *)
Definition cg_sel (w : workbook) (day_range : Z * Z) : Q :=
  sum (map snd (filter (fun r => (fst day_range <=? fst r) && (fst r <=? snd day_range))
                       (day_totals_cg w))).

Definition lg_sel (w : workbook) (day_range : Z * Z) : Q :=
  sum (map snd (filter (fun r => (1 <=? fst r) && (fst r <=? snd day_range))
                       (day_totals_lg w))).

Definition end_day (w : workbook) (day_range : Z * Z) : Z :=
  Z.min (snd day_range) (DAYS w).

End Views.

(* ------------------------------------------------------------------ *)
(** * Per-shop projection (tab "FPS Data") *)
(* ------------------------------------------------------------------ *)

Module Projection.

Import Views.

Record fps_data_row : Type := {
  p_FPS_ID : string;
  p_FPS_Name : list string;
  Current_Stock_tons : Q;
  Next_Receipt_Day : option Z;
  Days_To_Receipt : option Z
}.

(** [float(series)]: defined on a series of exactly one element. *)
Definition float_of_series (s : list Q) : result Q :=
  match s with
  | [v] => Ok v
  | _ => Raise TypeError
  end.

(** [series.min()] of a non-empty series of days. *)
Definition min_day (d : Z) (ds : list Z) : Z := fold_left Z.min ds d.

Definition stock_now_series (w : workbook) (e : Z) (fps_id : string) : list Q :=
  map (fun r => Stock_Level_tons (snapshot r))
      (filter (fun r => (fs_FPS_ID r =? fps_id)%string && (st_Day (snapshot r) =? e))
              (fps_stock w)).

Definition future_days (w : workbook) (e : Z) (fps_id : string) : list Z :=
  map Day (filter (fun r => (lg_FPS_ID r =? fps_id)%string && (e <? Day r))
                  (dispatch_lg w)).

(** The body of the loop over [fps.FPS_ID], with [e] the value of [end_day]. *)
Definition fps_data_entry (w : workbook) (e : Z) (fps_id : string)
    : result fps_data_row :=
  let stock_now := stock_now_series w e fps_id in
  stock_now <- match stock_now with
               | [] => Ok 0%Q
               | _ => float_of_series stock_now
               end ;;
  let next_day := match future_days w e fps_id with
                  | [] => None
                  | d :: ds => Some (min_day d ds)
                  end in
  let days_to := match next_day with
                 | Some n => if n =? 0 then None else Some (n - e)
                 | None => None
                 end in
  Ok {| p_FPS_ID := fps_id;
        p_FPS_Name := map FPS_Name
                          (filter (fun f => (FPS_ID f =? fps_id)%string) (fps w));
        Current_Stock_tons := stock_now;
        Next_Receipt_Day := next_day;
        Days_To_Receipt := days_to |}.

Definition fps_data (w : workbook) (day_range : Z * Z) : result (list fps_data_row) :=
  Pivot.traverse (fps_data_entry w (end_day w day_range)) (map FPS_ID (fps w)).

End Projection.

(* ------------------------------------------------------------------ *)
(** * KPI rollup (tab "Metrics") *)
(* ------------------------------------------------------------------ *)

Module Kpi.

Import Pivot Views.

Definition sel_days (day_range : Z * Z) : Z :=
  snd day_range - Z.max (fst day_range) 1 + 1.

Definition avg_daily_cg (w : workbook) (day_range : Z * Z) : Q :=
  if 0 <? sel_days day_range
  then (cg_sel w day_range / inject_Z (sel_days day_range))%Q
  else 0%Q.

Definition avg_daily_lg (w : workbook) (day_range : Z * Z) : Q :=
  if 0 <? sel_days day_range
  then (lg_sel w day_range / inject_Z (sel_days day_range))%Q
  else 0%Q.

(** [series.mean()] of an integer column; NaN ([None]) when it is empty. *)
Definition mean (l : list Z) : option Q :=
  match l with
  | [] => None
  | _ => Some (sum (map inject_Z l) / inject_Z (Z.of_nat (List.length l)))%Q
  end.

Definition avg_trips (w : workbook) (day_range : Z * Z) : option Q :=
  mean (map snd (filter (fun r => (1 <=? fst r) && (fst r <=? snd day_range))
                        (veh_usage w))).

Definition pct_fleet (w : workbook) (day_range : Z * Z) : option Q :=
  if MAX_TRIPS w =? 0 then Some 0%Q
  else option_map (fun a => (a / inject_Z (MAX_TRIPS w) * 100)%Q)
                  (avg_trips w day_range).

Definition lg_onhand (w : workbook) (day_range : Z * Z) (selected_lgs : list string)
    : result Q :=
  t <- lg_stock w ;;
  row <- loc t (end_day w day_range) selected_lgs ;;
  Ok (sum_skipna row).

Definition fps_onhand (w : workbook) (day_range : Z * Z) : Q :=
  sum (map (fun r => Stock_Level_tons (snapshot r))
           (filter (fun r => st_Day (snapshot r) =? end_day w day_range) (fps_stock w))).

(** [lgs.set_index("LG_ID").loc[selected_lgs, "Storage_Capacity_tons"]]:
    every registry row of each selected id, [KeyError] on an unknown id. *)
Definition capacities_of (w : workbook) (lg : string) : result (list Q) :=
  match filter (fun r => (LG_ID r =? lg)%string) (lgs w) with
  | [] => Raise KeyError
  | rs => Ok (map Storage_Capacity_tons rs)
  end.

Definition lg_caps (w : workbook) (selected_lgs : list string) : result Q :=
  cs <- traverse (capacities_of w) selected_lgs ;;
  Ok (sum (List.concat cs)).

Definition pct_lg_filled (onhand caps : Q) : Q :=
  if truthy caps then (onhand / caps * 100)%Q else 0%Q.

Definition fps_zero (w : workbook) (day_range : Z * Z) : Z :=
  nunique (map fs_FPS_ID
    (filter (fun r => (st_Day (snapshot r) =? end_day w day_range)
                      && Qeq_bool (Stock_Level_tons (snapshot r)) 0%Q)
            (fps_stock w))).

Definition fps_risk (w : workbook) (day_range : Z * Z) : Z :=
  nunique (map fs_FPS_ID
    (filter (fun r => (st_Day (snapshot r) =? end_day w day_range) && At_Risk r)
            (fps_stock w))).

Definition dispatched_cum (w : workbook) (day_range : Z * Z) : Q :=
  sum (map snd (filter (fun r => fst r <=? end_day w day_range) (day_totals_lg w))).

Definition pct_plan (w : workbook) (day_range : Z * Z) : Q :=
  if truthy (total_plan w)
  then (dispatched_cum w day_range / total_plan w * 100)%Q
  else 0%Q.

Definition remaining_t (w : workbook) (day_range : Z * Z) : Q :=
  (total_plan w - dispatched_cum w day_range)%Q.

(** [math.ceil(remaining_t/DAILY_CAP) if DAILY_CAP else None] *)
Definition days_rem_of (remaining cap : Q) : option Z :=
  if truthy cap then Some (Qceiling (remaining / cap)) else None.

Definition days_rem (w : workbook) (day_range : Z * Z) : option Z :=
  days_rem_of (remaining_t w day_range) (DAILY_CAP w).

(** The values behind the thirteen tiles of the tab. *)
Record metrics : Type := {
  m_cg_sel : Q;
  m_lg_sel : Q;
  m_avg_daily_cg : Q;
  m_avg_daily_lg : Q;
  m_avg_trips : option Q;
  m_pct_fleet : option Q;
  m_lg_onhand : Q;
  m_fps_onhand : Q;
  m_pct_lg_filled : Q;
  m_fps_zero : Z;
  m_fps_risk : Z;
  m_pct_plan : Q;
  m_days_rem : option Z
}.

(** The block under [with tab7:], in statement order. *)
Definition kpi_block (w : workbook) (day_range : Z * Z) (selected_lgs : list string)
    : result metrics :=
  onhand <- lg_onhand w day_range selected_lgs ;;
  caps <- lg_caps w selected_lgs ;;
  Ok {| m_cg_sel := cg_sel w day_range;
        m_lg_sel := lg_sel w day_range;
        m_avg_daily_cg := avg_daily_cg w day_range;
        m_avg_daily_lg := avg_daily_lg w day_range;
        m_avg_trips := avg_trips w day_range;
        m_pct_fleet := pct_fleet w day_range;
        m_lg_onhand := onhand;
        m_fps_onhand := fps_onhand w day_range;
        m_pct_lg_filled := pct_lg_filled onhand caps;
        m_fps_zero := fps_zero w day_range;
        m_fps_risk := fps_risk w day_range;
        m_pct_plan := pct_plan w day_range;
        m_days_rem := days_rem w day_range |}.

(** The daily average as the specification words it: the total of the
    records whose day lies in the selected range, divided by the number of
    days of that range, and zero when the range is empty. *)
Definition window_total {A : Type} (key : A -> Z) (val : A -> Q)
    (rows : list A) (a b : Z) : Q :=
  sum (map val (filter (fun r => (a <=? key r) && (key r <=? b)) rows)).

Definition window_days (a b : Z) : Z := b - a + 1.

Definition stated_daily_average {A : Type} (key : A -> Z) (val : A -> Q)
    (rows : list A) (day_range : Z * Z) : Q :=
  if 0 <? window_days (fst day_range) (snd day_range)
  then (window_total key val rows (fst day_range) (snd day_range)
        / inject_Z (window_days (fst day_range) (snd day_range)))%Q
  else 0%Q.

End Kpi.

(* ------------------------------------------------------------------ *)
(** * Sample workbooks *)
(* ------------------------------------------------------------------ *)

Module Sample.

Definition fleet : settings_t :=
  {| Distribution_Days := 30;
     Vehicle_Capacity_tons := 5;
     Vehicles_Total := 20;
     Max_Trips_Per_Vehicle_Per_Day := 2 |}.

(** The plan of the specification's example: 350 t are due on day 1 while
    the fleet carries 200 t a day. *)
Definition plan : workbook :=
  {| settings := fleet;
     dispatch_cg :=
       [ {| Dispatch_Day := 1; cg_LG_ID := "LG1"; cg_Quantity_tons := 200 |};
         {| Dispatch_Day := 2; cg_LG_ID := "LG1"; cg_Quantity_tons := 100 |};
         {| Dispatch_Day := 1; cg_LG_ID := "LG2"; cg_Quantity_tons := 150 |} ];
     dispatch_lg :=
       [ {| Day := 1; lg_LG_ID := "LG1"; lg_FPS_ID := "F1"; Vehicle_ID := "V1";
            Quantity_tons := 10 |};
         {| Day := 2; lg_LG_ID := "LG1"; lg_FPS_ID := "F2"; Vehicle_ID := "V2";
            Quantity_tons := 4 |};
         {| Day := 4; lg_LG_ID := "LG2"; lg_FPS_ID := "F1"; Vehicle_ID := "V1";
            Quantity_tons := 6 |} ];
     stock_levels :=
       [ {| Entity_Type := "LG"; Entity_ID := "LG1"; st_Day := 1; Stock_Level_tons := 100 |};
         {| Entity_Type := "LG"; Entity_ID := "LG2"; st_Day := 2; Stock_Level_tons := 50 |};
         {| Entity_Type := "LG"; Entity_ID := "LG1"; st_Day := 30; Stock_Level_tons := 80 |};
         {| Entity_Type := "FPS"; Entity_ID := "F1"; st_Day := 3; Stock_Level_tons := 7 |};
         {| Entity_Type := "FPS"; Entity_ID := "F2"; st_Day := 1; Stock_Level_tons := 10 |} ];
     lgs :=
       [ {| LG_ID := "LG1"; Storage_Capacity_tons := 500 |};
         {| LG_ID := "LG2"; Storage_Capacity_tons := 300 |} ];
     fps :=
       [ {| FPS_ID := "F1"; FPS_Name := "Shop One"; Reorder_Threshold_tons := 5 |};
         {| FPS_ID := "F2"; FPS_Name := "Shop Two"; Reorder_Threshold_tons := 10 |} ] |}.

(** The row of the FPS stock table for shop F2 on day 1: its stock of 10 t
    equals its reorder threshold. *)
Definition shop_two_day1 : Views.fps_stock_row :=
  Views.merge_row
    {| Entity_Type := "FPS"; Entity_ID := "F2"; st_Day := 1; Stock_Level_tons := 10 |}
    {| FPS_ID := "F2"; FPS_Name := "Shop Two"; Reorder_Threshold_tons := 10 |}.

(** The same plan with no vehicle: the daily capacity is zero. *)
Definition idle : workbook :=
  {| settings := {| Distribution_Days := 30;
                    Vehicle_Capacity_tons := 5;
                    Vehicles_Total := 0;
                    Max_Trips_Per_Vehicle_Per_Day := 2 |};
     dispatch_cg := dispatch_cg plan;
     dispatch_lg := dispatch_lg plan;
     stock_levels := stock_levels plan;
     lgs := lgs plan;
     fps := fps plan |}.

(** A plan that needs two days of advance dispatch (550 t due on day 1) and
    whose first delivery to shop F1 is recorded on day 0. *)
Definition early : workbook :=
  {| settings := fleet;
     dispatch_cg :=
       [ {| Dispatch_Day := 1; cg_LG_ID := "LG1"; cg_Quantity_tons := 550 |} ];
     dispatch_lg :=
       [ {| Day := 0; lg_LG_ID := "LG1"; lg_FPS_ID := "F1"; Vehicle_ID := "V1";
            Quantity_tons := 10 |} ];
     stock_levels := stock_levels plan;
     lgs := lgs plan;
     fps := fps plan |}.

(** The sample plan with a second snapshot of shop F1 on day 3. *)
Definition twice : workbook :=
  {| settings := fleet;
     dispatch_cg := dispatch_cg plan;
     dispatch_lg := dispatch_lg plan;
     stock_levels :=
       {| Entity_Type := "FPS"; Entity_ID := "F1"; st_Day := 3; Stock_Level_tons := 9 |}
       :: stock_levels plan;
     lgs := lgs plan;
     fps := fps plan |}.

End Sample.

(* ------------------------------------------------------------------ *)
(** * Start-up: the Settings sheet *)
(* ------------------------------------------------------------------ *)

Module Startup.

Record setting_row : Type := {
  s_Parameter : string;
  s_Value : Q
}.

(** [settings.query("Parameter=='k'")["Value"].iloc[0]]: the value of the
    first row that carries the parameter; [None] stands for the
    [IndexError] that [iloc[0]] raises on an empty selection. *)
Definition setting (sheet : list setting_row) (k : string) : option Q :=
  match filter (fun r => (s_Parameter r =? k)%string) sheet with
  | [] => None
  | r :: _ => Some (s_Value r)
  end.

(** [int(x)] on a float: truncation towards zero. *)
Definition int_of_float (x : Q) : Z := Z.quot (Qnum x) (Zpos (Qden x)).

(** The four assignments that open section 2 of the script, in order. *)
Definition read_settings (sheet : list setting_row) : option settings_t :=
  match setting sheet "Distribution_Days" with
  | None => None
  | Some days =>
  match setting sheet "Vehicle_Capacity_tons" with
  | None => None
  | Some cap =>
  match setting sheet "Vehicles_Total" with
  | None => None
  | Some vehicles =>
  match setting sheet "Max_Trips_Per_Vehicle_Per_Day" with
  | None => None
  | Some trips =>
      Some {| Distribution_Days := int_of_float days;
              Vehicle_Capacity_tons := cap;
              Vehicles_Total := int_of_float vehicles;
              Max_Trips_Per_Vehicle_Per_Day := int_of_float trips |}
  end end end end.

Definition required_keys : list string :=
  [ "Distribution_Days"; "Vehicle_Capacity_tons"; "Vehicles_Total";
    "Max_Trips_Per_Vehicle_Per_Day" ]%string.

End Startup.

(* ------------------------------------------------------------------ *)
(** * Sidebar: the LG check boxes *)
(* ------------------------------------------------------------------ *)

Module Sidebar.

(** The loop over [lg_stock.columns]: an LG is selected when its check box,
    keyed by the LG id, is ticked. *)
Definition selected_lgs (t : Pivot.frame) (checked : string -> bool) : list string :=
  filter checked (Pivot.columns t).

End Sidebar.

(* ------------------------------------------------------------------ *)
(** * FPS report (tab "FPS Report") *)
(* ------------------------------------------------------------------ *)

Module Report.

Definition fps_df (w : workbook) (day_range : Z * Z) : list lg_dispatch_row :=
  filter (fun r => (1 <=? Day r) && (Day r <=? snd day_range)) (dispatch_lg w).

(** One group of [groupby("FPS_ID")] with its three aggregates. *)
Record agg_row : Type := {
  a_FPS_ID : string;
  a_Total_Dispatched_tons : Q;
  a_Trips_Count : Z;
  a_Vehicle_IDs : string
}.

Definition group_of (rows : list lg_dispatch_row) (k : string) : list lg_dispatch_row :=
  filter (fun r => (lg_FPS_ID r =? k)%string) rows.

Definition aggregate (rows : list lg_dispatch_row) : list agg_row :=
  map (fun k =>
         let g := group_of rows k in
         {| a_FPS_ID := k;
            a_Total_Dispatched_tons := sum (map Quantity_tons g);
            a_Trips_Count := nunique (map Vehicle_ID g);
            a_Vehicle_IDs := String.concat "," (id_keys (map Vehicle_ID g)) |})
      (id_keys (map lg_FPS_ID rows)).

Record report_row : Type := {
  r_FPS_ID : string;
  Total_Dispatched_tons : Q;
  Trips_Count : Z;
  Vehicle_IDs : string;
  r_FPS_Name : option string
}.

Definition with_name (a : agg_row) (name : option string) : report_row :=
  {| r_FPS_ID := a_FPS_ID a;
     Total_Dispatched_tons := a_Total_Dispatched_tons a;
     Trips_Count := a_Trips_Count a;
     Vehicle_IDs := a_Vehicle_IDs a;
     r_FPS_Name := name |}.

(** [.merge(fps[["FPS_ID","FPS_Name"]], on="FPS_ID", how="left")]: a group
    without registry row keeps a missing name. *)
Definition merge_names (registry : list fps_row) (aggs : list agg_row)
    : list report_row :=
  flat_map (fun a =>
              match filter (fun f => (FPS_ID f =? a_FPS_ID a)%string) registry with
              | [] => [with_name a None]
              | fs => map (fun f => with_name a (Some (FPS_Name f))) fs
              end)
           aggs.

(** [.sort_values("Total_Dispatched_tons", ascending=False)].  pandas does
    not fix the order of rows with equal totals; this insertion keeps the
    later row of the input first among equals. *)
Fixpoint insert_desc (r : report_row) (l : list report_row) : list report_row :=
  match l with
  | [] => [r]
  | x :: l' =>
      if Qle_bool (Total_Dispatched_tons x) (Total_Dispatched_tons r)
      then r :: l
      else x :: insert_desc r l'
  end.

Definition sort_desc (l : list report_row) : list report_row :=
  fold_right insert_desc [] l.

Definition report (w : workbook) (day_range : Z * Z) : list report_row :=
  sort_desc (merge_names (fps w) (aggregate (fps_df w day_range))).

End Report.

(* ------------------------------------------------------------------ *)
(** * At-risk list (tab "FPS At-Risk") *)
(* ------------------------------------------------------------------ *)

Module AtRiskList.

Import Views.

Record arf_row : Type := {
  arf_Day : Z;
  arf_FPS_ID : string;
  arf_Stock_Level_tons : Q;
  arf_Reorder_Threshold_tons : Q
}.

Definition arf (w : workbook) (day_range : Z * Z) : list arf_row :=
  map (fun r => {| arf_Day := st_Day (snapshot r);
                   arf_FPS_ID := fs_FPS_ID r;
                   arf_Stock_Level_tons := Stock_Level_tons (snapshot r);
                   arf_Reorder_Threshold_tons := fs_Reorder_Threshold_tons r |})
      (filter (fun r => (1 <=? st_Day (snapshot r))
                        && (st_Day (snapshot r) <=? snd day_range)
                        && At_Risk r)
              (fps_stock w)).

End AtRiskList.

(* ------------------------------------------------------------------ *)
(** * Further sample workbooks *)
(* ------------------------------------------------------------------ *)

Module Cases.


(** The sample plan with twice the fleet: 400 t a day cover the 350 t of
    day 1. *)
Definition light : workbook :=
  {| settings := {| Distribution_Days := 30;
                    Vehicle_Capacity_tons := 5;
                    Vehicles_Total := 40;
                    Max_Trips_Per_Vehicle_Per_Day := 2 |};
     dispatch_cg := dispatch_cg Sample.plan;
     dispatch_lg := dispatch_lg Sample.plan;
     stock_levels := stock_levels Sample.plan;
     lgs := lgs Sample.plan;
     fps := fps Sample.plan |}.

(** The sample plan with one more CG->LG record, dated after the horizon. *)
Definition late_order : workbook :=
  {| settings := settings Sample.plan;
     dispatch_cg :=
       dispatch_cg Sample.plan
       ++ [ {| Dispatch_Day := 31; cg_LG_ID := "LG1"; cg_Quantity_tons := 900 |} ];
     dispatch_lg := dispatch_lg Sample.plan;
     stock_levels := stock_levels Sample.plan;
     lgs := lgs Sample.plan;
     fps := fps Sample.plan |}.

(** The sample plan with a second snapshot of LG1 on day 1. *)
Definition recount : workbook :=
  {| settings := settings Sample.plan;
     dispatch_cg := dispatch_cg Sample.plan;
     dispatch_lg := dispatch_lg Sample.plan;
     stock_levels :=
       {| Entity_Type := "LG"; Entity_ID := "LG1"; st_Day := 1; Stock_Level_tons := 90 |}
       :: stock_levels Sample.plan;
     lgs := lgs Sample.plan;
     fps := fps Sample.plan |}.

(** A Settings sheet for the sample fleet; the second row for the number of
    vehicles is not read. *)
Definition sheet : list Startup.setting_row :=
  [ {| Startup.s_Parameter := "Distribution_Days"; Startup.s_Value := 30 |};
    {| Startup.s_Parameter := "Vehicles_Total"; Startup.s_Value := 20 |};
    {| Startup.s_Parameter := "Vehicle_Capacity_tons"; Startup.s_Value := 5 |};
    {| Startup.s_Parameter := "Max_Trips_Per_Vehicle_Per_Day"; Startup.s_Value := 2 |};
    {| Startup.s_Parameter := "Vehicles_Total"; Startup.s_Value := 25 |} ].

(** A Settings sheet without the vehicle capacity. *)
Definition no_capacity_row : list Startup.setting_row :=
  [ {| Startup.s_Parameter := "Distribution_Days"; Startup.s_Value := 30 |};
    {| Startup.s_Parameter := "Vehicles_Total"; Startup.s_Value := 20 |};
    {| Startup.s_Parameter := "Max_Trips_Per_Vehicle_Per_Day"; Startup.s_Value := 2 |} ].

End Cases.

(* ------------------------------------------------------------------ *)
(** * The lead time and the column sums in binary64 *)
(* ------------------------------------------------------------------ *)

(** The modules above read the tonnages as exact rational numbers.  The
    interpreter computes with IEEE 754 binary64 numbers; this module embeds
    the start-up loop (lines 41-49) and the column sums (lines 54-61, 108)
    in that arithmetic, on the kernel's primitive floats. *)
Module Binary64.

Import PrimFloat FloatOps SpecFloat.

Inductive exn : Type :=
| ZeroDivisionError
| OverflowError
| ValueError.

Inductive result (A : Type) : Type :=
| Ok (a : A)
| Raise (e : exn).

Arguments Ok {A} a.
Arguments Raise {A} e.

Definition bind {A B : Type} (c : result A) (k : A -> result B) : result B :=
  match c with
  | Ok a => k a
  | Raise e => Raise e
  end.

(** The rational number a finite float stands for; [None] for an infinity
    and for a NaN. *)
Definition toQ (x : float) : option Q :=
  match Prim2SF x with
  | S754_zero _ => Some 0%Q
  | S754_finite s m e =>
      let v := if s then Z.neg m else Z.pos m in
      Some match e with
           | Z0 => inject_Z v
           | Zpos p => inject_Z (v * Z.pos (2 ^ p))
           | Zneg p => Qmake v (2 ^ p)
           end
  | S754_infinity _ | S754_nan => None
  end.

Definition value (x : float) : Q :=
  match toQ x with
  | Some q => q
  | None => 0%Q
  end.

(** An integer rounded to the nearest float. *)
Definition of_Z (n : Z) : float := SF2Prim (binary_normalize prec emax n 0 false).

(** The conversion of an [int] operand of a float operation; Python raises
    [OverflowError] on an [int] beyond the range of the floats. *)
Definition float_of_int (n : Z) : result float :=
  let x := of_Z n in
  if is_infinity x then Raise OverflowError else Ok x.

(** [math.ceil(x)]: exact on a finite float; an infinity raises
    [OverflowError] and a NaN [ValueError]. *)
Definition ceil (x : float) : result Z :=
  match toQ x with
  | Some q => Ok (Qceiling q)
  | None => Raise (if is_nan x then ValueError else OverflowError)
  end.

(** [max(l)] *)
Definition max (l : list Z) : result Z :=
  match l with
  | [] => Raise ValueError
  | x :: xs => Ok (fold_left Z.max xs x)
  end.

(** [DAILY_CAP = MAX_TRIPS * TRUCK_CAP], an [int] times a [float]. *)
Definition DAILY_CAP (MAX_TRIPS : Z) (TRUCK_CAP : float) : result float :=
  bind (float_of_int MAX_TRIPS) (fun m => Ok (m * TRUCK_CAP)%float).

(** The value of [cum_need]: the Python [int] it starts as and remains
    while [get] returns its default, the [int] 0; the numpy [float64] it
    becomes when the first day total is added. *)
Inductive number : Type :=
| PyInt (n : Z)
| Np (x : float).

Definition as_float (c : number) : float :=
  match c with
  | PyInt n => of_Z n
  | Np x => x
  end.

(** [daily_total_cg.get(d, 0)] on the series of line 41, a [float64]
    column indexed by day; [None] stands for the default. *)
Fixpoint get (s : list (Z * float)) (d : Z) : option float :=
  match s with
  | [] => None
  | (k, v) :: s' => if k =? d then Some v else get s' d
  end.

(** [cum_need += need] *)
Definition add_need (totals : list (Z * float)) (cum_need : number) (d : Z) : number :=
  match get totals d with
  | Some y => Np (as_float cum_need + y)
  | None =>
      match cum_need with
      | PyInt n => PyInt (n + 0)
      | Np x => Np (x + of_Z 0)
      end
  end.

(** [over = (cum_need - DAILY_CAP * d) / DAILY_CAP].  Dividing a Python
    float by zero raises [ZeroDivisionError]; dividing a numpy [float64] by
    zero gives an infinity or a NaN. *)
Definition overflow_ratio (cap : float) (cum_need : number) (d : Z) : result float :=
  bind (float_of_int d) (fun fd =>
    match cum_need with
    | PyInt n =>
        bind (float_of_int n) (fun c =>
          if (cap =? 0)%float then Raise ZeroDivisionError
          else Ok ((c - cap * fd) / cap)%float)
    | Np x => Ok ((x - cap * fd) / cap)%float
    end).

(** [math.ceil(over) if over>0 else 0] *)
Definition adv_entry (cap : float) (cum_need : number) (d : Z) : result Z :=
  bind (overflow_ratio cap cum_need d)
       (fun over => if (0 <? over)%float then ceil over else Ok 0).

(** The body of the [for d in range(1, DAYS+1)] loop on the state
    [(cum_need, adv)]. *)
Fixpoint adv_loop (cap : float) (totals : list (Z * float)) (cum_need : number)
    (adv : list Z) (days : list Z) : result (number * list Z) :=
  match days with
  | [] => Ok (cum_need, adv)
  | d :: days' =>
      let cum_need := add_need totals cum_need d in
      bind (adv_entry cap cum_need d)
           (fun a => adv_loop cap totals cum_need (adv ++ [a]) days')
  end.

(** Lines 42-49, given [DAILY_CAP], [DAYS] and the series of line 41. *)
Definition X (cap : float) (DAYS : Z) (daily_total_cg : list (Z * float)) : result Z :=
  bind (adv_loop cap daily_total_cg (PyInt 0) [] (Py.range 1 (DAYS + 1)))
       (fun st => max (snd st)).

(** ** The quantities of the loop as rational numbers *)

(** The demand of day [d] and the cumulative demand through day [d]: the
    exact sum of the values of the day totals of the days [1..d]. *)
Definition demand (totals : list (Z * float)) (d : Z) : Q :=
  match get totals d with
  | Some y => value y
  | None => 0%Q
  end.

Definition cumulative_demand (totals : list (Z * float)) (d : Z) : Q :=
  fold_left (fun c i => (c + demand totals i)%Q) (Py.range 1 (d + 1)) 0%Q.

(** [a] is the least non-negative number of advance days with which the
    capacity [c] a day covers the cumulative need [q] of day [d]. *)
Definition least_cover (c q : Q) (d a : Z) : Prop :=
  0 <= a
  /\ (q <= c * inject_Z (d + a))%Q
  /\ (forall y, 0 <= y -> (q <= c * inject_Z (d + y))%Q -> a <= y).

(** The float [x] is finite and stands for the rational [q]. *)
Definition stands_for (x : float) (q : Q) : bool :=
  match toQ x with
  | Some v => Qeq_bool v q
  | None => false
  end.

(** The float [x] is finite and lies in the same interval [(n-1, n]]
    between two integers as the rational [q]. *)
Definition same_ceiling (x : float) (q : Q) : bool :=
  match toQ x with
  | Some v => Qceiling v =? Qceiling q
  | None => false
  end.

(** Day [d] of the loop is computed without rounding error: the running
    sum, the conversion of [d], the product [DAILY_CAP * d] and the
    difference are the exact results on the values of their operands, and
    the quotient is rounded within its interval between two integers. *)
Definition accurate_day (cap : float) (totals : list (Z * float))
    (cum_need : number) (d : Z) : bool :=
  let cum' := as_float (add_need totals cum_need d) in
  let prod := (cap * of_Z d)%float in
  let diff := (cum' - prod)%float in
  stands_for cum' (value (as_float cum_need) + demand totals d)
  && stands_for (of_Z d) (inject_Z d)
  && stands_for prod (value cap * inject_Z d)
  && stands_for diff (value cum' - value prod)
  && same_ceiling (diff / cap)%float (value diff / value cap).

Fixpoint accurate_run (cap : float) (totals : list (Z * float)) (cum_need : number)
    (days : list Z) : bool :=
  match days with
  | [] => true
  | d :: days' =>
      accurate_day cap totals cum_need d
      && accurate_run cap totals (add_need totals cum_need d) days'
  end.

(** The whole loop is computed without rounding error. *)
Definition accurate (cap : float) (DAYS : Z) (daily_total_cg : list (Z * float)) : bool :=
  accurate_run cap daily_total_cg (PyInt 0) (Py.range 1 (DAYS + 1)).

(** ** Column sums *)

(** The sum of one group of [groupby(...).sum()] ([group_sum] of pandas):
    the values of a group are added in row order with a running
    compensation (Kahan summation), which is reset when it is not a
    number; missing values are skipped. *)
Definition group_step (st : float * float) (val : float) : float * float :=
  let (sumx, compensation) := st in
  if is_nan val then st
  else
    let y := (val - compensation)%float in
    let t := (sumx + y)%float in
    let c := (t - sumx - y)%float in
    (t, if is_nan c then 0%float else c).

Definition group_sum (l : list float) : float :=
  fst (fold_left group_step l (0%float, 0%float)).

(** The sum numpy takes of an array ([pairwise_sum] of its add loop):
    fewer than eight values are added from left to right; up to 128 values
    are added in eight interleaved partial sums, which are then added in
    pairs, the values left over after the last block of eight being added
    one by one; a longer array is split in two at a multiple of eight.
    The fuel of the recursion, the length of the array, is never
    exhausted, and [sum8] is only applied to eight partial sums. *)
Definition add8 (r a : list float) : list float :=
  map (fun p => (fst p + snd p)%float) (combine r a).

Fixpoint add_blocks (k : nat) (r a : list float) : list float * list float :=
  match k with
  | O => (r, a)
  | S k' => add_blocks k' (add8 r (firstn 8 a)) (skipn 8 a)
  end.

Definition sum8 (r : list float) : float :=
  match r with
  | [r0; r1; r2; r3; r4; r5; r6; r7] =>
      (((r0 + r1) + (r2 + r3)) + ((r4 + r5) + (r6 + r7)))%float
  | _ => fold_left PrimFloat.add r (-0)%float
  end.

Fixpoint pairwise_sum (fuel : nat) (a : list float) : float :=
  let n := List.length a in
  if (n <? 8)%nat then fold_left PrimFloat.add a (-0)%float
  else if (n <=? 128)%nat then
    let (r, rest) := add_blocks (n / 8 - 1) (firstn 8 a) (skipn 8 a) in
    fold_left PrimFloat.add rest (sum8 r)
  else
    match fuel with
    | O => nan
    | S fuel' =>
        let n2 := (n / 2 - (n / 2) mod 8)%nat in
        (pairwise_sum fuel' (firstn n2 a) + pairwise_sum fuel' (skipn n2 a))%float
    end.

(** The reduction starts from zero. *)
Definition np_sum (a : list float) : float :=
  (0 + pairwise_sum (List.length a) a)%float.

(** [column.sum()] of a [float64] column (lines 85, 108, 109): missing
    values count as zero. *)
Definition sum (column : list float) : float :=
  np_sum (map (fun x => if is_nan x then 0%float else x) column).

Record cg_dispatch_row : Type := {
  Dispatch_Day : Z;
  Quantity_tons : float
}.

(** [dispatch_cg.groupby("Dispatch_Day")["Quantity_tons"].sum()]: one total
    per day, in day order. *)
Definition day_totals_cg (dispatch_cg : list cg_dispatch_row) : list (Z * float) :=
  map (fun k => (k, group_sum (map Quantity_tons
                                 (filter (fun r => Dispatch_Day r =? k) dispatch_cg))))
      (day_keys (map Dispatch_Day dispatch_cg)).


Set Warnings "-inexact-float".

(** ** Sample inputs *)
Module Inputs.

(** One vehicle, one trip a day, a tenth of a ton a trip; a tenth of a ton
    due on day 1 and two tenths on day 2. *)
Definition tenths : list cg_dispatch_row :=
  [ {| Dispatch_Day := 1; Quantity_tons := 0.1 |};
    {| Dispatch_Day := 2; Quantity_tons := 0.2 |} ].


(** The plan of the specification's example: 350 t on day 1, 100 t on
    day 2. *)
Definition plan : list cg_dispatch_row :=
  [ {| Dispatch_Day := 1; Quantity_tons := 350 |};
    {| Dispatch_Day := 2; Quantity_tons := 100 |} ].

(** A plan within the capacity of 200 t a day. *)
Definition light : list cg_dispatch_row :=
  [ {| Dispatch_Day := 1; Quantity_tons := 150 |};
    {| Dispatch_Day := 2; Quantity_tons := 100 |} ].

End Inputs.

End Binary64.

(* ------------------------------------------------------------------ *)
(** * Facts about the table operations *)
(* ------------------------------------------------------------------ *)

Module FrameFacts.

Section SortedKeysFacts.
Context {K : Type} (cmp : K -> K -> comparison).
Hypothesis cmp_eq : forall x y, cmp x y = Eq <-> x = y.
Hypothesis cmp_trans : forall x y z, cmp x y = Lt -> cmp y z = Lt -> cmp x z = Lt.
Hypothesis cmp_gt : forall x y, cmp x y = Gt -> cmp y x = Lt.

Lemma In_insert_key (k : K) (ks : list K) (x : K) :
  In x (insert_key cmp k ks) <-> x = k \/ In x ks.
Proof.
  induction ks as [|k' ks IH]; simpl.
  - intuition.
  - destruct (cmp k k') eqn:E; simpl.
    + apply cmp_eq in E. subst k'. intuition.
    + intuition.
    + rewrite IH. intuition.
Qed.

Lemma In_sorted_keys (l : list K) (x : K) :
  In x (sorted_keys cmp l) <-> In x l.
Proof.
  induction l as [|k l IH]; simpl.
  - reflexivity.
  - rewrite In_insert_key, IH. intuition.
Qed.

Lemma insert_key_sorted (k : K) (ks : list K) :
  StronglySorted (fun x y => cmp x y = Lt) ks ->
  StronglySorted (fun x y => cmp x y = Lt) (insert_key cmp k ks).
Proof.
  induction 1 as [|k' ks Hs IH Hall]; simpl.
  - constructor; constructor.
  - destruct (cmp k k') eqn:E.
    + constructor; assumption.
    + constructor.
      * constructor; assumption.
      * constructor; [assumption|].
        rewrite Forall_forall in *. intros y Hy. eauto.
    + constructor; [assumption|].
      rewrite Forall_forall in *. intros y Hy.
      apply In_insert_key in Hy. destruct Hy as [->|Hy]; auto.
Qed.

Lemma sorted_keys_sorted (l : list K) :
  StronglySorted (fun x y => cmp x y = Lt) (sorted_keys cmp l).
Proof.
  induction l as [|k l IH]; simpl.
  - constructor.
  - apply insert_key_sorted, IH.
Qed.

Lemma sorted_NoDup (ks : list K) :
  StronglySorted (fun x y => cmp x y = Lt) ks -> NoDup ks.
Proof.
  induction 1 as [|k ks Hs IH Hall]; constructor; [|assumption].
  intro Hin. rewrite Forall_forall in Hall. specialize (Hall k Hin).
  assert (cmp k k = Eq) as E by (apply cmp_eq; reflexivity).
  congruence.
Qed.

End SortedKeysFacts.

Lemma In_day_keys (l : list Z) (d : Z) : In d (day_keys l) <-> In d l.
Proof. apply In_sorted_keys, Z.compare_eq_iff. Qed.

Lemma string_compare_refl (s : string) : String.compare s s = Eq.
Proof.
  induction s as [|a s IH]; simpl; [reflexivity|].
  unfold Ascii.compare. rewrite N.compare_refl. exact IH.
Qed.

Lemma string_compare_eq (s1 s2 : string) : String.compare s1 s2 = Eq <-> s1 = s2.
Proof.
  split.
  - apply String.compare_eq_iff.
  - intros ->. apply string_compare_refl.
Qed.

Lemma In_id_keys (l : list string) (c : string) : In c (id_keys l) <-> In c l.
Proof. apply In_sorted_keys, string_compare_eq. Qed.

Lemma day_keys_sorted (l : list Z) : StronglySorted Z.lt (day_keys l).
Proof.
  unfold day_keys.
  apply (sorted_keys_sorted Z.compare); intros *.
  - apply Z.compare_eq_iff.
  - rewrite !Z.compare_lt_iff. lia.
  - rewrite Z.compare_gt_iff, Z.compare_lt_iff. lia.
Qed.

Lemma NoDup_day_keys (l : list Z) : NoDup (day_keys l).
Proof.
  apply (sorted_NoDup Z.compare).
  - apply Z.compare_eq_iff.
  - apply day_keys_sorted.
Qed.

(** Sums over groups. *)


Lemma sum_zero {A : Type} (l : list A) : (sum (map (fun _ => 0%Q) l) == 0)%Q.
Proof.
  induction l as [|x l IH]; simpl; [|rewrite IH]; ring.
Qed.

Lemma sum_pick_absent (k0 : Z) (v : Q) (g : Z -> Q) (ks : list Z) :
  ~ In k0 ks ->
  (sum (map (fun k => if k0 =? k then v + g k else g k) ks) == sum (map g ks))%Q.
Proof.
  induction ks as [|k ks IH]; simpl; intros Hn.
  - reflexivity.
  - destruct (Z.eqb_spec k0 k) as [->|Hk]; [tauto|].
    rewrite IH by tauto. reflexivity.
Qed.

Lemma sum_pick_present (k0 : Z) (v : Q) (g : Z -> Q) (ks : list Z) :
  NoDup ks -> In k0 ks ->
  (sum (map (fun k => if k0 =? k then v + g k else g k) ks)
   == v + sum (map g ks))%Q.
Proof.
  induction 1 as [|k ks Hk Hnd IH]; simpl; intros Hin.
  - contradiction.
  - destruct (Z.eqb_spec k0 k) as [->|Hne].
    + rewrite sum_pick_absent by assumption. ring.
    + rewrite IH by (destruct Hin; congruence). ring.
Qed.

Section Groups.
Context {A : Type} (key : A -> Z) (val : A -> Q).

Lemma sum_groups (ks : list Z) (rows : list A) :
  NoDup ks ->
  (forall r, In r rows -> In (key r) ks) ->
  (sum (map (fun k => sum (map val (filter (fun r => key r =? k) rows))) ks)
   == sum (map val rows))%Q.
Proof.
  intros Hnd. induction rows as [|r rows IH]; intros Hks.
  - simpl. apply sum_zero.
  - rewrite (map_ext _
      (fun k => if key r =? k
                then (val r +
                      (fun k => sum (map val (filter (fun r => key r =? k) rows))) k)%Q
                else (fun k => sum (map val (filter (fun r => key r =? k) rows))) k)).
    + rewrite sum_pick_present.
      * simpl. rewrite IH; [reflexivity|]. intros; apply Hks; right; assumption.
      * assumption.
      * apply Hks. left. reflexivity.
    + intros k. simpl. destruct (key r =? k); reflexivity.
Qed.

Lemma filter_key_absent (k : Z) (rows : list A) :
  ~ In k (map key rows) -> filter (fun r => key r =? k) rows = [].
Proof.
  induction rows as [|r rows IH]; simpl; intros Hn; [reflexivity|].
  destruct (Z.eqb_spec (key r) k) as [Hk|_]; [tauto|]. apply IH. tauto.
Qed.

Lemma get_groups (F : Z -> Q) (ks : list Z) (d : Z) :
  get (map (fun k => (k, F k)) ks) d 0 = if in_dec Z.eq_dec d ks then F d else 0%Q.
Proof.
  induction ks as [|k ks IH]; simpl; [reflexivity|].
  destruct (Z.eqb_spec k d) as [->|Hne].
  - destruct (Z.eq_dec d d); [reflexivity|congruence].
  - rewrite IH. destruct (Z.eq_dec k d); [congruence|].
    destruct (in_dec Z.eq_dec d ks); reflexivity.
Qed.

(** [get] on a grouped series returns the total of the day's rows, and the
    default 0 is the empty sum for a day without rows. *)
Lemma get_groupby_sum (rows : list A) (d : Z) :
  get (groupby_sum key val rows) d 0
  = sum (map val (filter (fun r => key r =? d) rows)).
Proof.
  unfold groupby_sum. rewrite get_groups.
  destruct (in_dec Z.eq_dec d (day_keys (map key rows))) as [_|Hn]; [reflexivity|].
  rewrite filter_key_absent; [reflexivity|].
  intros H. apply Hn, In_day_keys, H.
Qed.

Lemma groupby_sum_keys (rows : list A) :
  map fst (groupby_sum key val rows) = day_keys (map key rows).
Proof.
  unfold groupby_sum. rewrite map_map. simpl. apply map_id.
Qed.

Lemma groupby_sum_total (rows : list A) :
  (sum (map snd (groupby_sum key val rows)) == sum (map val rows))%Q.
Proof.
  unfold groupby_sum. rewrite map_map. simpl.
  apply sum_groups.
  - apply NoDup_day_keys.
  - intros r Hr. apply In_day_keys, in_map, Hr.
Qed.

Lemma filter_key_filter (P : Z -> bool) (k : Z) (rows : list A) :
  P k = true ->
  filter (fun r => key r =? k) (filter (fun r => P (key r)) rows)
  = filter (fun r => key r =? k) rows.
Proof.
  intros HP. induction rows as [|r rows IH]; simpl; [reflexivity|].
  destruct (P (key r)) eqn:E; simpl.
  - rewrite IH. reflexivity.
  - destruct (Z.eqb_spec (key r) k) as [Hk|_]; [congruence|exact IH].
Qed.

(** Selecting groups by a condition on the key and adding their totals
    gives the sum of the rows whose key meets the condition. *)
Lemma groupby_sum_filter (P : Z -> bool) (rows : list A) :
  (sum (map snd (filter (fun e => P (fst e)) (groupby_sum key val rows)))
   == sum (map val (filter (fun r => P (key r)) rows)))%Q.
Proof.
  unfold groupby_sum.
  assert (forall (F : Z -> Q) ks,
            map snd (filter (fun e : Z * Q => P (fst e)) (map (fun k => (k, F k)) ks))
            = map F (filter P ks)) as Hswap.
  { intros F ks. induction ks as [|k ks IH]; simpl; [reflexivity|].
    destruct (P k); simpl; rewrite IH; reflexivity. }
  rewrite Hswap.
  rewrite (map_ext_in _
    (fun k => sum (map val (filter (fun r => key r =? k)
                              (filter (fun r => P (key r)) rows))))).
  - apply sum_groups.
    + apply NoDup_filter, NoDup_day_keys.
    + intros r Hr. apply filter_In in Hr. destruct Hr as (Hr & HP).
      apply filter_In. split; [|exact HP]. apply In_day_keys, in_map, Hr.
  - intros k Hk. apply filter_In in Hk. destruct Hk as (_ & HP).
    rewrite filter_key_filter by exact HP. reflexivity.
Qed.

End Groups.

(** ** Groups as a partition of the rows *)

Section Partition.
Context {A K : Type} (eqb : K -> K -> bool).
Context (eqb_eq : forall x y, eqb x y = true <-> x = y).
Context (key : A -> K).

Lemma filter_split_perm (P : A -> bool) (l : list A) :
  Permutation (filter P l ++ filter (fun x => negb (P x)) l) l.
Proof.
  induction l as [|x l IH]; cbn [filter]; [constructor|].
  destruct (P x); cbn [negb app].
  - constructor. exact IH.
  - symmetry. apply Permutation_cons_app. symmetry. exact IH.
Qed.

Lemma flat_map_ext_In {B C : Type} (f g : B -> list C) (l : list B) :
  (forall x, In x l -> f x = g x) -> flat_map f l = flat_map g l.
Proof.
  induction l as [|x l IH]; intros H; cbn [flat_map]; [reflexivity|].
  rewrite (H x (or_introl eq_refl)), IH; [reflexivity|].
  intros y Hy. apply H. right. exact Hy.
Qed.

Lemma filter_other_key (k k' : K) (rows : list A) :
  k' <> k ->
  filter (fun r => eqb (key r) k') (filter (fun r => negb (eqb (key r) k)) rows)
  = filter (fun r => eqb (key r) k') rows.
Proof.
  intros Hne. induction rows as [|r rows IH]; cbn [filter]; [reflexivity|].
  destruct (eqb (key r) k) eqn:E; cbn [negb filter].
  - apply eqb_eq in E. destruct (eqb (key r) k') eqn:E'; [|exact IH].
    apply eqb_eq in E'. congruence.
  - rewrite IH. reflexivity.
Qed.

(** The groups of a table by key are a rearrangement of its rows: every
    row is in the group of its key and in no other. *)
Lemma groups_partition (keys : list K) :
  NoDup keys ->
  forall rows, (forall r, In r rows -> In (key r) keys) ->
  Permutation (flat_map (fun k => filter (fun r => eqb (key r) k) rows) keys) rows.
Proof.
  induction 1 as [|k keys Hk Hnd IH]; intros rows Hin.
  - destruct rows as [|r rows]; [constructor|].
    destruct (Hin r (or_introl eq_refl)).
  - cbn [flat_map].
    etransitivity; [|apply (filter_split_perm (fun r => eqb (key r) k))].
    apply Permutation_app_head.
    etransitivity; [|apply IH].
    + rewrite (flat_map_ext_In _
                 (fun k' => filter (fun r => eqb (key r) k')
                              (filter (fun r => negb (eqb (key r) k)) rows)));
        [reflexivity|].
      intros k' Hk'. symmetry. apply filter_other_key.
      intros ->. contradiction.
    + intros r Hr. apply filter_In in Hr. destruct Hr as (Hr & Hne).
      destruct (Hin r Hr) as [E|Hin']; [|exact Hin'].
      cbv beta in Hne. rewrite (proj2 (eqb_eq (key r) k) (eq_sym E)) in Hne. discriminate.
Qed.

End Partition.

End FrameFacts.

(* ------------------------------------------------------------------ *)
(** * The feasibility window *)
(* ------------------------------------------------------------------ *)

Module FeasibilityFacts.

Import Feasibility.

Lemma range_from_app (a b : nat) (lo : Z) :
  range_from lo (a + b) = range_from lo a ++ range_from (lo + Z.of_nat a) b.
Proof.
  revert lo. induction a as [|a IH]; intros lo.
  - simpl. f_equal. lia.
  - cbn [Nat.add range_from app]. rewrite IH. do 3 f_equal. lia.
Qed.

Lemma range_split (d n : Z) :
  1 <= d <= n ->
  range 1 (n + 1) = range 1 d ++ d :: range (d + 1) (n + 1).
Proof.
  intros Hd. unfold range.
  replace (Z.to_nat (n + 1 - 1)) with (Z.to_nat (d - 1) + S (Z.to_nat (n - d)))%nat by lia.
  rewrite range_from_app. f_equal.
  replace (1 + Z.of_nat (Z.to_nat (d - 1))) with d by lia.
  replace (Z.to_nat (n + 1 - (d + 1))) with (Z.to_nat (n - d)) by lia.
  reflexivity.
Qed.

Lemma range_snoc (d : Z) : 1 <= d -> range 1 d ++ [d] = range 1 (d + 1).
Proof.
  intros Hd. unfold range.
  replace (Z.to_nat (d + 1 - 1)) with (Z.to_nat (d - 1) + 1)%nat by lia.
  rewrite range_from_app. cbn [range_from]. do 2 f_equal. lia.
Qed.

Lemma range_from_split_inv (pre : list Z) :
  forall (lo : Z) (n : nat) (d : Z) (post : list Z),
  range_from lo n = pre ++ d :: post ->
  d = lo + Z.of_nat (List.length pre)
  /\ pre = range_from lo (List.length pre)
  /\ (List.length pre < n)%nat.
Proof.
  induction pre as [|p pre IH]; intros lo n d post H.
  - destruct n as [|n]; simpl in H; [discriminate|].
    injection H as -> _. simpl. repeat split; lia.
  - destruct n as [|n]; simpl in H; [discriminate|].
    injection H as -> Htl.
    destruct (IH _ _ _ _ Htl) as (Hd & Hpre & Hlen).
    simpl. repeat split; [lia| |lia].
    f_equal. exact Hpre.
Qed.

Lemma range_split_inv (n : Z) (pre : list Z) (d : Z) (post : list Z) :
  range 1 (n + 1) = pre ++ d :: post ->
  1 <= d <= n /\ pre ++ [d] = range 1 (d + 1).
Proof.
  unfold range at 1. intros H.
  destruct (range_from_split_inv _ _ _ _ _ H) as (Hd & Hpre & Hlen).
  assert (1 <= d <= n) as Hdn by lia.
  split; [exact Hdn|].
  rewrite <- range_snoc by lia. f_equal.
  rewrite Hpre at 1. unfold range. f_equal. lia.
Qed.

Lemma In_range_from (n : nat) :
  forall lo x, In x (range_from lo n) <-> lo <= x < lo + Z.of_nat n.
Proof.
  induction n as [|n IH]; intros lo x; cbn [range_from In].
  - lia.
  - rewrite IH. lia.
Qed.

Lemma NoDup_range_from (n : nat) : forall lo, NoDup (range_from lo n).
Proof.
  induction n as [|n IH]; intros lo; cbn [range_from]; constructor.
  - rewrite In_range_from. lia.
  - apply IH.
Qed.

Lemma fold_add_need (totals : list (Z * Q)) (l : list Z) :
  forall c0,
  (fold_left (add_need totals) l c0
   == c0 + sum (map (fun d => get totals d 0) l))%Q.
Proof.
  induction l as [|d l IH]; intros c0; cbn [fold_left map sum].
  - ring.
  - rewrite IH. unfold add_need. ring.
Qed.

(** The running sum of the loop is the cumulative demand of the records:
    the total quantity of the CG->LG records of the days [1..d]. *)
Lemma cumulative_need_raw (w : workbook) (d : Z) :
  (cumulative_need w d == cumulative_demand w d)%Q.
Proof.
  unfold cumulative_need, daily_total_cg, cumulative_demand.
  rewrite fold_add_need.
  rewrite (map_ext _ (fun k => sum (map cg_Quantity_tons
                                      (filter (fun r => Dispatch_Day r =? k)
                                              (dispatch_cg w)))))
    by (intros k; apply FrameFacts.get_groupby_sum).
  rewrite (map_ext_in _
    (fun k => sum (map cg_Quantity_tons
                     (filter (fun r => Dispatch_Day r =? k)
                        (filter (fun r => (fun k => (1 <=? k) && (k <=? d))
                                            (Dispatch_Day r))
                                (dispatch_cg w)))))).
  - rewrite FrameFacts.sum_groups.
    + cbn beta. ring.
    + apply NoDup_range_from.
    + intros r Hr. apply filter_In in Hr. destruct Hr as (_ & Hr).
      apply andb_true_iff in Hr. destruct Hr as (H1 & H2).
      apply Z.leb_le in H1. apply Z.leb_le in H2.
      unfold range. apply In_range_from. lia.
  - intros k Hk. unfold range in Hk. apply In_range_from in Hk.
    rewrite (FrameFacts.filter_key_filter Dispatch_Day
               (fun k => (1 <=? k) && (k <=? d))); [reflexivity|].
    apply andb_true_iff. split; apply Z.leb_le; lia.
Qed.

(** What the loop appends for one day: the least non-negative number of
    advance days that covers the cumulative need of that day. *)
Lemma adv_entry_spec (cap c : Q) (d : Z) :
  (0 < cap)%Q ->
  exists a, adv_entry cap c d = Ok a
    /\ 0 <= a
    /\ (c <= cap * inject_Z (d + a))%Q
    /\ (forall y, 0 <= y -> (c <= cap * inject_Z (d + y))%Q -> a <= y).
Proof.
  intros Hcap. unfold adv_entry, Py.div.
  destruct (Qeq_bool cap 0) eqn:E.
  { apply Qeq_bool_iff in E. lra. }
  cbn [bind].
  set (over := ((c - cap * inject_Z d) / cap)%Q).
  assert (c == cap * inject_Z d + cap * over)%Q as Hc.
  { unfold over. field. lra. }
  eexists. split; [reflexivity|].
  unfold gt0. destruct (0 ?= over)%Q eqn:Hcmp.
  - apply Qeq_alt in Hcmp.
    repeat split; [lia| |intros; lia].
    rewrite Hc, <- Hcmp, Z.add_0_r. lra.
  - apply Qlt_alt in Hcmp.
    pose proof (Qle_ceiling over) as Hceil.
    repeat split.
    + assert (0 < inject_Z (Qceiling over))%Q as Hpos by lra.
      rewrite <- (Zlt_Qlt 0) in Hpos. lia.
    + rewrite Hc, inject_Z_plus.
      assert (cap * over <= cap * inject_Z (Qceiling over))%Q
        by (apply Qmult_le_l; assumption).
      lra.
    + intros y Hy Hfeas. rewrite Hc, inject_Z_plus in Hfeas.
      assert (cap * over <= cap * inject_Z y)%Q as Hle by lra.
      apply Qmult_le_l in Hle; [|assumption].
      apply Qceiling_resp_le in Hle. rewrite Qceiling_Z in Hle. exact Hle.
  - apply Qgt_alt in Hcmp.
    repeat split; [lia| |intros; lia].
    rewrite Hc, Z.add_0_r.
    assert (cap * over <= cap * 0)%Q
      by (apply Qmult_le_l; [assumption|lra]).
    lra.
Qed.

(** The loop never fails for a positive capacity, and [adv] receives exactly
    one entry per day, computed from the running sum through that day. *)
Lemma adv_loop_spec (cap : Q) (totals : list (Z * Q)) :
  (0 < cap)%Q ->
  forall (days : list Z) (c0 : Q) (adv0 : list Z),
  exists adv,
    adv_loop cap totals c0 adv0 days
      = Ok (fold_left (add_need totals) days c0, adv0 ++ adv)
    /\ (forall a, In a adv ->
          exists pre d post, days = pre ++ d :: post
            /\ adv_entry cap (fold_left (add_need totals) (pre ++ [d]) c0) d = Ok a)
    /\ (forall pre d post, days = pre ++ d :: post ->
          exists a, In a adv
            /\ adv_entry cap (fold_left (add_need totals) (pre ++ [d]) c0) d = Ok a).
Proof.
  intros Hcap. induction days as [|d0 days IH]; intros c0 adv0.
  - exists []. simpl. rewrite app_nil_r. split; [reflexivity|].
    split; [contradiction|].
    intros [|? ?] ? ? H; discriminate.
  - destruct (adv_entry_spec cap (add_need totals c0 d0) d0 Hcap) as (a0 & Ha0 & _).
    destruct (IH (add_need totals c0 d0) (adv0 ++ [a0])) as (adv & Hrun & Hin & Hall).
    exists (a0 :: adv). split; [|split].
    + cbn [adv_loop]. rewrite Ha0. cbn [bind]. rewrite Hrun, <- app_assoc. reflexivity.
    + intros a [<-|Ha].
      * exists [], d0, days. split; [reflexivity|exact Ha0].
      * destruct (Hin a Ha) as (pre & d & post & -> & He).
        exists (d0 :: pre), d, post. split; [reflexivity|exact He].
    + intros [|p pre] d post H.
      * injection H as <- _. exists a0. split; [left; reflexivity|exact Ha0].
      * injection H as <- Htl.
        destruct (Hall pre d post Htl) as (a & Ha & He).
        exists a. split; [right; exact Ha|exact He].
Qed.

Lemma fold_max_spec (l : list Z) :
  forall x, let m := fold_left Z.max l x in
  (m = x \/ In m l) /\ x <= m /\ forall a, In a l -> a <= m.
Proof.
  induction l as [|y l IH]; intros x; simpl.
  - split; [left; reflexivity|]. split; [lia|contradiction].
  - destruct (IH (Z.max x y)) as (Hin & Hle & Hall).
    split; [|split].
    + destruct Hin as [Hm|Hm]; [|right; right; exact Hm].
      rewrite Hm. destruct (Z.max_spec x y) as [[_ ->]|[_ ->]]; auto.
    + lia.
    + intros a [<-|Ha]; [lia|auto].
Qed.

Lemma max_spec (l : list Z) :
  l <> [] ->
  exists m, Py.max l = Ok m /\ In m l /\ forall a, In a l -> a <= m.
Proof.
  destruct l as [|x l]; [congruence|]. intros _.
  exists (fold_left Z.max l x). split; [reflexivity|].
  destruct (fold_max_spec l x) as (Hin & Hle & Hall).
  split.
  - destruct Hin as [->|Hin]; [left; reflexivity|right; exact Hin].
  - intros a [<-|Ha]; auto.
Qed.

(** The offset computed at start-up, for a horizon of at least one day and
    a positive daily capacity. *)
Lemma X_spec (w : workbook) :
  1 <= DAYS w -> (0 < DAILY_CAP w)%Q ->
  exists x, X w = Ok x
    /\ 0 <= x
    /\ feasible w x
    /\ (forall y, 0 <= y -> feasible w y -> x <= y).
Proof.
  intros Hdays Hcap. unfold X.
  destruct (adv_loop_spec (DAILY_CAP w) (daily_total_cg w) Hcap
              (range 1 (DAYS w + 1)) 0%Q []) as (adv & Hrun & Hin & Hall).
  rewrite Hrun. cbn [bind snd app].
  assert (adv <> []) as Hne.
  { destruct (Hall [] 1 (range 2 (DAYS w + 1))) as (a & Ha & _).
    - rewrite (range_split 1 (DAYS w)) by lia. reflexivity.
    - intros ->. contradiction. }
  destruct (max_spec adv Hne) as (m & Hm & Hmin & Hmax).
  exists m. split; [exact Hm|].
  destruct (Hin m Hmin) as (pre & d & post & Hsplit & Hentry).
  apply range_split_inv in Hsplit. destruct Hsplit as (Hd & Hpre).
  rewrite Hpre in Hentry.
  destruct (adv_entry_spec (DAILY_CAP w)
              (fold_left (add_need (daily_total_cg w)) (range 1 (d + 1)) 0%Q) d Hcap)
    as (a & Ha & Hpos & _ & Hleast).
  rewrite Ha in Hentry. injection Hentry as ->.
  split; [exact Hpos|]. split.
  - intros d' Hd'. unfold cumulative_need.
    destruct (Hall _ _ _ (range_split d' (DAYS w) Hd')) as (a' & Ha'in & Ha').
    rewrite range_snoc in Ha' by lia.
    destruct (adv_entry_spec (DAILY_CAP w)
                (fold_left (add_need (daily_total_cg w)) (range 1 (d' + 1)) 0%Q) d' Hcap)
      as (a'' & Ha'' & _ & Hcover & _).
    rewrite Ha'' in Ha'. injection Ha' as ->.
    specialize (Hmax a' Ha'in).
    rewrite inject_Z_plus in *.
    assert (DAILY_CAP w * inject_Z a' <= DAILY_CAP w * inject_Z m)%Q.
    { apply Qmult_le_l; [assumption|]. rewrite <- Zle_Qle. exact Hmax. }
    lra.
  - intros y Hy Hfeas. apply Hleast; [exact Hy|]. apply Hfeas. exact Hd.
Qed.

(** The example of the specification: 350 t due on day 1 against 200 t a
    day give an offset of one day. *)
Example X_plan : X Sample.plan = Ok 1.
Proof. vm_compute. reflexivity. Qed.



(** On the sample plan the slider runs over [0, 30]. *)
Example slider_plan :
  day_range_slider Sample.plan
  = Ok {| min_value := 0; max_value := 30; value := (0, 30) |}.
Proof. vm_compute. reflexivity. Qed.

End FeasibilityFacts.

(* ------------------------------------------------------------------ *)
(** * Pivot and forward fill *)
(* ------------------------------------------------------------------ *)

Module PivotFacts.

Import Pivot.

Lemma fill_row_nil (row : list (option Q)) : fill_row [] row = row.
Proof.
  induction row as [|c row IH]; simpl; [reflexivity|].
  rewrite IH. destruct c; reflexivity.
Qed.

Lemma fill_row_idem (row : list (option Q)) :
  forall prev, fill_row prev (fill_row prev row) = fill_row prev row.
Proof.
  induction row as [|c row IH]; intros prev; simpl; [reflexivity|].
  rewrite IH. f_equal.
  destruct c as [v|]; [reflexivity|].
  destruct (hd None prev); reflexivity.
Qed.

Lemma ffill_from_idem (rows : list (list (option Q))) :
  forall prev, ffill_from prev (ffill_from prev rows) = ffill_from prev rows.
Proof.
  induction rows as [|r rows IH]; intros prev; simpl; [reflexivity|].
  rewrite fill_row_idem. f_equal. apply IH.
Qed.

Lemma ffill_idem (f : frame) : ffill (ffill f) = ffill f.
Proof.
  unfold ffill. simpl. f_equal. apply ffill_from_idem.
Qed.

Section Column.
Context (raw : Z -> string -> option Q) (cols : list string).

Lemma fill_row_map (p : string -> option Q) (d : Z) :
  fill_row (map p cols) (map (raw d) cols)
  = map (fun c => carry raw c (p c) d) cols.
Proof.
  induction cols as [|c cs IH]; simpl; [reflexivity|].
  rewrite IH. reflexivity.
Qed.

Lemma ffill_from_first (ds : list Z) :
  ffill_from [] (map (fun d => map (raw d) cols) ds)
  = ffill_from (map (fun _ => None) cols) (map (fun d => map (raw d) cols) ds).
Proof.
  destruct ds as [|d ds]; simpl; [reflexivity|].
  rewrite fill_row_nil, fill_row_map.
  assert (map (raw d) cols = map (fun c => carry raw c None d) cols) as ->.
  { apply map_ext. intros c. unfold carry. destruct (raw d c); reflexivity. }
  reflexivity.
Qed.

(** Row [d] of the filled table holds, in every column, the value carried
    over the index from its first day through [d]. *)
Lemma lookup_row_filled (ds : list Z) :
  forall (p : string -> option Q) (d : Z),
  In d ds ->
  exists pre post,
    ds = pre ++ d :: post
    /\ lookup_row ds (ffill_from (map p cols) (map (fun d => map (raw d) cols) ds)) d
       = Ok (map (fun c => fold_left (carry raw c) (pre ++ [d]) (p c)) cols).
Proof.
  induction ds as [|d0 ds IH]; intros p d Hin; [contradiction|].
  cbn [map ffill_from lookup_row]. rewrite fill_row_map.
  destruct (Z.eqb_spec d0 d) as [->|Hne].
  - exists [], ds. split; reflexivity.
  - destruct Hin as [Heq|Hin]; [congruence|].
    destruct (IH (fun c => carry raw c (p c) d0) d Hin) as (pre & post & -> & Hrow).
    exists (d0 :: pre), post. split; [reflexivity|].
    rewrite Hrow. reflexivity.
Qed.

Lemma lookup_row_missing (ds : list Z) (rows : list (list (option Q))) (d : Z) :
  ~ In d ds -> lookup_row ds rows d = Raise KeyError.
Proof.
  revert rows. induction ds as [|d0 ds IH]; intros rows Hn; [reflexivity|].
  destruct rows as [|r rows]; [reflexivity|]. simpl.
  destruct (Z.eqb_spec d0 d) as [->|Hne].
  - exfalso. apply Hn. left. reflexivity.
  - apply IH. intros H. apply Hn. right. exact H.
Qed.

Lemma lookup_col_map (g : string -> option Q) (c : string) :
  In c cols -> lookup_col cols (map g cols) c = Ok (g c).
Proof.
  induction cols as [|k cs IH]; intros Hin; [contradiction|]. simpl.
  destruct (String.eqb_spec k c) as [->|Hne]; [reflexivity|].
  destruct Hin as [Heq|Hin]; [congruence|]. apply IH, Hin.
Qed.

Lemma lookup_col_missing (row : list (option Q)) (c : string) :
  ~ In c cols -> lookup_col cols row c = Raise KeyError.
Proof.
  revert row. induction cols as [|k cs IH]; intros row Hn; [reflexivity|].
  destruct row as [|v row]; [reflexivity|]. simpl.
  destruct (String.eqb_spec k c) as [->|Hne].
  - exfalso. apply Hn. left. reflexivity.
  - apply IH. intros H. apply Hn. right. exact H.
Qed.

(** A carried value comes from the last day of the list that records one. *)
Lemma carry_some (c : string) (l : list Z) (v : Q) :
  fold_left (carry raw c) l None = Some v ->
  exists l1 d l2, l = l1 ++ d :: l2
    /\ raw d c = Some v
    /\ forall d', In d' l2 -> raw d' c = None.
Proof.
  induction l as [|x l IH] using rev_ind; intros H; [discriminate|].
  rewrite fold_left_app in H. cbn [fold_left] in H. unfold carry at 1 in H.
  destruct (raw x c) as [v'|] eqn:Hx.
  - injection H as ->. exists l, x, []. repeat split; [assumption|contradiction].
  - destruct (IH H) as (l1 & d & l2 & -> & Hd & Hl2).
    exists l1, d, (l2 ++ [x]). rewrite <- app_assoc. repeat split; [assumption|].
    intros d' Hd'. apply in_app_or in Hd'. destruct Hd' as [Hd'|[<-|[]]]; auto.
Qed.

Lemma carry_none (c : string) (l : list Z) :
  (forall d, In d l -> raw d c = None) ->
  fold_left (carry raw c) l None = None.
Proof.
  induction l as [|x l IH] using rev_ind; intros H; [reflexivity|].
  rewrite fold_left_app. cbn [fold_left]. unfold carry at 1.
  rewrite (H x) by (apply in_or_app; right; left; reflexivity).
  apply IH. intros d Hd. apply H, in_or_app. left. exact Hd.
Qed.

End Column.

Lemma sorted_split (l1 l2 : list Z) (x : Z) :
  StronglySorted Z.lt (l1 ++ x :: l2) ->
  (forall y, In y l1 -> y < x) /\ (forall y, In y l2 -> x < y).
Proof.
  induction l1 as [|a l1 IH]; simpl; intros H; inversion H as [|? ? Hs Hall]; subst.
  - split; [contradiction|]. rewrite Forall_forall in Hall. exact Hall.
  - destruct (IH Hs) as (Hlt & Hgt). split; [|exact Hgt].
    intros y [<-|Hy]; [|auto].
    rewrite Forall_forall in Hall. apply Hall, in_or_app. right. left. reflexivity.
Qed.

Lemma sorted_prefix (l1 l2 : list Z) :
  StronglySorted Z.lt (l1 ++ l2) -> StronglySorted Z.lt l1.
Proof.
  induction l1 as [|a l1 IH]; simpl; intros H; [constructor|].
  inversion H as [|? ? Hs Hall]; subst. constructor; [auto|].
  rewrite Forall_forall in *. intros y Hy. apply Hall, in_or_app. left. exact Hy.
Qed.

Lemma raw_cell_some (rows : list stock_row) (d : Z) (c : string) (v : Q) :
  raw_cell rows d c = Some v ->
  exists r, In r rows /\ st_Day r = d /\ Entity_ID r = c /\ Stock_Level_tons r = v.
Proof.
  unfold raw_cell.
  destruct (filter (same_cell d c) rows) as [|r rs] eqn:E; [discriminate|].
  simpl. intros H. injection H as <-.
  assert (In r (filter (same_cell d c) rows)) as Hr by (rewrite E; left; reflexivity).
  apply filter_In in Hr. destruct Hr as (Hin & Hsame).
  unfold same_cell in Hsame. apply andb_true_iff in Hsame.
  destruct Hsame as (Hd & Hc). apply Z.eqb_eq in Hd. apply String.eqb_eq in Hc.
  exists r. repeat split; assumption.
Qed.

Lemma raw_cell_none (rows : list stock_row) (d : Z) (c : string) :
  raw_cell rows d c = None ->
  forall r, In r rows -> Entity_ID r = c -> st_Day r <> d.
Proof.
  unfold raw_cell.
  destruct (filter (same_cell d c) rows) as [|r0 rs] eqn:E; [|discriminate].
  intros _ r Hin Hc Hd.
  assert (In r (filter (same_cell d c) rows)) as Hr.
  { apply filter_In. split; [exact Hin|]. unfold same_cell.
    apply andb_true_iff. split; [apply Z.eqb_eq|apply String.eqb_eq]; assumption. }
  rewrite E in Hr. contradiction.
Qed.

Lemma raw_cell_absent (rows : list stock_row) (d : Z) (c : string) :
  (forall r, In r rows -> Entity_ID r = c -> st_Day r <> d) ->
  raw_cell rows d c = None.
Proof.
  intros H. destruct (raw_cell rows d c) as [v|] eqn:E; [|reflexivity].
  destruct (raw_cell_some _ _ _ _ E) as (r & Hin & Hd & Hc & _).
  exfalso. exact (H r Hin Hc Hd).
Qed.

(** The cells of a pivoted and filled table, read by label. *)
Lemma filled_cell (rows : list stock_row) (t : frame) (d : Z) (c : string) :
  pivot rows = Ok t ->
  In d (index t) -> In c (columns t) ->
  exists pre post,
    day_keys (map st_Day rows) = pre ++ d :: post
    /\ loc_cell (ffill t) d c
       = Ok (fold_left (carry (raw_cell rows) c) (pre ++ [d]) None).
Proof.
  unfold pivot. destruct (has_duplicates rows); [discriminate|].
  intros H. injection H as <-. cbn [index columns]. intros Hd Hc.
  unfold loc_cell, loc_row, ffill. cbn [index columns cells].
  rewrite ffill_from_first.
  destruct (lookup_row_filled (raw_cell rows) (id_keys (map Entity_ID rows))
              (day_keys (map st_Day rows)) (fun _ => None) d Hd)
    as (pre & post & Hsplit & Hrow).
  exists pre, post. split; [exact Hsplit|].
  rewrite Hrow. cbn [bind].
  apply (lookup_col_map (id_keys (map Entity_ID rows))
           (fun c => fold_left (carry (raw_cell rows) c) (pre ++ [d]) None)).
  exact Hc.
Qed.

Lemma loc_row_filled (rows : list stock_row) (t : frame) (d : Z) :
  pivot rows = Ok t ->
  In d (index (ffill t)) ->
  exists row, loc_row (ffill t) d = Ok row.
Proof.
  unfold pivot. destruct (has_duplicates rows); [discriminate|].
  intros H. injection H as <-. cbn [ffill index]. intros Hd.
  unfold loc_row, ffill. cbn [index cells].
  rewrite ffill_from_first.
  destruct (lookup_row_filled (raw_cell rows) (id_keys (map Entity_ID rows))
              (day_keys (map st_Day rows)) (fun _ => None) d Hd)
    as (pre & post & _ & Hrow).
  eexists. exact Hrow.
Qed.

Lemma loc_cell_labels (t : frame) (d : Z) (c : string) (x : option Q) :
  loc_cell t d c = Ok x -> In d (index t) /\ In c (columns t).
Proof.
  unfold loc_cell, loc_row. intros H. split.
  - destruct (in_dec Z.eq_dec d (index t)) as [Hin|Hn]; [exact Hin|].
    rewrite lookup_row_missing in H by exact Hn. discriminate.
  - destruct (in_dec string_dec c (columns t)) as [Hin|Hn]; [exact Hin|].
    destruct (lookup_row (index t) (cells t) d) as [row|e]; [|discriminate].
    cbn [bind] in H. rewrite lookup_col_missing in H by exact Hn. discriminate.
Qed.

(** A present cell of the filled table carries the value of the latest
    input row of its column at or before its day. *)
Lemma filled_cell_latest (rows : list stock_row) (t : frame)
    (d : Z) (c : string) (v : Q) :
  pivot rows = Ok t ->
  loc_cell (ffill t) d c = Ok (Some v) ->
  exists r, In r rows
    /\ Entity_ID r = c
    /\ st_Day r <= d
    /\ Stock_Level_tons r = v
    /\ (forall r', In r' rows -> Entity_ID r' = c -> st_Day r' <= d ->
          st_Day r' <= st_Day r).
Proof.
  intros Hp Hcell.
  destruct (loc_cell_labels _ _ _ _ Hcell) as (Hd & Hc).
  destruct (filled_cell rows t d c Hp Hd Hc) as (pre & post & Hsplit & Hval).
  cbn [ffill index columns] in Hval. rewrite Hval in Hcell. injection Hcell as Hcarry.
  destruct (carry_some _ _ _ _ Hcarry) as (l1 & d' & l2 & Hl & Hraw & Hnone).
  destruct (raw_cell_some _ _ _ _ Hraw) as (r & Hin & Hday & Hid & Hv).
  pose proof (FrameFacts.day_keys_sorted (map st_Day rows)) as Hsorted.
  rewrite Hsplit in Hsorted.
  destruct (sorted_split _ _ _ Hsorted) as (Hpre & Hpost).
  assert (StronglySorted Z.lt (l1 ++ d' :: l2)) as Hsorted'.
  { rewrite <- Hl. apply (sorted_prefix _ post).
    rewrite <- app_assoc. exact Hsorted. }
  destruct (sorted_split _ _ _ Hsorted') as (_ & Hl2).
  assert (forall y, In y (pre ++ [d]) -> y <= d) as Hle.
  { intros y Hy. apply in_app_or in Hy. destruct Hy as [Hy|[<-|[]]]; [|lia].
    specialize (Hpre y Hy). lia. }
  exists r. repeat split; try assumption.
  - subst d'. apply Hle. rewrite Hl. apply in_or_app. right. left. reflexivity.
  - intros r' Hin' Hid' Hday'.
    destruct (Z_le_gt_dec (st_Day r') (st_Day r)) as [Hok|Hgt]; [exact Hok|].
    exfalso.
    assert (In (st_Day r') (pre ++ d :: post)) as Hidx.
    { rewrite <- Hsplit. apply FrameFacts.In_day_keys, in_map, Hin'. }
    assert (In (st_Day r') (l1 ++ d' :: l2)) as Hin2.
    { rewrite <- Hl. apply in_app_or in Hidx. apply in_or_app.
      destruct Hidx as [Hy|[<-|Hy]].
      - left. exact Hy.
      - right. left. reflexivity.
      - specialize (Hpost _ Hy). lia. }
    apply in_app_or in Hin2. destruct Hin2 as [Hy|[Hy|Hy]].
    + destruct (sorted_split _ _ _ Hsorted') as (Hl1 & _).
      specialize (Hl1 _ Hy). lia.
    + lia.
    + apply Hnone in Hy. exact (raw_cell_none _ _ _ Hy r' Hin' Hid' eq_refl).
Qed.

(** A cell stays missing when its column has no input row at or before
    its day. *)
Lemma filled_cell_missing (rows : list stock_row) (t : frame) (d : Z) (c : string) :
  pivot rows = Ok t ->
  In d (index t) -> In c (columns t) ->
  (forall r, In r rows -> Entity_ID r = c -> d < st_Day r) ->
  loc_cell (ffill t) d c = Ok None.
Proof.
  intros Hp Hd Hc Hlate.
  destruct (filled_cell rows t d c Hp Hd Hc) as (pre & post & Hsplit & Hval).
  rewrite Hval. f_equal. apply carry_none.
  intros d' Hd'. apply raw_cell_absent. intros r Hin Hid Hday.
  pose proof (FrameFacts.day_keys_sorted (map st_Day rows)) as Hsorted.
  rewrite Hsplit in Hsorted.
  destruct (sorted_split _ _ _ Hsorted) as (Hpre & _).
  specialize (Hlate r Hin Hid).
  apply in_app_or in Hd'. destruct Hd' as [Hy|[<-|[]]]; [|lia].
  specialize (Hpre _ Hy). lia.
Qed.

End PivotFacts.

(* ------------------------------------------------------------------ *)
(** * The aggregation views *)
(* ------------------------------------------------------------------ *)

Module ViewsFacts.

Import Pivot Views.

(** In exact arithmetic the day totals of the LG->FPS records add up to the
    sum of their quantities. *)
Lemma total_plan_raw (w : workbook) :
  (total_plan w == sum (map Quantity_tons (dispatch_lg w)))%Q.
Proof.
  unfold total_plan, day_totals_lg. apply FrameFacts.groupby_sum_total.
Qed.

Lemma fps_stock_row_inv (w : workbook) (r : fps_stock_row) :
  In r (fps_stock w) ->
  exists s f, In s (stock_levels w) /\ is_FPS s = true
    /\ In f (fps w) /\ Entity_ID s = FPS_ID f
    /\ r = merge_row s f.
Proof.
  unfold fps_stock. intros H. apply in_flat_map in H.
  destruct H as (s & Hs & Hr). apply filter_In in Hs. destruct Hs as (Hs & Htype).
  apply in_map_iff in Hr. destruct Hr as (f & <- & Hf).
  apply filter_In in Hf. destruct Hf as (Hf & Hid). apply String.eqb_eq in Hid.
  exists s, f. repeat split; assumption.
Qed.

(** C8. Every row of the FPS stock table joins a snapshot of an FPS with the
    registry row of the same id, and its at-risk flag is set exactly when
    the recorded stock is at most the reorder threshold; in particular a
    stock equal to the threshold is flagged. *)
Theorem at_risk_iff_le_threshold (w : workbook) (r : fps_stock_row) :
  In r (fps_stock w) ->
  (exists f, In f (fps w)
     /\ FPS_ID f = Entity_ID (snapshot r)
     /\ fs_FPS_ID r = FPS_ID f
     /\ fs_Reorder_Threshold_tons r = Reorder_Threshold_tons f)
  /\ In (snapshot r) (stock_levels w)
  /\ (At_Risk r = true
      <-> (Stock_Level_tons (snapshot r) <= fs_Reorder_Threshold_tons r)%Q)
  /\ ((Stock_Level_tons (snapshot r) == fs_Reorder_Threshold_tons r)%Q ->
      At_Risk r = true).
Proof.
  intros Hr. destruct (fps_stock_row_inv w r Hr) as (s & f & Hs & _ & Hf & Hid & ->).
  cbn [merge_row snapshot fs_FPS_ID fs_Reorder_Threshold_tons At_Risk].
  split; [|split; [exact Hs|split]].
  - exists f. repeat split; [exact Hf|symmetry; exact Hid].
  - apply Qle_bool_iff.
  - intros Heq. apply Qle_bool_iff. rewrite Heq. apply Qle_refl.
Qed.

Lemma at_risk_iff_le_threshold_witness :
  In Sample.shop_two_day1 (fps_stock Sample.plan)
  /\ (At_Risk Sample.shop_two_day1 = true
      <-> (Stock_Level_tons (snapshot Sample.shop_two_day1)
           <= fs_Reorder_Threshold_tons Sample.shop_two_day1)%Q)
  /\ At_Risk Sample.shop_two_day1 = true.
Proof.
  assert (In Sample.shop_two_day1 (fps_stock Sample.plan)) as Hin
    by (right; left; reflexivity).
  destruct (at_risk_iff_le_threshold Sample.plan Sample.shop_two_day1 Hin)
    as (_ & _ & Hiff & Hbound).
  split; [exact Hin|]. split; [exact Hiff|].
  apply Hbound. reflexivity.
Defined.

Lemma lg_stock_inv (w : workbook) (t : frame) :
  lg_stock w = Ok t ->
  exists f, pivot (filter is_LG (stock_levels w)) = Ok f /\ t = ffill f.
Proof.
  unfold lg_stock.
  destruct (pivot (filter is_LG (stock_levels w))) as [f|e]; [|discriminate].
  cbn [bind]. intros H. injection H as <-. exists f. split; reflexivity.
Qed.

Lemma lg_stock_cell_latest (w : workbook) (t : frame) (d : Z) (c : string) (v : Q) :
  lg_stock w = Ok t ->
  loc_cell t d c = Ok (Some v) ->
  exists r, In r (stock_levels w)
    /\ is_LG r = true
    /\ Entity_ID r = c
    /\ st_Day r <= d
    /\ Stock_Level_tons r = v
    /\ (forall r', In r' (stock_levels w) -> is_LG r' = true ->
          Entity_ID r' = c -> st_Day r' <= d -> st_Day r' <= st_Day r).
Proof.
  intros Ht Hcell. destruct (lg_stock_inv w t Ht) as (f & Hp & ->).
  destruct (PivotFacts.filled_cell_latest _ _ _ _ _ Hp Hcell)
    as (r & Hin & Hid & Hday & Hv & Hlatest).
  apply filter_In in Hin. destruct Hin as (Hin & Hlg).
  exists r. repeat split; try assumption.
  intros r' Hin' Hlg' Hid' Hday'. apply Hlatest; try assumption.
  apply filter_In. split; assumption.
Qed.

(** C4. Forward fill is idempotent on every table, hence leaves the LG stock
    timeline unchanged when applied again; and every present cell (day [d],
    LG [c]) of the timeline holds the value of a snapshot of [c] taken on a
    day at or before [d], namely the latest such snapshot, never a later
    one. *)
Theorem ffill_idempotent_and_causal :
  (forall f, ffill (ffill f) = ffill f)
  /\ (forall w t, lg_stock w = Ok t -> ffill t = t)
  /\ (forall w t d c v,
        lg_stock w = Ok t ->
        loc_cell t d c = Ok (Some v) ->
        exists r, In r (stock_levels w)
          /\ is_LG r = true
          /\ Entity_ID r = c
          /\ st_Day r <= d
          /\ Stock_Level_tons r = v
          /\ (forall r', In r' (stock_levels w) -> is_LG r' = true ->
                Entity_ID r' = c -> st_Day r' <= d -> st_Day r' <= st_Day r)).
Proof.
  split; [exact PivotFacts.ffill_idem|]. split.
  - intros w t Ht. destruct (lg_stock_inv w t Ht) as (f & _ & ->).
    apply PivotFacts.ffill_idem.
  - exact lg_stock_cell_latest.
Qed.

Lemma ffill_idempotent_and_causal_witness :
  exists t, lg_stock Sample.plan = Ok t
    /\ loc_cell t 2 "LG1" = Ok (Some (100 # 1))
    /\ ffill t = t
    /\ exists r, In r (stock_levels Sample.plan)
         /\ is_LG r = true
         /\ Entity_ID r = "LG1"%string
         /\ st_Day r <= 2
         /\ Stock_Level_tons r = 100 # 1
         /\ (forall r', In r' (stock_levels Sample.plan) -> is_LG r' = true ->
               Entity_ID r' = "LG1"%string -> st_Day r' <= 2 -> st_Day r' <= st_Day r).
Proof.
  eexists. split; [vm_compute; reflexivity|].
  split; [vm_compute; reflexivity|].
  destruct ffill_idempotent_and_causal as (_ & Hidem & Hcausal).
  split.
  - apply (Hidem Sample.plan). vm_compute. reflexivity.
  - eapply (Hcausal Sample.plan _ 2 "LG1"%string); vm_compute; reflexivity.
Defined.

End ViewsFacts.

(* ------------------------------------------------------------------ *)
(** * The KPI rollup *)
(* ------------------------------------------------------------------ *)

Module KpiFacts.

Import Pivot Views Kpi.

Lemma cg_sel_raw (w : workbook) (a b : Z) :
  (cg_sel w (a, b)
   == window_total Dispatch_Day cg_Quantity_tons (dispatch_cg w) a b)%Q.
Proof.
  unfold cg_sel, day_totals_cg, window_total. cbn [fst snd].
  apply (FrameFacts.groupby_sum_filter Dispatch_Day cg_Quantity_tons
           (fun k => (a <=? k) && (k <=? b))).
Qed.

Lemma lg_sel_raw (w : workbook) (a b : Z) :
  (lg_sel w (a, b) == window_total Day Quantity_tons (dispatch_lg w) 1 b)%Q.
Proof.
  unfold lg_sel, day_totals_lg, window_total. cbn [fst snd].
  apply (FrameFacts.groupby_sum_filter Day Quantity_tons
           (fun k => (1 <=? k) && (k <=? b))).
Qed.

(** C9 (as amended). For every selected range [(a, b)] both daily averages
    divide by [sel_days = b - max(a, 1) + 1], the number of selected days
    from day 1 on, and are zero when that number is not positive, in
    particular when the range is empty.  The CG->LG average divides the
    total of the records of the days [a..b]; the LG->FPS average divides the
    total of the records of the days [1..b].  When the range starts on day 1
    both are the total over the selected range divided by its number of
    days. *)
Theorem daily_averages (w : workbook) (a b : Z) :
  (avg_daily_cg w (a, b)
   == if 0 <? sel_days (a, b)
      then window_total Dispatch_Day cg_Quantity_tons (dispatch_cg w) a b
           / inject_Z (sel_days (a, b))
      else 0)%Q
  /\ (avg_daily_lg w (a, b)
      == if 0 <? sel_days (a, b)
         then window_total Day Quantity_tons (dispatch_lg w) 1 b
              / inject_Z (sel_days (a, b))
         else 0)%Q
  /\ sel_days (a, b) = window_days (Z.max a 1) b
  /\ (b < a -> avg_daily_cg w (a, b) = 0%Q /\ avg_daily_lg w (a, b) = 0%Q)
  /\ (a = 1 ->
      (avg_daily_cg w (a, b)
       == stated_daily_average Dispatch_Day cg_Quantity_tons (dispatch_cg w) (a, b))%Q
      /\ (avg_daily_lg w (a, b)
          == stated_daily_average Day Quantity_tons (dispatch_lg w) (a, b))%Q).
Proof.
  assert (avg_daily_cg w (a, b)
          == if 0 <? sel_days (a, b)
             then window_total Dispatch_Day cg_Quantity_tons (dispatch_cg w) a b
                  / inject_Z (sel_days (a, b))
             else 0)%Q as Hcg.
  { unfold avg_daily_cg. destruct (0 <? sel_days (a, b)); [|reflexivity].
    rewrite cg_sel_raw. reflexivity. }
  assert (avg_daily_lg w (a, b)
          == if 0 <? sel_days (a, b)
             then window_total Day Quantity_tons (dispatch_lg w) 1 b
                  / inject_Z (sel_days (a, b))
             else 0)%Q as Hlg.
  { unfold avg_daily_lg. destruct (0 <? sel_days (a, b)); [|reflexivity].
    rewrite lg_sel_raw. reflexivity. }
  split; [exact Hcg|]. split; [exact Hlg|]. split; [reflexivity|]. split.
  - intros Hempty. unfold avg_daily_cg, avg_daily_lg.
    assert ((0 <? sel_days (a, b)) = false) as ->
      by (apply Z.ltb_ge; unfold sel_days; cbn [fst snd]; lia).
    split; reflexivity.
  - intros ->. rewrite Hcg, Hlg. unfold stated_daily_average, window_days, sel_days.
    cbn [fst snd]. replace (Z.max 1 1) with 1 by reflexivity.
    split; reflexivity.
Qed.

Lemma daily_averages_witness :
  (-1) < 0
  /\ avg_daily_cg Sample.plan (0, -1) = 0%Q
  /\ avg_daily_lg Sample.plan (0, -1) = 0%Q
  /\ Qeq (avg_daily_lg Sample.plan (1, 2))
         (stated_daily_average Day Quantity_tons (dispatch_lg Sample.plan) (1, 2)).
Proof.
  assert ((-1) < 0) as Hempty by reflexivity.
  destruct (daily_averages Sample.plan 0 (-1)) as (_ & _ & _ & Hzero & _).
  destruct (daily_averages Sample.plan 1 2) as (_ & _ & _ & _ & Hone).
  split; [exact Hempty|].
  split; [exact (proj1 (Hzero Hempty))|].
  split; [exact (proj2 (Hzero Hempty))|].
  exact (proj2 (Hone eq_refl)).
Defined.

(** C9 as stated fails: with day 2 alone selected, the LG->FPS average is
    the 14 t of the days 1 and 2 instead of the 4 t of day 2; with the range
    [0..1] the CG->LG average divides the 350 t by one day instead of two. *)
Lemma daily_averages_not_over_selected_range :
  ~ Qeq (avg_daily_lg Sample.plan (2, 2))
        (stated_daily_average Day Quantity_tons (dispatch_lg Sample.plan) (2, 2))
  /\ ~ Qeq (avg_daily_cg Sample.plan (0, 1))
           (stated_daily_average Dispatch_Day cg_Quantity_tons
              (dispatch_cg Sample.plan) (0, 1)).
Proof.
  split; intros H; vm_compute in H; discriminate H.
Qed.

(** The days-remaining tile. *)

Lemma truthy_iff (x : Q) : truthy x = true <-> ~ (x == 0)%Q.
Proof.
  unfold truthy. rewrite negb_true_iff. split.
  - intros H. apply Qeq_bool_neq. exact H.
  - intros H. destruct (Qeq_bool x 0) eqn:E; [|reflexivity].
    apply Qeq_bool_iff in E. contradiction.
Qed.

(** C2 (as amended). The days-remaining figure is unavailable exactly when
    [DAILY_CAP] is zero; for every non-zero [DAILY_CAP] it is
    [ceil(remaining / DAILY_CAP)], which is the number 0 when the remaining
    volume is zero. *)
Theorem days_rem_available_iff_capacity (w : workbook) (day_range : Z * Z) :
  (~ (DAILY_CAP w == 0)%Q ->
     days_rem w day_range
     = Some (Qceiling (remaining_t w day_range / DAILY_CAP w))
     /\ ((remaining_t w day_range == 0)%Q -> days_rem w day_range = Some 0))
  /\ ((DAILY_CAP w == 0)%Q -> days_rem w day_range = None).
Proof.
  unfold days_rem, days_rem_of. split.
  - intros Hcap. apply truthy_iff in Hcap. rewrite Hcap.
    split; [reflexivity|]. intros Hzero. f_equal.
    rewrite Hzero. unfold Qdiv. rewrite Qmult_0_l. reflexivity.
  - intros Hcap. destruct (truthy (DAILY_CAP w)) eqn:E; [|reflexivity].
    apply truthy_iff in E. contradiction.
Qed.

Lemma days_rem_available_iff_capacity_witness :
  ~ (DAILY_CAP Sample.plan == 0)%Q
  /\ days_rem Sample.plan (0, 1) = Some 1
  /\ (DAILY_CAP Sample.idle == 0)%Q
  /\ days_rem Sample.idle (0, 1) = None.
Proof.
  assert (~ (DAILY_CAP Sample.plan == 0)%Q) as Hcap by (intros H; discriminate H).
  assert (DAILY_CAP Sample.idle == 0)%Q as Hidle by reflexivity.
  split; [exact Hcap|].
  split; [exact (proj1 (proj1 (days_rem_available_iff_capacity Sample.plan (0, 1)) Hcap))|].
  split; [exact Hidle|].
  exact (proj2 (days_rem_available_iff_capacity Sample.idle (0, 1)) Hidle).
Defined.

(** C2 as stated fails: once the whole plan is dispatched the remaining
    volume is zero and the tile shows the number 0. *)
Lemma days_rem_zero_when_plan_complete :
  Qeq (remaining_t Sample.plan (0, 30)) 0%Q
  /\ days_rem Sample.plan (0, 30) = Some 0
  /\ days_rem Sample.plan (0, 30) <> None.
Proof.
  split; [reflexivity|]. split; [reflexivity|]. discriminate.
Qed.

(** The examples of the specification: 1500 t left at 200 t a day. *)
Example days_rem_1500_200 : days_rem_of 1500 200 = Some 8.
Proof. reflexivity. Qed.

(** The on-hand stock of the selected LGs. *)

Lemma pivot_labels (rows : list stock_row) (f : frame) :
  pivot rows = Ok f ->
  index f = day_keys (map st_Day rows)
  /\ columns f = id_keys (map Entity_ID rows).
Proof.
  unfold pivot. destruct (has_duplicates rows); [discriminate|].
  intros H. injection H as <-. split; reflexivity.
Qed.

Lemma has_snapshot_by_true (w : workbook) (d : Z) (c : string) (r : stock_row) :
  In r (stock_levels w) -> is_LG r = true -> Entity_ID r = c -> st_Day r <= d ->
  has_snapshot_by w d c = true.
Proof.
  intros Hin Hlg Hid Hday. unfold has_snapshot_by. apply existsb_exists.
  exists r. split; [exact Hin|]. rewrite Hlg. cbn [andb].
  apply andb_true_iff. split; [apply String.eqb_eq, Hid|apply Z.leb_le, Hday].
Qed.

Lemma traverse_filter_skipna (f : string -> result (option Q)) (g : string -> bool) :
  forall (sel : list string) (row : list (option Q)),
  traverse f sel = Ok row ->
  (forall c v, In c sel -> f c = Ok (Some v) -> g c = true) ->
  exists row', traverse f (filter g sel) = Ok row'
    /\ sum_skipna row' = sum_skipna row.
Proof.
  induction sel as [|c sel IH]; intros row Hrow Hg.
  - injection Hrow as <-. exists []. split; reflexivity.
  - cbn [traverse] in Hrow.
    destruct (f c) as [x|e] eqn:Hc; [|discriminate].
    destruct (traverse f sel) as [xs|e] eqn:Hsel; [|discriminate].
    cbn [bind] in Hrow. injection Hrow as <-.
    destruct (IH xs eq_refl) as (row' & Hrow' & Hsum).
    { intros c' v Hin. apply Hg. right. exact Hin. }
    cbn [filter]. destruct (g c) eqn:Hgc.
    + exists (x :: row'). cbn [traverse]. rewrite Hc, Hrow'. cbn [bind].
      split; [reflexivity|]. destruct x; cbn [sum_skipna]; rewrite Hsum; reflexivity.
    + exists row'. split; [exact Hrow'|].
      destruct x as [v|]; [|exact Hsum].
      rewrite (Hg c v) in Hgc; [discriminate|left; reflexivity|exact Hc].
Qed.

Lemma lg_onhand_started (w : workbook) (day_range : Z * Z)
    (sel : list string) (total : Q) :
  lg_onhand w day_range sel = Ok total ->
  lg_onhand w day_range (filter (has_snapshot_by w (end_day w day_range)) sel)
  = Ok total.
Proof.
  unfold lg_onhand, loc.
  destruct (lg_stock w) as [t|e] eqn:Ht; [|discriminate]. cbn [bind].
  destruct (loc_row t (end_day w day_range)) as [rowe|e] eqn:Hrow; [|discriminate].
  cbn [bind].
  destruct (traverse (lookup_col (columns t) rowe) sel) as [row|e] eqn:Hsel;
    [|discriminate].
  cbn [bind]. intros H. injection H as <-.
  destruct (traverse_filter_skipna (lookup_col (columns t) rowe)
              (has_snapshot_by w (end_day w day_range)) sel row Hsel)
    as (row' & Hrow' & Hsum).
  - intros c v _ Hc.
    assert (loc_cell t (end_day w day_range) c = Ok (Some v)) as Hcell.
    { unfold loc_cell. rewrite Hrow. cbn [bind]. exact Hc. }
    destruct (ViewsFacts.lg_stock_cell_latest w t _ _ _ Ht Hcell)
      as (r & Hin & Hlg & Hid & Hday & _).
    exact (has_snapshot_by_true w _ c r Hin Hlg Hid Hday).
  - rewrite Hrow'. cbn [bind]. rewrite Hsum. reflexivity.
Qed.

(** C10. In the LG stock timeline, the column of an LG whose earliest
    snapshot is on day [f] is missing ([None]) on every day of the index
    before [f]: forward fill neither invents a value nor writes a zero
    there.  The on-hand sum skips such cells: selecting in addition LGs that
    have no snapshot yet leaves it unchanged, and the sum over such an LG
    alone is the empty sum. *)
Theorem timeline_missing_before_first_snapshot
    (w : workbook) (t : frame) (c : string) (f : Z) :
  lg_stock w = Ok t ->
  (exists r0, In r0 (stock_levels w) /\ is_LG r0 = true
              /\ Entity_ID r0 = c /\ st_Day r0 = f) ->
  (forall r, In r (stock_levels w) -> is_LG r = true -> Entity_ID r = c ->
             f <= st_Day r) ->
  In c (columns t)
  /\ (forall d, In d (index t) -> d < f -> loc_cell t d c = Ok None)
  /\ (forall day_range sel total,
        lg_onhand w day_range sel = Ok total ->
        lg_onhand w day_range
          (filter (has_snapshot_by w (end_day w day_range)) sel) = Ok total)
  /\ (forall day_range,
        In (end_day w day_range) (index t) -> end_day w day_range < f ->
        lg_onhand w day_range [c] = Ok 0%Q).
Proof.
  intros Ht (r0 & Hin0 & Hlg0 & Hid0 & Hday0) Hfirst.
  destruct (ViewsFacts.lg_stock_inv w t Ht) as (fr & Hp & ->).
  destruct (pivot_labels _ _ Hp) as (Hidx & Hcols).
  assert (In c (columns (ffill fr))) as Hc.
  { cbn [ffill columns]. rewrite Hcols. apply FrameFacts.In_id_keys.
    rewrite <- Hid0. apply in_map, filter_In. split; assumption. }
  assert (forall d, In d (index (ffill fr)) -> d < f ->
            loc_cell (ffill fr) d c = Ok None) as Hmiss.
  { intros d Hd Hlt. apply (PivotFacts.filled_cell_missing _ fr d c Hp Hd Hc).
    intros r Hr Hid. apply filter_In in Hr. destruct Hr as (Hr & Hlg).
    specialize (Hfirst r Hr Hlg Hid). lia. }
  split; [exact Hc|]. split; [exact Hmiss|]. split.
  - intros day_range sel total. apply lg_onhand_started.
  - intros day_range Hd Hlt. specialize (Hmiss _ Hd Hlt).
    unfold lg_onhand, loc. rewrite Ht. cbn [bind traverse].
    unfold loc_cell in Hmiss.
    destruct (loc_row (ffill fr) (end_day w day_range)) as [rowe|e]; [|discriminate].
    cbn [bind] in *. rewrite Hmiss. reflexivity.
Qed.

Lemma timeline_missing_before_first_snapshot_witness :
  exists t, lg_stock Sample.plan = Ok t
    /\ In "LG2"%string (columns t)
    /\ loc_cell t 1 "LG2" = Ok None
    /\ lg_onhand Sample.plan (1, 1) ["LG2"%string] = Ok 0%Q.
Proof.
  eassert (lg_stock Sample.plan = Ok _) as Ht by (vm_compute; reflexivity).
  eexists. split; [exact Ht|].
  destruct (timeline_missing_before_first_snapshot Sample.plan _ "LG2"%string 2 Ht)
    as (Hc & Hmiss & _ & Hsum).
  - eexists. split; [right; left; reflexivity|]. repeat split.
  - intros r [<-|[<-|[<-|[<-|[<-|[]]]]]] Hlg Hid;
      try discriminate Hlg; try discriminate Hid.
    vm_compute. discriminate.
  - split; [exact Hc|]. split.
    + apply Hmiss; [left; reflexivity|reflexivity].
    + apply (Hsum (1, 1)); [left; reflexivity|reflexivity].
Defined.

(** The tab as a whole. *)

Lemma kpi_block_outside_timeline (w : workbook) (t : frame)
    (day_range : Z * Z) (sel : list string) :
  lg_stock w = Ok t ->
  ~ In (end_day w day_range) (index t) ->
  kpi_block w day_range sel = Raise KeyError.
Proof.
  intros Ht Hn. unfold kpi_block, lg_onhand, loc, loc_row. rewrite Ht. cbn [bind].
  rewrite PivotFacts.lookup_row_missing by exact Hn. reflexivity.
Qed.

Lemma kpi_block_no_lg_selected (w : workbook) (t : frame) (day_range : Z * Z) :
  lg_stock w = Ok t ->
  In (end_day w day_range) (index t) ->
  exists m, kpi_block w day_range [] = Ok m
    /\ m_lg_onhand m = 0%Q
    /\ m_pct_lg_filled m = 0%Q.
Proof.
  intros Ht Hin. unfold kpi_block, lg_onhand, loc, loc_row, lg_caps.
  rewrite Ht. cbn [bind].
  destruct (ViewsFacts.lg_stock_inv w t Ht) as (fr & Hp & ->).
  destruct (PivotFacts.loc_row_filled _ fr _ Hp Hin) as (row & Hrow).
  unfold loc_row in Hrow. rewrite Hrow. cbn [bind traverse sum_skipna].
  eexists. split; [reflexivity|]. split; reflexivity.
Qed.

(** C6. The rollup does not survive every empty selection.  On the sample
    plan the slider starts at day 0; with the window reduced to day 0 (no
    selected day, [sel_days = 0]) the look-up of the row of day 0 in the LG
    stock timeline raises [KeyError], and so does the same look-up with no
    LG selected whenever the end day has no row in the timeline. *)
Theorem kpi_block_raises_on_empty_window :
  Feasibility.day_range_slider Sample.plan
    = Ok {| Feasibility.min_value := 0; Feasibility.max_value := 30;
            Feasibility.value := (0, 30) |}
  /\ sel_days (0, 0) = 0
  /\ kpi_block Sample.plan (0, 0) ["LG1"%string; "LG2"%string] = Raise KeyError
  /\ kpi_block Sample.plan (0, 29) [] = Raise KeyError.
Proof.
  split; [vm_compute; reflexivity|]. split; [reflexivity|].
  split; vm_compute; reflexivity.
Qed.

End KpiFacts.

(* ------------------------------------------------------------------ *)
(** * The per-shop projection *)
(* ------------------------------------------------------------------ *)

Module ProjectionFacts.

Import Pivot Views Projection.

Lemma registry_row_unique (fs : list fps_row) (fps_id : string) :
  NoDup (map FPS_ID fs) ->
  In fps_id (map FPS_ID fs) ->
  exists f0, filter (fun f => (fps_id =? FPS_ID f)%string) fs = [f0].
Proof.
  induction fs as [|f fs IH]; simpl; intros Hnd Hin; [contradiction|].
  inversion Hnd as [|? ? Hnotin Hnd']; subst.
  destruct (String.eqb_spec fps_id (FPS_ID f)) as [->|Hne].
  - exists f. f_equal.
    clear IH Hin Hnd Hnd'. induction fs as [|g fs IHfs]; simpl; [reflexivity|].
    destruct (String.eqb_spec (FPS_ID f) (FPS_ID g)) as [Heq|_].
    + exfalso. apply Hnotin. left. symmetry. exact Heq.
    + apply IHfs. intros H. apply Hnotin. right. exact H.
  - destruct Hin as [Heq|Hin]; [congruence|]. apply IH; assumption.
Qed.

Lemma at_most_one_per_cell (rows : list stock_row) (d : Z) (c : string) :
  has_duplicates rows = false ->
  filter (same_cell d c) rows = []
  \/ exists s, filter (same_cell d c) rows = [s].
Proof.
  induction rows as [|r rows IH]; simpl; intros Hdup; [left; reflexivity|].
  apply orb_false_iff in Hdup. destruct Hdup as (Hex & Hdup).
  destruct (same_cell d c r) eqn:Hr.
  - right. exists r. f_equal.
    unfold same_cell in Hr. apply andb_true_iff in Hr. destruct Hr as (Hd & Hc).
    apply Z.eqb_eq in Hd. apply String.eqb_eq in Hc. subst d c.
    clear IH Hdup. induction rows as [|r' rows IHr]; simpl; [reflexivity|].
    simpl in Hex. apply orb_false_iff in Hex. destruct Hex as (Hr' & Hex).
    rewrite Hr'. apply IHr, Hex.
  - apply IH, Hdup.
Qed.

Lemma merged_rows_other_shop (s : stock_row) (e : Z) (fps_id : string)
    (fs : list fps_row) :
  Entity_ID s <> fps_id ->
  filter (fun r => (fs_FPS_ID r =? fps_id)%string && (st_Day (snapshot r) =? e))
         (map (merge_row s)
              (filter (fun f => (Entity_ID s =? FPS_ID f)%string) fs))
  = [].
Proof.
  intros Hid. induction fs as [|f fs IH]; [reflexivity|]. cbn [filter].
  destruct (String.eqb_spec (Entity_ID s) (FPS_ID f)) as [Heq|_]; [|exact IH].
  cbn [map filter merge_row fs_FPS_ID snapshot].
  destruct (String.eqb_spec (FPS_ID f) fps_id) as [Heq'|_]; [congruence|].
  cbn [andb]. exact IH.
Qed.

(** With one registry row per shop, the stock series of a shop on a day is
    the list of its snapshots of that day. *)
Lemma stock_now_series_snapshots (w : workbook) (e : Z) (fps_id : string) :
  NoDup (map FPS_ID (fps w)) ->
  In fps_id (map FPS_ID (fps w)) ->
  stock_now_series w e fps_id
  = map Stock_Level_tons
        (filter (same_cell e fps_id) (filter is_FPS (stock_levels w))).
Proof.
  intros Hnd Hin. unfold stock_now_series, fps_stock.
  induction (filter is_FPS (stock_levels w)) as [|s rows IH]; [reflexivity|].
  cbn [flat_map]. rewrite filter_app, map_app, IH. cbn [filter].
  unfold same_cell at 2.
  destruct (String.eqb_spec (Entity_ID s) fps_id) as [Hid|Hid].
  - destruct (registry_row_unique (fps w) fps_id Hnd Hin) as (f0 & Hf0).
    assert (In f0 (filter (fun f => (fps_id =? FPS_ID f)%string) (fps w))) as Hin0
      by (rewrite Hf0; left; reflexivity).
    apply filter_In in Hin0. destruct Hin0 as (_ & Hid0). apply String.eqb_eq in Hid0.
    rewrite Hid, Hf0. cbn [map filter merge_row fs_FPS_ID snapshot].
    rewrite <- Hid0, String.eqb_refl. cbn [andb].
    destruct (st_Day s =? e); reflexivity.
  - rewrite andb_false_r. cbn [map app].
    rewrite (merged_rows_other_shop s e fps_id (fps w) Hid). reflexivity.
Qed.

Lemma min_day_spec (ds : list Z) :
  forall d, let m := min_day d ds in
  In m (d :: ds) /\ forall x, In x (d :: ds) -> m <= x.
Proof.
  unfold min_day. induction ds as [|y ds IH]; intros d; cbn [fold_left].
  - split; [left; reflexivity|]. intros x [<-|[]]. lia.
  - destruct (IH (Z.min d y)) as (Hin & Hle). split.
    + destruct Hin as [Hm|Hm]; [|right; right; exact Hm].
      rewrite <- Hm. destruct (Z.min_spec d y) as [[_ ->]|[_ ->]]; simpl; auto.
    + intros x [<-|[<-|Hx]].
      * specialize (Hle (Z.min d y) (or_introl eq_refl)). lia.
      * specialize (Hle (Z.min d y) (or_introl eq_refl)). lia.
      * apply Hle. right. exact Hx.
Qed.

Lemma In_future_days (w : workbook) (e : Z) (fps_id : string) (n : Z) :
  In n (future_days w e fps_id)
  <-> exists r, In r (dispatch_lg w) /\ lg_FPS_ID r = fps_id /\ Day r = n /\ e < n.
Proof.
  unfold future_days. rewrite in_map_iff. split.
  - intros (r & <- & Hr). apply filter_In in Hr. destruct Hr as (Hr & Hc).
    apply andb_true_iff in Hc. destruct Hc as (Hid & Hlt).
    apply String.eqb_eq in Hid. apply Z.ltb_lt in Hlt.
    exists r. repeat split; assumption.
  - intros (r & Hr & Hid & <- & Hlt). exists r. split; [reflexivity|].
    apply filter_In. split; [exact Hr|].
    apply andb_true_iff. split; [apply String.eqb_eq, Hid|apply Z.ltb_lt, Hlt].
Qed.

(** C3 (as amended). For a registered shop, with one registry row per shop
    and at most one snapshot per shop and day, the projection for the
    reference day [e] reports as current stock the value of the shop's
    snapshot taken on day [e] itself, and zero when there is no snapshot on
    that very day (earlier snapshots are not consulted).  Its next-receipt
    day is the earliest day after [e] among the LG->FPS records destined for
    the shop, absent exactly when there is none, and the gap is that day
    minus [e] whenever the next-receipt day is not day 0. *)
Theorem fps_data_entry_spec (w : workbook) (e : Z) (fps_id : string) :
  NoDup (map FPS_ID (fps w)) ->
  In fps_id (map FPS_ID (fps w)) ->
  has_duplicates (filter is_FPS (stock_levels w)) = false ->
  exists row, fps_data_entry w e fps_id = Ok row
    /\ p_FPS_ID row = fps_id
    /\ (forall s, In s (stock_levels w) -> is_FPS s = true ->
          Entity_ID s = fps_id -> st_Day s = e ->
          Current_Stock_tons row = Stock_Level_tons s)
    /\ ((forall s, In s (stock_levels w) -> is_FPS s = true ->
           Entity_ID s = fps_id -> st_Day s <> e) ->
        Current_Stock_tons row = 0%Q)
    /\ (Next_Receipt_Day row = None
        <-> forall r, In r (dispatch_lg w) -> lg_FPS_ID r = fps_id -> Day r <= e)
    /\ (forall n, Next_Receipt_Day row = Some n ->
          e < n
          /\ (exists r, In r (dispatch_lg w) /\ lg_FPS_ID r = fps_id /\ Day r = n)
          /\ (forall r, In r (dispatch_lg w) -> lg_FPS_ID r = fps_id ->
                e < Day r -> n <= Day r)
          /\ (n <> 0 -> Days_To_Receipt row = Some (n - e)))
    /\ (Next_Receipt_Day row = None -> Days_To_Receipt row = None).
Proof.
  intros Hnd Hin Hdup. unfold fps_data_entry.
  rewrite (stock_now_series_snapshots w e fps_id Hnd Hin).
  assert (forall s, In s (stock_levels w) -> is_FPS s = true ->
            Entity_ID s = fps_id -> st_Day s = e ->
            In s (filter (same_cell e fps_id) (filter is_FPS (stock_levels w))))
    as Hmem.
  { intros s Hs Hfps Hid Hday. apply filter_In. split.
    - apply filter_In. split; assumption.
    - unfold same_cell. apply andb_true_iff.
      split; [apply Z.eqb_eq, Hday|apply String.eqb_eq, Hid]. }
  assert (exists stock,
            match map Stock_Level_tons
                    (filter (same_cell e fps_id) (filter is_FPS (stock_levels w))) with
            | [] => Ok 0%Q
            | _ :: _ =>
                float_of_series
                  (map Stock_Level_tons
                     (filter (same_cell e fps_id) (filter is_FPS (stock_levels w))))
            end = Ok stock
            /\ (forall s, In s (stock_levels w) -> is_FPS s = true ->
                  Entity_ID s = fps_id -> st_Day s = e ->
                  stock = Stock_Level_tons s)
            /\ ((forall s, In s (stock_levels w) -> is_FPS s = true ->
                   Entity_ID s = fps_id -> st_Day s <> e) ->
                stock = 0%Q)) as (stock & -> & Hat & Hzero).
  { destruct (at_most_one_per_cell _ e fps_id Hdup) as [Hnil|(s0 & Hone)].
    - rewrite Hnil in *. exists 0%Q. split; [reflexivity|]. split; [|reflexivity].
      intros s Hs Hfps Hid Hday. destruct (Hmem s Hs Hfps Hid Hday).
    - rewrite Hone in *. exists (Stock_Level_tons s0). split; [reflexivity|]. split.
      + intros s Hs Hfps Hid Hday.
        destruct (Hmem s Hs Hfps Hid Hday) as [<-|[]]. reflexivity.
      + intros Hnone. exfalso.
        assert (In s0 (filter (same_cell e fps_id) (filter is_FPS (stock_levels w))))
          as H0 by (rewrite Hone; left; reflexivity).
        apply filter_In in H0. destruct H0 as (H0 & Hsame).
        apply filter_In in H0. destruct H0 as (H0 & Hfps).
        unfold same_cell in Hsame. apply andb_true_iff in Hsame.
        destruct Hsame as (Hday & Hid).
        apply Z.eqb_eq in Hday. apply String.eqb_eq in Hid.
        exact (Hnone s0 H0 Hfps Hid Hday). }
  cbn [bind]. eexists. split; [reflexivity|].
  cbn [p_FPS_ID Current_Stock_tons Next_Receipt_Day Days_To_Receipt].
  split; [reflexivity|]. split; [exact Hat|]. split; [exact Hzero|].
  pose proof (In_future_days w e fps_id) as Hfut.
  destruct (future_days w e fps_id) as [|d ds].
  - split; [|split; [discriminate|reflexivity]].
    split; [|reflexivity]. intros _ r Hr Hid.
    destruct (Z_le_gt_dec (Day r) e) as [Hle|Hgt]; [exact Hle|].
    exfalso. apply (proj2 (Hfut (Day r))).
    exists r. repeat split; [assumption..|lia].
  - destruct (min_day_spec ds d) as (Hmin & Hleast).
    split; [|split; [|discriminate]].
    + split; [discriminate|]. intros Hnone. exfalso.
      destruct (proj1 (Hfut d) (or_introl eq_refl)) as (r & Hr & Hid & Hday & Hlt).
      specialize (Hnone r Hr Hid). lia.
    + intros n Hn. injection Hn as <-.
      destruct (proj1 (Hfut _) Hmin) as (r & Hr & Hid & Hday & Hlt).
      split; [exact Hlt|]. split; [exists r; repeat split; assumption|]. split.
      * intros r' Hr' Hid' Hlt'. apply Hleast, (proj2 (Hfut (Day r'))).
        exists r'. repeat split; assumption.
      * intros Hnz. apply Z.eqb_neq in Hnz. rewrite Hnz. reflexivity.
Qed.

Lemma fps_data_entry_spec_witness :
  exists row, fps_data_entry Sample.plan 3 "F1" = Ok row
    /\ Current_Stock_tons row = 7 # 1
    /\ Next_Receipt_Day row = Some 4
    /\ Days_To_Receipt row = Some 1.
Proof.
  assert (NoDup (map FPS_ID (fps Sample.plan))) as Hnd.
  { repeat constructor; simpl; intuition discriminate. }
  assert (In "F1"%string (map FPS_ID (fps Sample.plan))) as Hin
    by (left; reflexivity).
  assert (has_duplicates (filter is_FPS (stock_levels Sample.plan)) = false) as Hdup
    by reflexivity.
  destruct (fps_data_entry_spec Sample.plan 3 "F1"%string Hnd Hin Hdup)
    as (row & Hrow & _ & Hat & _ & _ & Hnext & _).
  exists row. split; [exact Hrow|].
  split; [apply (Hat {| Entity_Type := "FPS"; Entity_ID := "F1"; st_Day := 3;
                        Stock_Level_tons := 7 |});
          [do 3 right; left; reflexivity|reflexivity..]|].
  assert (Next_Receipt_Day row = Some 4) as Hfour.
  { vm_compute in Hrow. injection Hrow as <-. reflexivity. }
  split; [exact Hfour|].
  destruct (Hnext 4 Hfour) as (_ & _ & _ & Hgap). apply Hgap. discriminate.
Defined.

(** C3 as stated fails: shop F1 has a snapshot on day 3, yet for the
    reference day 5 its current stock is reported as zero. *)
Lemma fps_current_stock_ignores_earlier_snapshot :
  fps_data_entry Sample.plan 5 "F1"
  = Ok {| p_FPS_ID := "F1"; p_FPS_Name := ["Shop One"%string];
          Current_Stock_tons := 0; Next_Receipt_Day := None;
          Days_To_Receipt := None |}
  /\ In {| Entity_Type := "FPS"; Entity_ID := "F1"; st_Day := 3;
           Stock_Level_tons := 7 |} (stock_levels Sample.plan)
  /\ 3 <= 5.
Proof.
  split; [reflexivity|]. split; [do 3 right; left; reflexivity|discriminate].
Qed.

(** An earlier snapshot is not carried forward, unlike in the LG timeline:
    on day 2 the timeline still shows the 100 t that LG1 recorded on day 1. *)
Example lg_timeline_carries_forward :
  t <- lg_stock Sample.plan ;; loc_cell t 2 "LG1" = Ok (Some (100 # 1)).
Proof. reflexivity. Qed.

(** The gap is computed under the test [if next_day]: a next receipt on
    day 0, seen from the reference day -1 that the slider of this plan
    allows, is reported without its gap of one day. *)
Example next_receipt_on_day_zero :
  Feasibility.MIN_DAY Sample.early = Ok (-1)
  /\ fps_data_entry Sample.early (-1) "F1"
     = Ok {| p_FPS_ID := "F1"; p_FPS_Name := ["Shop One"%string];
             Current_Stock_tons := 0; Next_Receipt_Day := Some 0;
             Days_To_Receipt := None |}.
Proof. split; vm_compute; reflexivity. Qed.

(** Two snapshots of a shop on the reference day make [float(stock_now)]
    fail. *)
Example two_snapshots_on_reference_day :
  fps_data_entry Sample.twice 3 "F1" = Raise TypeError.
Proof. reflexivity. Qed.

End ProjectionFacts.

(* ------------------------------------------------------------------ *)
(** * More on the lead time *)
(* ------------------------------------------------------------------ *)

Module LeadTimeFacts.

Import Feasibility.

Section NonNegativeSums.
Context {A : Type} (val : A -> Q).



End NonNegativeSums.








(** X5. Records dated outside the horizon never affect the lead time: two
    workbooks with the same settings whose CG->LG records of the days
    [1..DAYS] coincide have the same [X]. *)
Theorem X_ignores_records_outside_horizon (w w' : workbook) :
  settings w = settings w' ->
  filter (fun r => (1 <=? Dispatch_Day r) && (Dispatch_Day r <=? DAYS w))
         (dispatch_cg w)
  = filter (fun r => (1 <=? Dispatch_Day r) && (Dispatch_Day r <=? DAYS w))
           (dispatch_cg w') ->
  1 <= DAYS w ->
  (0 < DAILY_CAP w)%Q ->
  X w = X w'.
Proof.
  intros Hset Hrec Hdays Hcap.
  assert (DAYS w' = DAYS w) as HD by (unfold DAYS; rewrite Hset; reflexivity).
  assert (DAILY_CAP w' = DAILY_CAP w) as HC
    by (unfold DAILY_CAP, MAX_TRIPS, TRUCK_CAP; rewrite Hset; reflexivity).
  assert (forall d, 1 <= d <= DAYS w ->
            cumulative_demand w d = cumulative_demand w' d) as Hcum.
  { intros d Hd. unfold cumulative_demand.
    assert (forall rows,
              filter (fun r => (1 <=? Dispatch_Day r) && (Dispatch_Day r <=? d)) rows
              = filter (fun r => (1 <=? Dispatch_Day r) && (Dispatch_Day r <=? d))
                  (filter (fun r => (1 <=? Dispatch_Day r)
                                    && (Dispatch_Day r <=? DAYS w)) rows)) as Hff.
    { intros rows. induction rows as [|r rows IH]; [reflexivity|]. cbn [filter].
      destruct ((1 <=? Dispatch_Day r) && (Dispatch_Day r <=? d)) eqn:E.
      - apply andb_true_iff in E. destruct E as (E1 & E2).
        apply Z.leb_le in E2.
        assert ((Dispatch_Day r <=? DAYS w) = true) as -> by (apply Z.leb_le; lia).
        rewrite E1. cbn [andb filter]. rewrite E1.
        assert ((Dispatch_Day r <=? d) = true) as -> by (apply Z.leb_le; lia).
        cbn [andb]. f_equal. exact IH.
      - destruct ((1 <=? Dispatch_Day r) && (Dispatch_Day r <=? DAYS w));
          [cbn [filter]; rewrite E|]; exact IH. }
    rewrite (Hff (dispatch_cg w)), (Hff (dispatch_cg w')), Hrec. reflexivity. }
  assert (1 <= DAYS w') as Hdays' by lia.
  assert (0 < DAILY_CAP w')%Q as Hcap' by (rewrite HC; exact Hcap).
  destruct (FeasibilityFacts.X_spec w Hdays Hcap) as (x & Hx & Hpos & Hfeas & Hleast).
  destruct (FeasibilityFacts.X_spec w' Hdays' Hcap')
    as (x' & Hx' & Hpos' & Hfeas' & Hleast').
  rewrite Hx, Hx'. f_equal. apply Z.le_antisymm.
  - apply Hleast; [exact Hpos'|]. intros d Hd.
    rewrite FeasibilityFacts.cumulative_need_raw, (Hcum d Hd), <- HC.
    rewrite <- FeasibilityFacts.cumulative_need_raw. apply Hfeas'. lia.
  - apply Hleast'; [exact Hpos|]. intros d Hd.
    assert (1 <= d <= DAYS w) as Hd' by lia.
    rewrite FeasibilityFacts.cumulative_need_raw, <- (Hcum d Hd'), HC.
    rewrite <- FeasibilityFacts.cumulative_need_raw. apply Hfeas, Hd'.
Qed.

Lemma X_ignores_records_outside_horizon_witness :
  X Sample.plan = X Cases.late_order.
Proof.
  apply (X_ignores_records_outside_horizon Sample.plan Cases.late_order).
  - reflexivity.
  - reflexivity.
  - vm_compute. discriminate.
  - reflexivity.
Defined.

End LeadTimeFacts.

(* ------------------------------------------------------------------ *)
(** * More on the LG stock timeline *)
(* ------------------------------------------------------------------ *)

Module TimelineFacts.

Import Pivot Views.

Lemma string_compare_lt_trans (x : string) :
  forall y z, String.compare x y = Lt -> String.compare y z = Lt ->
              String.compare x z = Lt.
Proof.
  induction x as [|a x IH]; intros [|b y] [|c z]; simpl; try congruence.
  unfold Ascii.compare.
  destruct (N.compare_spec (Ascii.N_of_ascii a) (Ascii.N_of_ascii b)) as [Hab|Hab|Hab];
    try discriminate;
    destruct (N.compare_spec (Ascii.N_of_ascii b) (Ascii.N_of_ascii c)) as [Hbc|Hbc|Hbc];
    try discriminate; intros H1 H2.
  - rewrite Hab, Hbc, N.compare_refl. eapply IH; eassumption.
  - rewrite Hab. apply N.compare_lt_iff in Hbc. rewrite Hbc. reflexivity.
  - rewrite <- Hbc. apply N.compare_lt_iff in Hab. rewrite Hab. reflexivity.
  - assert (Ascii.N_of_ascii a < Ascii.N_of_ascii c)%N as Hac by lia.
    apply N.compare_lt_iff in Hac. rewrite Hac. reflexivity.
Qed.

Lemma string_compare_gt_lt (x y : string) :
  String.compare x y = Gt -> String.compare y x = Lt.
Proof.
  intros H. rewrite String.compare_antisym, H. reflexivity.
Qed.

Lemma NoDup_id_keys (l : list string) : NoDup (id_keys l).
Proof.
  apply (FrameFacts.sorted_NoDup String.compare).
  - apply FrameFacts.string_compare_eq.
  - apply (FrameFacts.sorted_keys_sorted String.compare).
    + apply FrameFacts.string_compare_eq.
    + intros x y z. apply string_compare_lt_trans.
    + apply string_compare_gt_lt.
Qed.

Lemma has_duplicates_iff (rows : list stock_row) :
  has_duplicates rows = true
  <-> exists l1 r l2 r' l3,
        rows = l1 ++ r :: l2 ++ r' :: l3
        /\ st_Day r = st_Day r' /\ Entity_ID r = Entity_ID r'.
Proof.
  induction rows as [|r0 rows IH]; cbn [has_duplicates].
  - split; [discriminate|]. intros ([|? ?] & ? & ? & ? & ? & H & _); discriminate.
  - rewrite orb_true_iff, IH. split.
    + intros [Hex|(l1 & r & l2 & r' & l3 & -> & Hd & Hc)].
      * apply existsb_exists in Hex. destruct Hex as (r' & Hin & Hsame).
        apply in_split in Hin. destruct Hin as (l2 & l3 & ->).
        unfold same_cell in Hsame. apply andb_true_iff in Hsame.
        destruct Hsame as (Hd & Hc). apply Z.eqb_eq in Hd. apply String.eqb_eq in Hc.
        exists [], r0, l2, r', l3. repeat split; [symmetry; exact Hd|symmetry; exact Hc].
      * exists (r0 :: l1), r, l2, r', l3. repeat split; assumption.
    + intros ([|a l1] & r & l2 & r' & l3 & H & Hd & Hc).
      * injection H as -> ->. left. apply existsb_exists. exists r'.
        split; [apply in_or_app; right; left; reflexivity|].
        unfold same_cell. apply andb_true_iff.
        split; [apply Z.eqb_eq|apply String.eqb_eq]; symmetry; assumption.
      * injection H as -> ->. right. exists l1, r, l2, r', l3.
        repeat split; assumption.
Qed.

(** X6. Building the LG stock timeline fails, with the [ValueError] of
    [pivot], exactly when two of the LG snapshots carry the same day and the
    same LG id; otherwise it returns a table. *)
Theorem lg_stock_fails_iff_duplicate_snapshot (w : workbook) :
  (lg_stock w = Raise ValueError
   <-> exists l1 r l2 r' l3,
         filter is_LG (stock_levels w) = l1 ++ r :: l2 ++ r' :: l3
         /\ st_Day r = st_Day r' /\ Entity_ID r = Entity_ID r')
  /\ (lg_stock w <> Raise ValueError -> exists t, lg_stock w = Ok t).
Proof.
  unfold lg_stock, pivot. rewrite <- has_duplicates_iff.
  destruct (has_duplicates (filter is_LG (stock_levels w))); cbn [bind].
  - split; [split; reflexivity|]. intros H. contradiction.
  - split; [split; discriminate|]. intros _. eexists. reflexivity.
Qed.

Lemma lg_stock_fails_iff_duplicate_snapshot_witness :
  lg_stock Sample.plan <> Raise ValueError
  /\ (exists t, lg_stock Sample.plan = Ok t)
  /\ lg_stock Cases.recount = Raise ValueError.
Proof.
  assert (lg_stock Sample.plan <> Raise ValueError) as Hok
    by (vm_compute; discriminate).
  split; [exact Hok|].
  split; [exact (proj2 (lg_stock_fails_iff_duplicate_snapshot Sample.plan) Hok)|].
  apply (proj1 (lg_stock_fails_iff_duplicate_snapshot Cases.recount)).
  eexists [], _, [], _, _. split; [reflexivity|]. split; reflexivity.
Defined.

Lemma fill_row_length (row : list (option Q)) :
  forall prev, List.length (fill_row prev row) = List.length row.
Proof.
  induction row as [|c row IH]; intros prev; cbn [fill_row List.length];
    [reflexivity|]. rewrite IH. reflexivity.
Qed.

Lemma ffill_from_shape (n : nat) (rows : list (list (option Q))) :
  forall prev,
  Forall (fun row => List.length row = n) rows ->
  List.length (ffill_from prev rows) = List.length rows
  /\ Forall (fun row => List.length row = n) (ffill_from prev rows).
Proof.
  induction rows as [|r rows IH]; intros prev H; cbn [ffill_from List.length].
  - split; [reflexivity|constructor].
  - inversion H as [|? ? Hr Hrows]; subst.
    destruct (IH (fill_row prev r) Hrows) as (Hlen & Hall).
    split; [rewrite Hlen; reflexivity|].
    constructor; [apply fill_row_length|exact Hall].
Qed.

(** Labels and shape of the timeline. *)
Lemma lg_stock_well_formed (w : workbook) (t : frame) :
  lg_stock w = Ok t ->
  StronglySorted Z.lt (index t)
  /\ (forall d, In d (index t)
        <-> exists r, In r (stock_levels w) /\ is_LG r = true /\ st_Day r = d)
  /\ NoDup (columns t)
  /\ (forall c, In c (columns t)
        <-> exists r, In r (stock_levels w) /\ is_LG r = true /\ Entity_ID r = c)
  /\ List.length (cells t) = List.length (index t)
  /\ Forall (fun row => List.length row = List.length (columns t)) (cells t).
Proof.
  intros Ht. destruct (ViewsFacts.lg_stock_inv w t Ht) as (f & Hp & ->).
  unfold pivot in Hp.
  destruct (has_duplicates (filter is_LG (stock_levels w))); [discriminate|].
  injection Hp as <-. cbn [ffill index columns cells].
  split; [apply FrameFacts.day_keys_sorted|]. split.
  { intros d. rewrite FrameFacts.In_day_keys, in_map_iff. split.
    - intros (r & Hd & Hr). apply filter_In in Hr. destruct Hr as (Hr & Hlg).
      exists r. repeat split; assumption.
    - intros (r & Hr & Hlg & Hd). exists r. split; [exact Hd|].
      apply filter_In. split; assumption. }
  split; [apply NoDup_id_keys|]. split.
  { intros c. rewrite FrameFacts.In_id_keys, in_map_iff. split.
    - intros (r & Hc & Hr). apply filter_In in Hr. destruct Hr as (Hr & Hlg).
      exists r. repeat split; assumption.
    - intros (r & Hr & Hlg & Hc). exists r. split; [exact Hc|].
      apply filter_In. split; assumption. }
  match goal with
  | |- List.length (ffill_from [] ?rows) = _ /\ _ =>
      destruct (ffill_from_shape
                  (List.length (id_keys (map Entity_ID (filter is_LG (stock_levels w)))))
                  rows []) as (Hlen & Hall)
  end.
  { apply Forall_forall. intros row Hrow. apply in_map_iff in Hrow.
    destruct Hrow as (d & <- & _). apply length_map. }
  split; [|exact Hall]. rewrite Hlen. apply length_map.
Qed.

(** X7. The LG stock timeline is a well-formed table: its index lists
    exactly the days on which some LG has a snapshot, in strictly increasing
    order; its columns list exactly the LG ids that have a snapshot, each
    once; and it has one row per index day and one cell per column in every
    row. *)
Theorem lg_stock_labels_and_shape (w : workbook) (t : frame) :
  lg_stock w = Ok t ->
  StronglySorted Z.lt (index t)
  /\ (forall d, In d (index t)
        <-> exists r, In r (stock_levels w) /\ is_LG r = true /\ st_Day r = d)
  /\ NoDup (columns t)
  /\ (forall c, In c (columns t)
        <-> exists r, In r (stock_levels w) /\ is_LG r = true /\ Entity_ID r = c)
  /\ List.length (cells t) = List.length (index t)
  /\ Forall (fun row => List.length row = List.length (columns t)) (cells t).
Proof.
  exact (lg_stock_well_formed w t).
Qed.

Lemma lg_stock_labels_and_shape_witness :
  exists t, lg_stock Sample.plan = Ok t
    /\ index t = [1; 2; 30]
    /\ StronglySorted Z.lt (index t)
    /\ NoDup (columns t)
    /\ List.length (cells t) = List.length (index t).
Proof.
  eassert (lg_stock Sample.plan = Ok _) as Ht by (vm_compute; reflexivity).
  destruct (lg_stock_labels_and_shape Sample.plan _ Ht)
    as (Hsorted & _ & Hnd & _ & Hlen & _).
  eexists. split; [exact Ht|]. split; [reflexivity|].
  split; [exact Hsorted|]. split; [exact Hnd|exact Hlen].
Defined.

Lemma carry_found (raw : Z -> string -> option Q) (c : string) (l : list Z) :
  fold_left (carry raw c) l None = None ->
  forall d, In d l -> raw d c = None.
Proof.
  induction l as [|x l IH] using rev_ind; intros H d Hd; [contradiction|].
  rewrite fold_left_app in H. cbn [fold_left] in H. unfold carry at 1 in H.
  destruct (raw x c) as [v|] eqn:Hx; [discriminate|].
  apply in_app_or in Hd. destruct Hd as [Hd|[<-|[]]]; [|exact Hx].
  apply IH; assumption.
Qed.

Lemma raw_cell_recorded (rows : list stock_row) (r : stock_row) :
  has_duplicates rows = false ->
  In r rows ->
  raw_cell rows (st_Day r) (Entity_ID r) = Some (Stock_Level_tons r).
Proof.
  intros Hdup Hin. unfold raw_cell.
  assert (In r (filter (same_cell (st_Day r) (Entity_ID r)) rows)) as Hr.
  { apply filter_In. split; [exact Hin|]. unfold same_cell.
    rewrite Z.eqb_refl, String.eqb_refl. reflexivity. }
  destruct (ProjectionFacts.at_most_one_per_cell rows (st_Day r) (Entity_ID r) Hdup)
    as [Hnil|(s & Hone)].
  - rewrite Hnil in Hr. contradiction.
  - rewrite Hone in *. destruct Hr as [->|[]]. reflexivity.
Qed.

(** X8. In the LG stock timeline a recorded snapshot is kept as it is on its
    own day, and from the day of a snapshot of an LG onwards every cell of
    that LG's column is present: forward fill leaves no gap after the first
    snapshot. *)
Theorem lg_stock_present_from_first_snapshot
    (w : workbook) (t : frame) (r : stock_row) :
  lg_stock w = Ok t ->
  In r (stock_levels w) -> is_LG r = true ->
  loc_cell t (st_Day r) (Entity_ID r) = Ok (Some (Stock_Level_tons r))
  /\ (forall d, In d (index t) -> st_Day r <= d ->
        exists v, loc_cell t d (Entity_ID r) = Ok (Some v)).
Proof.
  intros Ht Hr Hlg.
  destruct (lg_stock_well_formed w t Ht) as (_ & Hidx & _ & Hcols & _).
  destruct (ViewsFacts.lg_stock_inv w t Ht) as (f & Hp & ->).
  assert (In r (filter is_LG (stock_levels w))) as Hin
    by (apply filter_In; split; assumption).
  assert (has_duplicates (filter is_LG (stock_levels w)) = false) as Hdup.
  { unfold pivot in Hp.
    destruct (has_duplicates (filter is_LG (stock_levels w)));
      [discriminate|reflexivity]. }
  assert (In (Entity_ID r) (columns (ffill f))) as Hc.
  { apply Hcols. exists r. repeat split; assumption. }
  assert (In (st_Day r) (index (ffill f))) as Hd0.
  { apply Hidx. exists r. repeat split; assumption. }
  pose proof (raw_cell_recorded _ r Hdup Hin) as Hraw.
  split.
  - destruct (PivotFacts.filled_cell _ f _ _ Hp Hd0 Hc) as (pre & post & _ & Hval).
    rewrite Hval, fold_left_app. cbn [fold_left]. unfold carry at 1.
    rewrite Hraw. reflexivity.
  - intros d Hd Hle.
    destruct (PivotFacts.filled_cell _ f _ _ Hp Hd Hc) as (pre & post & Hsplit & Hval).
    rewrite Hval.
    destruct (fold_left (carry (raw_cell (filter is_LG (stock_levels w))) (Entity_ID r))
                (pre ++ [d]) None) as [v|] eqn:Hfold; [exists v; reflexivity|].
    exfalso.
    assert (In (st_Day r) (pre ++ [d])) as Hmem.
    { cbn [ffill index] in Hd0.
      destruct (ViewsFacts.lg_stock_inv w (ffill f) Ht) as (f' & Hp' & _).
      destruct (KpiFacts.pivot_labels _ _ Hp) as (Hlab & _).
      rewrite Hlab, Hsplit in Hd0.
      pose proof (FrameFacts.day_keys_sorted
                    (map st_Day (filter is_LG (stock_levels w)))) as Hsorted.
      rewrite Hsplit in Hsorted.
      destruct (PivotFacts.sorted_split _ _ _ Hsorted) as (_ & Hpost).
      apply in_app_or in Hd0. apply in_or_app.
      destruct Hd0 as [Hy|[<-|Hy]].
      - left. exact Hy.
      - right. left. reflexivity.
      - specialize (Hpost _ Hy). lia. }
    pose proof (carry_found _ _ _ Hfold _ Hmem) as Hnone.
    rewrite Hraw in Hnone. discriminate.
Qed.

Lemma lg_stock_present_from_first_snapshot_witness :
  exists t, lg_stock Sample.plan = Ok t
    /\ loc_cell t 2 "LG2" = Ok (Some (50 # 1))
    /\ exists v, loc_cell t 30 "LG2" = Ok (Some v).
Proof.
  eassert (lg_stock Sample.plan = Ok _) as Ht by (vm_compute; reflexivity).
  destruct (lg_stock_present_from_first_snapshot Sample.plan _
              {| Entity_Type := "LG"; Entity_ID := "LG2"; st_Day := 2;
                 Stock_Level_tons := 50 |} Ht)
    as (Hown & Hlater).
  - right. left. reflexivity.
  - reflexivity.
  - eexists. split; [exact Ht|]. split; [exact Hown|].
    apply (Hlater 30); [right; right; left; reflexivity|vm_compute; discriminate].
Defined.

End TimelineFacts.

(* ------------------------------------------------------------------ *)
(** * Vehicle utilisation *)
(* ------------------------------------------------------------------ *)

Module UsageFacts.

Import Views Kpi.

Lemma nodup_length_le (l : list string) :
  (List.length (nodup string_dec l) <= List.length l)%nat.
Proof.
  induction l as [|x l IH]; cbn [nodup List.length]; [lia|].
  destruct (in_dec string_dec x l); cbn [List.length]; lia.
Qed.

Lemma nunique_bounds (l : list string) :
  l <> [] -> 1 <= nunique l <= Z.of_nat (List.length l).
Proof.
  intros Hne. unfold nunique. pose proof (nodup_length_le l) as Hle.
  destruct l as [|x l]; [congruence|].
  assert (In x (nodup string_dec (x :: l))) as Hin
    by (apply nodup_In; left; reflexivity).
  destruct (nodup string_dec (x :: l)) as [|y ys]; [contradiction|].
  cbn [List.length] in *. lia.
Qed.

Lemma nunique_incl (l l' : list string) :
  incl l l' -> nunique l <= nunique l'.
Proof.
  intros Hincl. unfold nunique. apply inj_le.
  apply NoDup_incl_length; [apply NoDup_nodup|].
  intros x Hx. apply nodup_In. apply Hincl. apply nodup_In in Hx. exact Hx.
Qed.

(** Rows of the vehicle-utilisation view. *)
Lemma veh_usage_facts (w : workbook) :
  StronglySorted Z.lt (map fst (veh_usage w))
  /\ (forall d, In d (map fst (veh_usage w))
        <-> exists r, In r (dispatch_lg w) /\ Day r = d)
  /\ (forall d n, In (d, n) (veh_usage w) ->
        1 <= n <= Z.of_nat (List.length (filter (fun r => Day r =? d) (dispatch_lg w)))
        /\ exists vs, NoDup vs
             /\ n = Z.of_nat (List.length vs)
             /\ forall v, In v vs
                  <-> exists r, In r (dispatch_lg w) /\ Day r = d /\ Vehicle_ID r = v).
Proof.
  unfold veh_usage.
  assert (forall d, In d (day_keys (map Day (dispatch_lg w)))
            <-> exists r, In r (dispatch_lg w) /\ Day r = d) as Hdays.
  { intros d. rewrite FrameFacts.In_day_keys, in_map_iff. split.
    - intros (r & Hd & Hr). exists r. split; assumption.
    - intros (r & Hr & Hd). exists r. split; assumption. }
  split; [|split].
  - rewrite map_map. cbn [fst]. rewrite map_id. apply FrameFacts.day_keys_sorted.
  - intros d. rewrite map_map. cbn [fst]. rewrite map_id. apply Hdays.
  - intros d n Hin. apply in_map_iff in Hin. destruct Hin as (d' & Heq & Hd').
    injection Heq as -> <-. apply Hdays in Hd'. destruct Hd' as (r & Hr & Hd).
    split.
    + rewrite <- (length_map Vehicle_ID). apply nunique_bounds.
      intros Hnil. apply map_eq_nil in Hnil.
      assert (In r (filter (fun r => Day r =? d) (dispatch_lg w))) as Hin
        by (apply filter_In; split; [exact Hr|apply Z.eqb_eq, Hd]).
      rewrite Hnil in Hin. contradiction.
    + exists (nodup string_dec
                (map Vehicle_ID (filter (fun r => Day r =? d) (dispatch_lg w)))).
      split; [apply NoDup_nodup|]. split; [reflexivity|].
      intros v. rewrite nodup_In, in_map_iff. split.
      * intros (r' & Hv & Hr'). apply filter_In in Hr'. destruct Hr' as (Hr' & Hd').
        apply Z.eqb_eq in Hd'. exists r'. repeat split; assumption.
      * intros (r' & Hr' & Hd' & Hv). exists r'. split; [exact Hv|].
        apply filter_In. split; [exact Hr'|apply Z.eqb_eq, Hd'].
Qed.

(** X9. The vehicle-utilisation view has one row per day that has an
    LG->FPS record, days strictly increasing; the trips used on a day count
    each vehicle of that day once, so they lie between 1 and the number of
    records of the day. *)
Theorem veh_usage_rows (w : workbook) :
  StronglySorted Z.lt (map fst (veh_usage w))
  /\ (forall d, In d (map fst (veh_usage w))
        <-> exists r, In r (dispatch_lg w) /\ Day r = d)
  /\ (forall d n, In (d, n) (veh_usage w) ->
        1 <= n <= Z.of_nat (List.length (filter (fun r => Day r =? d) (dispatch_lg w)))
        /\ exists vs, NoDup vs
             /\ n = Z.of_nat (List.length vs)
             /\ forall v, In v vs
                  <-> exists r, In r (dispatch_lg w) /\ Day r = d /\ Vehicle_ID r = v).
Proof.
  exact (veh_usage_facts w).
Qed.

Lemma sum_at_least_length (l : list Z) :
  Forall (fun n => 1 <= n) l ->
  (inject_Z (Z.of_nat (List.length l)) <= sum (map inject_Z l))%Q.
Proof.
  induction 1 as [|n l Hn Hall IH]; cbn [List.length map sum].
  - apply Qle_refl.
  - rewrite Nat2Z.inj_succ. unfold Z.succ. rewrite inject_Z_plus.
    assert (inject_Z 1 <= inject_Z n)%Q by (rewrite <- Zle_Qle; exact Hn).
    change (inject_Z 1) with 1%Q in *. lra.
Qed.

(** X10. The "Avg Trips/Day" tile averages over the days that have an
    LG->FPS record only: it is undefined (NaN) exactly when no record falls
    on the days [1..b] of the window, and otherwise it is at least 1. *)
Theorem avg_trips_defined_iff_dispatch (w : workbook) (day_range : Z * Z) :
  (avg_trips w day_range = None
   <-> forall r, In r (dispatch_lg w) -> ~ (1 <= Day r <= snd day_range))
  /\ (forall a, avg_trips w day_range = Some a -> (1 <= a)%Q).
Proof.
  destruct (veh_usage_facts w) as (_ & Hdays & Hcount).
  unfold avg_trips, mean.
  set (sel := filter (fun r : Z * Z => (1 <=? fst r) && (fst r <=? snd day_range))
                     (veh_usage w)).
  assert (forall e, In e sel ->
            In e (veh_usage w) /\ 1 <= fst e <= snd day_range) as Hsel.
  { intros e He. apply filter_In in He. destruct He as (He & Hc).
    apply andb_true_iff in Hc. destruct Hc as (H1 & H2).
    apply Z.leb_le in H1. apply Z.leb_le in H2. split; [exact He|lia]. }
  split.
  - split.
    + intros Hnone r Hr Hday.
      assert (In (Day r) (map fst (veh_usage w))) as Hin
        by (apply Hdays; exists r; split; [exact Hr|reflexivity]).
      apply in_map_iff in Hin. destruct Hin as (e & He & Hin).
      assert (In e sel) as Hmem.
      { apply filter_In. split; [exact Hin|]. rewrite He.
        apply andb_true_iff. split; apply Z.leb_le; lia. }
      destruct sel as [|e0 sel']; [contradiction|]. discriminate.
    + intros Hnone. destruct sel as [|e sel'] eqn:E; [reflexivity|]. exfalso.
      destruct (Hsel e) as (He & Hrange); [left; reflexivity|].
      assert (In (fst e) (map fst (veh_usage w))) as Hin by (apply in_map, He).
      apply Hdays in Hin. destruct Hin as (r & Hr & Hd).
      apply (Hnone r Hr). lia.
  - intros a Ha.
    destruct (map snd sel) as [|n ns] eqn:E; [discriminate|].
    injection Ha as <-.
    assert (Forall (fun n => 1 <= n) (n :: ns)) as Hall.
    { rewrite <- E. apply Forall_forall. intros k Hk.
      apply in_map_iff in Hk. destruct Hk as ((d & k') & Hk & He). cbn [snd] in Hk.
      subst k'. destruct (Hsel _ He) as (Hin & _).
      destruct (Hcount d k Hin) as (Hb & _). lia. }
    apply sum_at_least_length in Hall.
    apply Qle_shift_div_l.
    + rewrite <- (Zlt_Qlt 0). cbn [List.length]. lia.
    + rewrite Qmult_1_l. exact Hall.
Qed.

Lemma avg_trips_defined_iff_dispatch_witness :
  avg_trips Sample.plan (0, 0) = None
  /\ avg_trips Sample.plan (0, 30) = Some (3 # 3)
  /\ (1 <= 3 # 3)%Q.
Proof.
  destruct (avg_trips_defined_iff_dispatch Sample.plan (0, 0)) as (Hnone & _).
  destruct (avg_trips_defined_iff_dispatch Sample.plan (0, 30)) as (_ & Hone).
  split.
  - apply Hnone. intros r [<-|[<-|[<-|[]]]] (H1 & H2); vm_compute in H2; apply H2;
      reflexivity.
  - split; [reflexivity|]. apply (Hone (3 # 3)). reflexivity.
Defined.

End UsageFacts.

(* ------------------------------------------------------------------ *)
(** * FPS stock, stock-outs and the at-risk list *)
(* ------------------------------------------------------------------ *)

Module StockFacts.

Import Views Kpi AtRiskList.

Lemma unregistered_no_match (s : stock_row) (fs : list fps_row) :
  existsb (fun f => (Entity_ID s =? FPS_ID f)%string) fs = false ->
  filter (fun f => (Entity_ID s =? FPS_ID f)%string) fs = [].
Proof.
  induction fs as [|f fs IH]; cbn [existsb filter]; [reflexivity|].
  intros H. apply orb_false_iff in H. destruct H as (-> & H). apply IH, H.
Qed.

Lemma registered_iff (s : stock_row) (fs : list fps_row) :
  existsb (fun f => (Entity_ID s =? FPS_ID f)%string) fs = true
  <-> In (Entity_ID s) (map FPS_ID fs).
Proof.
  rewrite existsb_exists, in_map_iff. split.
  - intros (f & Hf & Heq). apply String.eqb_eq in Heq. exists f. split; auto.
  - intros (f & Heq & Hf). exists f. split; [exact Hf|].
    apply String.eqb_eq. auto.
Qed.

(** The snapshots that reach the FPS stock table. *)
Lemma fps_stock_snapshots (w : workbook) :
  (forall s, In s (map snapshot (fps_stock w))
     <-> In s (stock_levels w) /\ is_FPS s = true
         /\ In (Entity_ID s) (map FPS_ID (fps w)))
  /\ (NoDup (map FPS_ID (fps w)) ->
      map snapshot (fps_stock w)
      = filter (fun s => is_FPS s
                         && existsb (fun f => (Entity_ID s =? FPS_ID f)%string) (fps w))
               (stock_levels w)).
Proof.
  split.
  - intros s. rewrite in_map_iff. split.
    + intros (r & <- & Hr).
      destruct (ViewsFacts.fps_stock_row_inv w r Hr) as (s & f & Hs & Hfps & Hf & Hid & ->).
      cbn [merge_row snapshot]. repeat split; [assumption..|].
      rewrite Hid. apply in_map, Hf.
    + intros (Hs & Hfps & Hreg). apply in_map_iff in Hreg.
      destruct Hreg as (f & Hid & Hf).
      exists (merge_row s f). split; [reflexivity|].
      unfold fps_stock. apply in_flat_map. exists s. split.
      * apply filter_In. split; assumption.
      * apply in_map, filter_In. split; [exact Hf|]. apply String.eqb_eq. auto.
  - intros Hnd. unfold fps_stock.
    induction (stock_levels w) as [|s l IH]; [reflexivity|]. cbn [filter].
    destruct (is_FPS s); cbn [andb flat_map]; [|exact IH].
    rewrite map_app, IH, map_map. cbn [merge_row snapshot].
    destruct (existsb (fun f => (Entity_ID s =? FPS_ID f)%string) (fps w)) eqn:E.
    + apply registered_iff in E.
      destruct (ProjectionFacts.registry_row_unique (fps w) (Entity_ID s) Hnd E)
        as (f0 & ->). reflexivity.
    + rewrite (unregistered_no_match s (fps w) E). reflexivity.
Qed.

(** X11. The FPS stock table is an inner join: a snapshot contributes a row
    exactly when it is an FPS snapshot whose id is in the FPS registry, so
    snapshots of unregistered shops are dropped; and when every shop is
    registered once, the table has exactly one row per such snapshot, in
    the order of the stock sheet. *)
Theorem fps_stock_inner_join (w : workbook) :
  (forall s, In s (map snapshot (fps_stock w))
     <-> In s (stock_levels w) /\ is_FPS s = true
         /\ In (Entity_ID s) (map FPS_ID (fps w)))
  /\ (NoDup (map FPS_ID (fps w)) ->
      map snapshot (fps_stock w)
      = filter (fun s => is_FPS s
                         && existsb (fun f => (Entity_ID s =? FPS_ID f)%string) (fps w))
               (stock_levels w)).
Proof.
  exact (fps_stock_snapshots w).
Qed.

Lemma fps_stock_inner_join_witness :
  map snapshot (fps_stock Sample.plan)
  = filter (fun s => is_FPS s
                     && existsb (fun f => (Entity_ID s =? FPS_ID f)%string)
                                (fps Sample.plan))
           (stock_levels Sample.plan).
Proof.
  apply (proj2 (fps_stock_inner_join Sample.plan)).
  repeat constructor; simpl; intuition discriminate.
Defined.

(** X12. With non-negative reorder thresholds every stocked-out shop is
    also at risk, so the "FPS Stock-Outs" tile never exceeds the "FPS
    At-Risk Count" tile. *)
Theorem fps_zero_le_fps_risk (w : workbook) (day_range : Z * Z) :
  (forall f, In f (fps w) -> (0 <= Reorder_Threshold_tons f)%Q) ->
  0 <= fps_zero w day_range <= fps_risk w day_range.
Proof.
  intros Hthr. split; [unfold fps_zero, nunique; lia|].
  unfold fps_zero, fps_risk. apply UsageFacts.nunique_incl.
  intros k Hk. apply in_map_iff in Hk. destruct Hk as (r & <- & Hr).
  apply filter_In in Hr. destruct Hr as (Hr & Hc).
  apply andb_true_iff in Hc. destruct Hc as (Hday & Hzero).
  apply in_map, filter_In. split; [exact Hr|]. rewrite Hday. cbn [andb].
  destruct (ViewsFacts.fps_stock_row_inv w r Hr) as (s & f & _ & _ & Hf & _ & ->).
  cbn [merge_row snapshot At_Risk] in *. apply Qeq_bool_iff in Hzero.
  apply Qle_bool_iff. rewrite Hzero. apply Hthr, Hf.
Qed.

Lemma fps_zero_le_fps_risk_witness :
  0 <= fps_zero Sample.plan (0, 1) <= fps_risk Sample.plan (0, 1).
Proof.
  apply (fps_zero_le_fps_risk Sample.plan (0, 1)).
  intros f [<-|[<-|[]]]; vm_compute; discriminate.
Defined.

(** X13. The at-risk list holds exactly the joined FPS snapshots of the
    days [1..b] whose stock is at most the reorder threshold, with their
    day, shop, stock and threshold; snapshots of day 0 or earlier are never
    listed. *)
Theorem arf_rows (w : workbook) (day_range : Z * Z) (row : arf_row) :
  In row (arf w day_range)
  <-> exists s f,
        In s (stock_levels w) /\ is_FPS s = true
        /\ In f (fps w) /\ Entity_ID s = FPS_ID f
        /\ 1 <= st_Day s <= snd day_range
        /\ (Stock_Level_tons s <= Reorder_Threshold_tons f)%Q
        /\ row = {| arf_Day := st_Day s;
                    arf_FPS_ID := FPS_ID f;
                    arf_Stock_Level_tons := Stock_Level_tons s;
                    arf_Reorder_Threshold_tons := Reorder_Threshold_tons f |}.
Proof.
  unfold arf. rewrite in_map_iff. split.
  - intros (r & <- & Hr). apply filter_In in Hr. destruct Hr as (Hr & Hc).
    destruct (ViewsFacts.fps_stock_row_inv w r Hr) as (s & f & Hs & Hfps & Hf & Hid & ->).
    cbn [merge_row snapshot fs_FPS_ID fs_Reorder_Threshold_tons At_Risk] in *.
    apply andb_true_iff in Hc. destruct Hc as (Hc & Hrisk).
    apply andb_true_iff in Hc. destruct Hc as (H1 & H2).
    apply Z.leb_le in H1. apply Z.leb_le in H2. apply Qle_bool_iff in Hrisk.
    exists s, f. repeat split; assumption.
  - intros (s & f & Hs & Hfps & Hf & Hid & (H1 & H2) & Hrisk & ->).
    exists (merge_row s f). split; [reflexivity|].
    apply filter_In. split.
    + unfold fps_stock. apply in_flat_map. exists s. split.
      * apply filter_In. split; assumption.
      * apply in_map, filter_In. split; [exact Hf|]. apply String.eqb_eq, Hid.
    + cbn [merge_row snapshot At_Risk].
      apply andb_true_iff. split; [apply andb_true_iff; split; apply Z.leb_le|];
        [assumption..|]. apply Qle_bool_iff, Hrisk.
Qed.

(** X14. When the window ends on a day of the horizon from day 1 on, the
    "FPS At-Risk Count" tile is the number of distinct shops that the
    at-risk list shows for the end day. *)
Theorem fps_risk_counts_arf (w : workbook) (day_range : Z * Z) :
  1 <= snd day_range <= DAYS w ->
  fps_risk w day_range
  = nunique (map arf_FPS_ID
               (filter (fun row => arf_Day row =? snd day_range) (arf w day_range))).
Proof.
  intros (H1 & H2). unfold fps_risk, arf, end_day.
  rewrite Z.min_l by exact H2. f_equal.
  induction (fps_stock w) as [|r l IH]; [reflexivity|]. cbn [filter].
  destruct (Z.eqb_spec (st_Day (snapshot r)) (snd day_range)) as [Heq|Hne].
  - assert ((1 <=? st_Day (snapshot r)) = true) as -> by (apply Z.leb_le; lia).
    assert ((st_Day (snapshot r) <=? snd day_range) = true) as ->
      by (apply Z.leb_le; lia).
    cbn [andb].
    destruct (At_Risk r); cbn [map filter arf_Day arf_FPS_ID].
    + assert ((st_Day (snapshot r) =? snd day_range) = true) as ->
        by (apply Z.eqb_eq, Heq).
      cbn [map arf_FPS_ID]. f_equal. exact IH.
    + exact IH.
  - cbn [andb].
    destruct ((1 <=? st_Day (snapshot r)) && (st_Day (snapshot r) <=? snd day_range)
              && At_Risk r); [|exact IH].
    cbn [map filter arf_Day].
    destruct (Z.eqb_spec (st_Day (snapshot r)) (snd day_range)); [contradiction|].
    exact IH.
Qed.

Lemma fps_risk_counts_arf_witness :
  fps_risk Sample.plan (0, 1)
  = nunique (map arf_FPS_ID
               (filter (fun row => arf_Day row =? 1) (arf Sample.plan (0, 1)))).
Proof.
  apply (fps_risk_counts_arf Sample.plan (0, 1)).
  split; vm_compute; discriminate.
Defined.

End StockFacts.

(* ------------------------------------------------------------------ *)
(** * Plan progress *)
(* ------------------------------------------------------------------ *)

Module ProgressFacts.

Import Views Kpi.

Lemma dispatched_cum_raw (w : workbook) (day_range : Z * Z) :
  (dispatched_cum w day_range
   == sum (map Quantity_tons
             (filter (fun r => Day r <=? end_day w day_range) (dispatch_lg w))))%Q.
Proof.
  unfold dispatched_cum, day_totals_lg.
  apply (FrameFacts.groupby_sum_filter Day Quantity_tons
           (fun k => k <=? end_day w day_range)).
Qed.

Lemma filter_all {A : Type} (P : A -> bool) (l : list A) :
  (forall x, In x l -> P x = true) -> filter P l = l.
Proof.
  induction l as [|x l IH]; intros H; cbn [filter]; [reflexivity|].
  rewrite (H x) by (left; reflexivity). f_equal. apply IH.
  intros y Hy. apply H. right. exact Hy.
Qed.






(** X17. Once every LG->FPS record is dated at or before the end day
    (the end of the window capped at the horizon), nothing remains: the
    remaining volume is zero, "% Plan Completed" is 100 for a non-empty
    plan, and "Days Remaining" is 0 for a non-zero daily capacity. *)
Theorem plan_complete_at_last_dispatch (w : workbook) (day_range : Z * Z) :
  (forall r, In r (dispatch_lg w) -> Day r <= end_day w day_range) ->
  (remaining_t w day_range == 0)%Q
  /\ (~ (total_plan w == 0)%Q -> (pct_plan w day_range == 100)%Q)
  /\ (~ (DAILY_CAP w == 0)%Q -> days_rem w day_range = Some 0).
Proof.
  intros Hall.
  assert (dispatched_cum w day_range == total_plan w)%Q as Heq.
  { rewrite dispatched_cum_raw, ViewsFacts.total_plan_raw, filter_all; [reflexivity|].
    intros r Hr. apply Z.leb_le, Hall, Hr. }
  assert (remaining_t w day_range == 0)%Q as Hrem by (unfold remaining_t; lra).
  split; [exact Hrem|]. split.
  - intros Hne. unfold pct_plan.
    assert (truthy (total_plan w) = true) as -> by (apply KpiFacts.truthy_iff, Hne).
    rewrite Heq. field. exact Hne.
  - intros Hcap. unfold days_rem, days_rem_of.
    assert (truthy (DAILY_CAP w) = true) as -> by (apply KpiFacts.truthy_iff, Hcap).
    f_equal. rewrite Hrem. unfold Qdiv. rewrite Qmult_0_l. reflexivity.
Qed.

Lemma plan_complete_at_last_dispatch_witness :
  Qeq (remaining_t Sample.plan (0, 4)) 0
  /\ Qeq (pct_plan Sample.plan (0, 4)) 100
  /\ days_rem Sample.plan (0, 4) = Some 0.
Proof.
  assert (forall r, In r (dispatch_lg Sample.plan) ->
            Day r <= end_day Sample.plan (0, 4)) as Hall
    by (intros r [<-|[<-|[<-|[]]]]; vm_compute; discriminate).
  destruct (plan_complete_at_last_dispatch Sample.plan (0, 4) Hall)
    as (Hrem & Hpct & Hdays).
  split; [exact Hrem|].
  split; [apply Hpct; intros H; discriminate H|].
  apply Hdays. intros H. discriminate H.
Defined.

End ProgressFacts.

(* ------------------------------------------------------------------ *)
(** * When the tabs can be computed *)
(* ------------------------------------------------------------------ *)

Module ReachFacts.

Import Pivot Views Kpi Projection Sidebar.

Section Traverse.
Context {A B : Type} (f : A -> result B).

Lemma traverse_ok (l : list A) :
  (forall a, In a l -> exists b, f a = Ok b) ->
  exists bs, traverse f l = Ok bs.
Proof.
  induction l as [|a l IH]; intros H; cbn [traverse]; [eexists; reflexivity|].
  destruct (H a (or_introl eq_refl)) as (b & ->).
  destruct IH as (bs & ->); [intros; apply H; right; assumption|].
  eexists. reflexivity.
Qed.

Lemma traverse_ok_inv (l : list A) :
  forall bs, traverse f l = Ok bs -> Forall2 (fun a b => f a = Ok b) l bs.
Proof.
  induction l as [|a l IH]; intros bs H; cbn [traverse] in H.
  - injection H as <-. constructor.
  - destruct (f a) as [b|e] eqn:Ha; [|discriminate].
    destruct (traverse f l) as [bs'|e]; [|discriminate].
    cbn [bind] in H. injection H as <-. constructor; [exact Ha|apply IH; reflexivity].
Qed.

Lemma traverse_raise_inv (l : list A) (e : exn) :
  traverse f l = Raise e -> exists a, In a l /\ f a = Raise e.
Proof.
  induction l as [|a l IH]; cbn [traverse]; [discriminate|].
  destruct (f a) as [b|e'] eqn:Ha; cbn [bind].
  - destruct (traverse f l) as [bs|e'']; [discriminate|]. cbn [bind].
    intros H. injection H as ->. destruct (IH eq_refl) as (a' & Hin & Ha').
    exists a'. split; [right; exact Hin|exact Ha'].
  - intros H. injection H as ->. exists a. split; [left; reflexivity|exact Ha].
Qed.

End Traverse.


Lemma Forall2_In_l {A B : Type} (R : A -> B -> Prop) (l : list A) (bs : list B) (a : A) :
  Forall2 R l bs -> In a l -> exists b, In b bs /\ R a b.
Proof.
  induction 1 as [|x y l bs Hxy _ IH]; intros Hin; [contradiction|].
  destruct Hin as [<-|Hin].
  - exists y. split; [left; reflexivity|exact Hxy].
  - destruct (IH Hin) as (b & Hb & Hab). exists b. split; [right; exact Hb|exact Hab].
Qed.





End ReachFacts.

(* ------------------------------------------------------------------ *)
(** * The per-shop table as a whole *)
(* ------------------------------------------------------------------ *)

Module TableFacts.

Import Pivot Views Projection.

Lemma fps_data_entry_row (w : workbook) (e : Z) (k : string) (row : fps_data_row) :
  fps_data_entry w e k = Ok row ->
  p_FPS_ID row = k
  /\ (forall n, Next_Receipt_Day row = Some n -> e < n)
  /\ (forall g, Days_To_Receipt row = Some g ->
        1 <= g /\ Next_Receipt_Day row = Some (e + g)).
Proof.
  unfold fps_data_entry.
  destruct (match stock_now_series w e k with
            | [] => Ok 0%Q
            | _ :: _ => float_of_series (stock_now_series w e k)
            end) as [stock|ex]; [|discriminate].
  cbn [bind]. intros H. injection H as <-.
  cbn [p_FPS_ID Next_Receipt_Day Days_To_Receipt].
  split; [reflexivity|].
  pose proof (ProjectionFacts.In_future_days w e k) as Hfut.
  destruct (future_days w e k) as [|d ds].
  - split; intros ? H; discriminate.
  - destruct (ProjectionFacts.min_day_spec ds d) as (Hmin & _).
    apply Hfut in Hmin. destruct Hmin as (r & _ & _ & _ & Hlt).
    split.
    + intros n Hn. injection Hn as <-. exact Hlt.
    + intros g Hg. destruct (min_day d ds =? 0); [discriminate|].
      injection Hg as <-. split; [lia|]. f_equal. lia.
Qed.

Lemma fps_data_entry_raise (w : workbook) (e : Z) (k : string) (ex : exn) :
  fps_data_entry w e k = Raise ex -> ex = TypeError.
Proof.
  unfold fps_data_entry.
  destruct (stock_now_series w e k) as [|v [|v' vs]]; cbn [float_of_series bind];
    try discriminate.
  intros H. injection H as <-. reflexivity.
Qed.

Lemma fps_data_entry_defined (w : workbook) (e : Z) (k : string) :
  NoDup (map FPS_ID (fps w)) ->
  In k (map FPS_ID (fps w)) ->
  has_duplicates (filter is_FPS (stock_levels w)) = false ->
  exists row, fps_data_entry w e k = Ok row.
Proof.
  intros Hnd Hin Hdup. unfold fps_data_entry.
  rewrite (ProjectionFacts.stock_now_series_snapshots w e k Hnd Hin).
  destruct (ProjectionFacts.at_most_one_per_cell _ e k Hdup) as [->|(s & ->)];
    cbn [map float_of_series bind]; eexists; reflexivity.
Qed.

(** X19. The per-shop table has one row per row of the FPS registry, in
    registry order; every next-receipt day it shows is after the end day
    and every gap it shows is at least one day and leads to that
    next-receipt day.  The table is produced whenever every shop is
    registered once and no shop has two snapshots on one day, and the only
    exception the loop can raise is the [TypeError] of [float]. *)
Theorem fps_data_table (w : workbook) (day_range : Z * Z) :
  (NoDup (map FPS_ID (fps w)) ->
   has_duplicates (filter is_FPS (stock_levels w)) = false ->
   exists rows, fps_data w day_range = Ok rows)
  /\ (forall rows, fps_data w day_range = Ok rows ->
        map p_FPS_ID rows = map FPS_ID (fps w)
        /\ Forall (fun row =>
                     (forall n, Next_Receipt_Day row = Some n ->
                                end_day w day_range < n)
                     /\ (forall g, Days_To_Receipt row = Some g ->
                           1 <= g
                           /\ Next_Receipt_Day row = Some (end_day w day_range + g)))
                  rows)
  /\ (forall ex, fps_data w day_range = Raise ex -> ex = TypeError).
Proof.
  unfold fps_data. split; [|split].
  - intros Hnd Hdup. apply ReachFacts.traverse_ok.
    intros k Hk. apply fps_data_entry_defined; assumption.
  - intros rows H. apply ReachFacts.traverse_ok_inv in H.
    induction H as [|k row ks rows Hrow _ IH]; [split; [reflexivity|constructor]|].
    destruct IH as (Hids & Hall).
    destruct (fps_data_entry_row _ _ _ _ Hrow) as (Hid & Hnext & Hgap).
    split.
    + cbn [map]. rewrite Hid, Hids. reflexivity.
    + constructor; [split; assumption|exact Hall].
  - intros ex H. apply ReachFacts.traverse_raise_inv in H.
    destruct H as (k & _ & Hk). exact (fps_data_entry_raise _ _ _ _ Hk).
Qed.

Lemma fps_data_table_witness :
  exists rows, fps_data Sample.plan (0, 3) = Ok rows
    /\ map p_FPS_ID rows = map FPS_ID (fps Sample.plan).
Proof.
  destruct (fps_data_table Sample.plan (0, 3)) as (Hdef & Hrows & _).
  destruct Hdef as (rows & Hok).
  - repeat constructor; simpl; intuition discriminate.
  - reflexivity.
  - exists rows. split; [exact Hok|]. exact (proj1 (Hrows rows Hok)).
Defined.

End TableFacts.

(* ------------------------------------------------------------------ *)
(** * The FPS report *)
(* ------------------------------------------------------------------ *)

Module ReportFacts.

Import Views Kpi Report.

Lemma insert_desc_perm (r : report_row) (l : list report_row) :
  Permutation (insert_desc r l) (r :: l).
Proof.
  induction l as [|x l IH]; cbn [insert_desc]; [reflexivity|].
  destruct (Qle_bool (Total_Dispatched_tons x) (Total_Dispatched_tons r));
    [reflexivity|].
  rewrite IH. apply perm_swap.
Qed.

Lemma sort_desc_perm (l : list report_row) : Permutation (sort_desc l) l.
Proof.
  induction l as [|r l IH]; cbn [sort_desc fold_right]; [reflexivity|].
  rewrite insert_desc_perm. constructor. exact IH.
Qed.

Lemma insert_desc_sorted (r : report_row) (l : list report_row) :
  StronglySorted
    (fun x y => (Total_Dispatched_tons y <= Total_Dispatched_tons x)%Q) l ->
  StronglySorted
    (fun x y => (Total_Dispatched_tons y <= Total_Dispatched_tons x)%Q)
    (insert_desc r l).
Proof.
  induction 1 as [|x l Hs IH Hall]; cbn [insert_desc].
  - constructor; constructor.
  - destruct (Qle_bool (Total_Dispatched_tons x) (Total_Dispatched_tons r)) eqn:E.
    + apply Qle_bool_iff in E. constructor; [constructor; assumption|].
      constructor; [exact E|].
      rewrite Forall_forall in *. intros y Hy. specialize (Hall y Hy).
      eapply Qle_trans; eassumption.
    + constructor; [exact IH|].
      assert (~ (Total_Dispatched_tons x <= Total_Dispatched_tons r)%Q) as Hn
        by (intros H; apply Qle_bool_iff in H; congruence).
      rewrite Forall_forall in *. intros y Hy.
      apply (Permutation_in _ (insert_desc_perm r l)) in Hy.
      destruct Hy as [<-|Hy]; [|apply Hall, Hy].
      apply Qlt_le_weak, Qnot_le_lt, Hn.
Qed.

Lemma sort_desc_sorted (l : list report_row) :
  StronglySorted
    (fun x y => (Total_Dispatched_tons y <= Total_Dispatched_tons x)%Q)
    (sort_desc l).
Proof.
  induction l as [|r l IH]; cbn [sort_desc fold_right]; [constructor|].
  apply insert_desc_sorted, IH.
Qed.


Lemma aggregate_ids (rows : list lg_dispatch_row) :
  map a_FPS_ID (aggregate rows) = id_keys (map lg_FPS_ID rows).
Proof.
  unfold aggregate. rewrite map_map. cbn [a_FPS_ID]. apply map_id.
Qed.

Lemma merge_names_row (registry : list fps_row) (aggs : list agg_row) (row : report_row) :
  In row (merge_names registry aggs) ->
  exists a, In a aggs
    /\ ((row = with_name a None /\ ~ In (a_FPS_ID a) (map FPS_ID registry))
        \/ exists f, In f registry /\ FPS_ID f = a_FPS_ID a
                     /\ row = with_name a (Some (FPS_Name f))).
Proof.
  unfold merge_names. intros H. apply in_flat_map in H.
  destruct H as (a & Ha & Hrow). exists a. split; [exact Ha|].
  destruct (filter (fun f => (FPS_ID f =? a_FPS_ID a)%string) registry)
    as [|f0 fs] eqn:E.
  - destruct Hrow as [<-|[]]. left. split; [reflexivity|].
    intros Hin. apply in_map_iff in Hin. destruct Hin as (f & Hid & Hf).
    assert (In f (filter (fun f => (FPS_ID f =? a_FPS_ID a)%string) registry)) as H
      by (apply filter_In; split; [exact Hf|apply String.eqb_eq, Hid]).
    rewrite E in H. contradiction.
  - right. apply in_map_iff in Hrow. destruct Hrow as (f & <- & Hf).
    rewrite <- E in Hf. apply filter_In in Hf. destruct Hf as (Hf & Hid).
    apply String.eqb_eq in Hid. exists f. repeat split; assumption.
Qed.

Lemma merge_names_ids (registry : list fps_row) (aggs : list agg_row) (k : string) :
  In k (map r_FPS_ID (merge_names registry aggs)) <-> In k (map a_FPS_ID aggs).
Proof.
  rewrite !in_map_iff. split.
  - intros (row & <- & Hrow).
    destruct (merge_names_row _ _ _ Hrow) as (a & Ha & [(-> & _)|(f & _ & _ & ->)]);
      exists a; split; try reflexivity; assumption.
  - intros (a & <- & Ha). unfold merge_names.
    destruct (filter (fun f => (FPS_ID f =? a_FPS_ID a)%string) registry)
      as [|f0 fs] eqn:E.
    + exists (with_name a None). split; [reflexivity|].
      apply in_flat_map. exists a. split; [exact Ha|]. rewrite E. left. reflexivity.
    + exists (with_name a (Some (FPS_Name f0))). split; [reflexivity|].
      apply in_flat_map. exists a. split; [exact Ha|]. rewrite E. left. reflexivity.
Qed.

Lemma merge_names_one_each (registry : list fps_row) (aggs : list agg_row) :
  NoDup (map FPS_ID registry) ->
  map r_FPS_ID (merge_names registry aggs) = map a_FPS_ID aggs
  /\ map Total_Dispatched_tons (merge_names registry aggs)
     = map a_Total_Dispatched_tons aggs.
Proof.
  intros Hnd. induction aggs as [|a aggs (IH1 & IH2)]; [split; reflexivity|].
  cbn [merge_names flat_map]. fold (merge_names registry aggs).
  rewrite !map_app, IH1, IH2.
  assert (exists name,
            match filter (fun f => (FPS_ID f =? a_FPS_ID a)%string) registry with
            | [] => [with_name a None]
            | f :: fs => map (fun f => with_name a (Some (FPS_Name f))) (f :: fs)
            end = [with_name a name]) as (name & ->).
  { destruct (in_dec string_dec (a_FPS_ID a) (map FPS_ID registry)) as [Hin|Hn].
    - destruct (ProjectionFacts.registry_row_unique registry (a_FPS_ID a) Hnd Hin)
        as (f0 & Hf0).
      rewrite (filter_ext _ (fun f => (a_FPS_ID a =? FPS_ID f)%string))
        by (intros f; apply String.eqb_sym).
      rewrite Hf0. eexists. reflexivity.
    - destruct (filter (fun f => (FPS_ID f =? a_FPS_ID a)%string) registry)
        as [|f0 fs] eqn:E; [eexists; reflexivity|].
      exfalso. apply Hn.
      assert (In f0 (filter (fun f => (FPS_ID f =? a_FPS_ID a)%string) registry)) as H
        by (rewrite E; left; reflexivity).
      apply filter_In in H. destruct H as (Hf & Hid). apply String.eqb_eq in Hid.
      rewrite <- Hid. apply in_map, Hf. }
  split; reflexivity.
Qed.

(** X20. The FPS report is ordered by total dispatched quantity, largest
    first; it lists exactly the shops that receive an LG->FPS dispatch on
    the days [1..b] of the window; and each row carries the sum of the
    quantities of the shop's records of those days, a trip count of at
    least 1, and the shop's registry name, or no name when the shop is not
    registered. *)
Theorem report_rows (w : workbook) (day_range : Z * Z) :
  StronglySorted
    (fun x y => (Total_Dispatched_tons y <= Total_Dispatched_tons x)%Q)
    (report w day_range)
  /\ (forall k, In k (map r_FPS_ID (report w day_range))
        <-> exists r, In r (dispatch_lg w)
                      /\ 1 <= Day r <= snd day_range /\ lg_FPS_ID r = k)
  /\ (forall row, In row (report w day_range) ->
        Total_Dispatched_tons row
        = sum (map Quantity_tons
                 (filter (fun r => (lg_FPS_ID r =? r_FPS_ID row)%string)
                         (fps_df w day_range)))
        /\ 1 <= Trips_Count row
        /\ (forall name, r_FPS_Name row = Some name ->
              exists f, In f (fps w) /\ FPS_ID f = r_FPS_ID row
                        /\ FPS_Name f = name)
        /\ (r_FPS_Name row = None -> ~ In (r_FPS_ID row) (map FPS_ID (fps w)))).
Proof.
  unfold report.
  assert (forall k, In k (id_keys (map lg_FPS_ID (fps_df w day_range)))
            <-> exists r, In r (dispatch_lg w)
                          /\ 1 <= Day r <= snd day_range /\ lg_FPS_ID r = k) as Hkeys.
  { intros k. rewrite FrameFacts.In_id_keys, in_map_iff. unfold fps_df. split.
    - intros (r & Hk & Hr). apply filter_In in Hr. destruct Hr as (Hr & Hc).
      apply andb_true_iff in Hc. destruct Hc as (H1 & H2).
      apply Z.leb_le in H1. apply Z.leb_le in H2.
      exists r. repeat split; assumption.
    - intros (r & Hr & (H1 & H2) & Hk). exists r. split; [exact Hk|].
      apply filter_In. split; [exact Hr|].
      apply andb_true_iff. split; apply Z.leb_le; assumption. }
  split; [apply sort_desc_sorted|]. split.
  - intros k. rewrite <- Hkeys, <- aggregate_ids, <- merge_names_ids.
    split; apply Permutation_in, Permutation_map;
      [apply sort_desc_perm|symmetry; apply sort_desc_perm].
  - intros row Hrow. apply (Permutation_in _ (sort_desc_perm _)) in Hrow.
    destruct (merge_names_row _ _ _ Hrow) as (a & Ha & Hcase).
    unfold aggregate in Ha. apply in_map_iff in Ha. destruct Ha as (k & <- & Hk).
    assert (1 <= nunique (map Vehicle_ID (group_of (fps_df w day_range) k))) as Htrips.
    { apply UsageFacts.nunique_bounds. intros Hnil. apply map_eq_nil in Hnil.
      apply FrameFacts.In_id_keys, in_map_iff in Hk. destruct Hk as (r & Hid & Hr).
      assert (In r (group_of (fps_df w day_range) k)) as Hin
        by (apply filter_In; split; [exact Hr|apply String.eqb_eq, Hid]).
      rewrite Hnil in Hin. contradiction. }
    destruct Hcase as [(-> & Hunreg)|(f & Hf & Hid & ->)];
      cbn [with_name r_FPS_ID Total_Dispatched_tons Trips_Count r_FPS_Name a_FPS_ID
           a_Total_Dispatched_tons a_Trips_Count] in *.
    + split; [reflexivity|]. split; [exact Htrips|].
      split; [discriminate|]. intros _. exact Hunreg.
    + split; [reflexivity|]. split; [exact Htrips|]. split; [|discriminate].
      intros name Hname. injection Hname as <-. exists f. repeat split; assumption.
Qed.

Lemma flat_map_map {A B C : Type} (g : A -> B) (f : B -> list C) (l : list A) :
  flat_map f (map g l) = flat_map (fun x => f (g x)) l.
Proof.
  induction l as [|x l IH]; cbn [map flat_map]; [|rewrite IH]; reflexivity.
Qed.

Lemma Permutation_flat_map_l {A B : Type} (f : A -> list B) (l l' : list A) :
  Permutation l l' -> Permutation (flat_map f l) (flat_map f l').
Proof.
  induction 1 as [|x l l' _ IH|x y l|l l' l'' _ IH1 _ IH2]; cbn [flat_map].
  - constructor.
  - apply Permutation_app_head. exact IH.
  - rewrite !app_assoc. apply Permutation_app_tail, Permutation_app_comm.
  - etransitivity; eassumption.
Qed.

(** X21. When every shop is registered at most once, the report has one
    row per shop, and every LG->FPS record of the days [1..b] of the
    window is counted in exactly one row: the groups of records behind the
    rows are a rearrangement of those records. *)
Theorem report_counts_each_record_once (w : workbook) (day_range : Z * Z) :
  NoDup (map FPS_ID (fps w)) ->
  NoDup (map r_FPS_ID (report w day_range))
  /\ Permutation
       (flat_map (fun row => filter (fun r => (lg_FPS_ID r =? r_FPS_ID row)%string)
                                    (fps_df w day_range))
                 (report w day_range))
       (fps_df w day_range).
Proof.
  intros Hnd. unfold report.
  destruct (merge_names_one_each (fps w) (aggregate (fps_df w day_range)) Hnd)
    as (Hids & _).
  rewrite aggregate_ids in Hids.
  split.
  - apply (Permutation_NoDup
             (l := map r_FPS_ID (merge_names (fps w) (aggregate (fps_df w day_range))))).
    + apply Permutation_map. symmetry. apply sort_desc_perm.
    + rewrite Hids. apply TimelineFacts.NoDup_id_keys.
  - rewrite (Permutation_flat_map_l _ _ _ (sort_desc_perm _)).
    rewrite <- (flat_map_map r_FPS_ID
                  (fun k => filter (fun r => (lg_FPS_ID r =? k)%string)
                                   (fps_df w day_range))).
    rewrite Hids.
    apply (FrameFacts.groups_partition String.eqb String.eqb_eq lg_FPS_ID).
    + apply TimelineFacts.NoDup_id_keys.
    + intros r Hr. apply FrameFacts.In_id_keys, in_map, Hr.
Qed.

Lemma report_counts_each_record_once_witness :
  NoDup (map r_FPS_ID (report Sample.plan (0, 30)))
  /\ Permutation
       (flat_map (fun row => filter (fun r => (lg_FPS_ID r =? r_FPS_ID row)%string)
                                    (fps_df Sample.plan (0, 30)))
                 (report Sample.plan (0, 30)))
       (fps_df Sample.plan (0, 30)).
Proof.
  apply (report_counts_each_record_once Sample.plan (0, 30)).
  repeat constructor; simpl; intuition discriminate.
Defined.

(** The report of the sample plan: shop F1 with 16 t in two trips of one
    vehicle, then shop F2. *)
Example report_plan :
  map (fun row => (r_FPS_ID row, Trips_Count row, Vehicle_IDs row, r_FPS_Name row))
      (report Sample.plan (0, 30))
  = [ ("F1", 1, "V1", Some "Shop One"); ("F2", 1, "V2", Some "Shop Two") ]%string.
Proof. vm_compute. reflexivity. Qed.

End ReportFacts.

(* ------------------------------------------------------------------ *)
(** * Reading the Settings sheet *)
(* ------------------------------------------------------------------ *)

Module StartupFacts.

Import Startup.

Lemma setting_none_iff (sheet : list setting_row) (k : string) :
  setting sheet k = None <-> ~ In k (map s_Parameter sheet).
Proof.
  unfold setting.
  destruct (filter (fun r => (s_Parameter r =? k)%string) sheet) as [|r rs] eqn:E.
  - split; [|reflexivity]. intros _ Hin. apply in_map_iff in Hin.
    destruct Hin as (r & Hk & Hr).
    assert (In r (filter (fun r => (s_Parameter r =? k)%string) sheet)) as H
      by (apply filter_In; split; [exact Hr|apply String.eqb_eq, Hk]).
    rewrite E in H. contradiction.
  - split; [discriminate|]. intros Hn. exfalso. apply Hn.
    assert (In r (filter (fun r => (s_Parameter r =? k)%string) sheet)) as H
      by (rewrite E; left; reflexivity).
    apply filter_In in H. destruct H as (Hr & Hk). apply String.eqb_eq in Hk.
    rewrite <- Hk. apply in_map, Hr.
Qed.

Lemma setting_first_row (pre post : list setting_row) (r : setting_row) :
  ~ In (s_Parameter r) (map s_Parameter pre) ->
  setting (pre ++ r :: post) (s_Parameter r) = Some (s_Value r).
Proof.
  intros Hn. unfold setting. rewrite filter_app.
  assert (filter (fun r0 => (s_Parameter r0 =? s_Parameter r)%string) pre = []) as ->.
  { induction pre as [|p pre IH]; [reflexivity|]. cbn [filter].
    destruct (String.eqb_spec (s_Parameter p) (s_Parameter r)) as [Heq|_].
    - exfalso. apply Hn. left. exact Heq.
    - apply IH. intros H. apply Hn. right. exact H. }
  cbn [app filter]. rewrite String.eqb_refl. reflexivity.
Qed.

(** X22. Reading the Settings sheet fails (the [IndexError] of [iloc[0]])
    exactly when one of the four required parameters has no row; when a
    parameter has several rows the first one is read; and the three integer
    parameters are the values truncated towards zero, so an integer-valued
    cell is read exactly. *)
Theorem read_settings_fails_iff_key_missing (sheet : list setting_row) :
  (read_settings sheet = None
   <-> exists k, In k required_keys /\ ~ In k (map s_Parameter sheet))
  /\ (forall pre r post,
        sheet = pre ++ r :: post ->
        ~ In (s_Parameter r) (map s_Parameter pre) ->
        setting sheet (s_Parameter r) = Some (s_Value r))
  /\ (forall s, read_settings sheet = Some s ->
        exists days cap vehicles trips,
          setting sheet "Distribution_Days" = Some days
          /\ setting sheet "Vehicle_Capacity_tons" = Some cap
          /\ setting sheet "Vehicles_Total" = Some vehicles
          /\ setting sheet "Max_Trips_Per_Vehicle_Per_Day" = Some trips
          /\ Distribution_Days s = int_of_float days
          /\ Vehicle_Capacity_tons s = cap
          /\ Vehicles_Total s = int_of_float vehicles
          /\ Max_Trips_Per_Vehicle_Per_Day s = int_of_float trips)
  /\ (forall z, int_of_float (inject_Z z) = z)
  /\ (forall x, (0 <= x)%Q -> int_of_float x = Qfloor x)
  /\ (forall x, (x <= 0)%Q -> int_of_float x = Qceiling x).
Proof.
  split; [|split; [|split; [|split; [|split]]]].
  - unfold read_settings, required_keys. split.
    + intros H.
      destruct (setting sheet "Distribution_Days") eqn:E1;
        [|exists "Distribution_Days"%string; split;
          [cbn; tauto|apply setting_none_iff, E1]].
      destruct (setting sheet "Vehicle_Capacity_tons") eqn:E2;
        [|exists "Vehicle_Capacity_tons"%string; split;
          [cbn; tauto|apply setting_none_iff, E2]].
      destruct (setting sheet "Vehicles_Total") eqn:E3;
        [|exists "Vehicles_Total"%string; split;
          [cbn; tauto|apply setting_none_iff, E3]].
      destruct (setting sheet "Max_Trips_Per_Vehicle_Per_Day") eqn:E4;
        [discriminate|exists "Max_Trips_Per_Vehicle_Per_Day"%string; split;
          [cbn; tauto|apply setting_none_iff, E4]].
    + intros (k & Hk & Hmiss). apply setting_none_iff in Hmiss.
      destruct Hk as [<-|[<-|[<-|[<-|[]]]]]; rewrite ?Hmiss;
        repeat match goal with
               | |- match ?c with Some _ => _ | None => None end = None =>
                   destruct c; try reflexivity
               end;
        rewrite ?Hmiss; reflexivity.
  - intros pre r post -> Hn. apply setting_first_row, Hn.
  - intros s H. unfold read_settings in H.
    destruct (setting sheet "Distribution_Days") as [days|]; [|discriminate].
    destruct (setting sheet "Vehicle_Capacity_tons") as [cap|]; [|discriminate].
    destruct (setting sheet "Vehicles_Total") as [vehicles|]; [|discriminate].
    destruct (setting sheet "Max_Trips_Per_Vehicle_Per_Day") as [trips|];
      [|discriminate].
    injection H as <-. exists days, cap, vehicles, trips. repeat split.
  - intros z. unfold int_of_float. cbn [inject_Z Qnum Qden]. apply Z.quot_1_r.
  - intros [n d] Hx. unfold int_of_float, Qfloor. cbn [Qnum Qden].
    unfold Qle in Hx. cbn [Qnum Qden] in Hx.
    apply Z.quot_div_nonneg; lia.
  - intros [n d] Hx. unfold int_of_float, Qceiling, Qfloor, Qopp. cbn [Qnum Qden].
    unfold Qle in Hx. cbn [Qnum Qden] in Hx.
    rewrite <- (Z.opp_involutive n) at 1.
    rewrite Z.quot_opp_l by lia. f_equal.
    apply Z.quot_div_nonneg; lia.
Qed.

Lemma read_settings_fails_iff_key_missing_witness :
  read_settings Cases.no_capacity_row = None
  /\ read_settings Cases.sheet = Some Sample.fleet.
Proof.
  split.
  - apply (proj1 (read_settings_fails_iff_key_missing Cases.no_capacity_row)).
    exists "Vehicle_Capacity_tons"%string. split; [right; left; reflexivity|].
    intros [H|[H|[H|[]]]]; discriminate H.
  - reflexivity.
Defined.

End StartupFacts.

(* ------------------------------------------------------------------ *)
(** * Sidebar totals and the on-hand stock of the shops *)
(* ------------------------------------------------------------------ *)

Module TotalsFacts.

Import Views Kpi.

Lemma window_rows_above {B : Type} (rows : list (Z * B)) (k a b : Z) :
  Forall (fun r => k < fst r) rows -> b <= k ->
  filter (fun r => (a <=? fst r) && (fst r <=? b)) rows = [].
Proof.
  intros Hall Hb. induction Hall as [|r rows Hr _ IH]; cbn [filter]; [reflexivity|].
  destruct (Z.leb_spec (fst r) b); [lia|]. rewrite andb_false_r. exact IH.
Qed.

(** In a table in day order a window [a..c] selects the rows of [a..b]
    followed by those of [b+1..c]. *)
Lemma window_rows_split {B : Type} (rows : list (Z * B)) (a b c : Z) :
  StronglySorted (fun r r' => fst r < fst r') rows ->
  a <= b + 1 -> b <= c ->
  filter (fun r => (a <=? fst r) && (fst r <=? c)) rows
  = filter (fun r => (a <=? fst r) && (fst r <=? b)) rows
    ++ filter (fun r => (b + 1 <=? fst r) && (fst r <=? c)) rows.
Proof.
  intros Hs Hab Hbc. induction Hs as [|r rows Hs IH Hall]; cbn [filter]; [reflexivity|].
  destruct (Z.leb_spec a (fst r)), (Z.leb_spec (fst r) b),
           (Z.leb_spec (b + 1) (fst r)), (Z.leb_spec (fst r) c);
    cbn [andb app]; try lia; rewrite IH; try reflexivity.
  rewrite (window_rows_above rows (fst r) a b Hall) by lia. reflexivity.
Qed.

Lemma day_totals_sorted {A : Type} (key : A -> Z) (val : A -> Q) (rows : list A) :
  StronglySorted (fun r r' => fst r < fst r') (groupby_sum key val rows).
Proof.
  unfold groupby_sum.
  pose proof (FrameFacts.day_keys_sorted (map key rows)) as Hs.
  induction Hs as [|k ks _ IH Hall]; cbn [map]; constructor; [exact IH|].
  apply Forall_map. cbn [fst]. exact Hall.
Qed.

Lemma window_rows_all {A : Type} (key : A -> Z) (val : A -> Q) (rows : list A) (a b : Z) :
  (forall r, In r rows -> a <= key r <= b) ->
  filter (fun r => (a <=? fst r) && (fst r <=? b)) (groupby_sum key val rows)
  = groupby_sum key val rows.
Proof.
  intros H. apply ProgressFacts.filter_all. intros (k, t) Hk.
  unfold groupby_sum in Hk. apply in_map_iff in Hk. destruct Hk as (k' & E & Hk').
  injection E as <- _. apply FrameFacts.In_day_keys, in_map_iff in Hk'.
  destruct Hk' as (r & <- & Hr). destruct (H r Hr).
  cbn [fst]. apply andb_true_iff. split; apply Z.leb_le; lia.
Qed.

(** X23. The sidebar totals select their rows by day.  The CG->LG total of
    a window [a..c] adds the day totals of [a..b] followed by those of
    [b+1..c]; a window that covers the day of every CG->LG record adds all
    the day totals; and when every LG->FPS record is dated within [1..b]
    the LG->FPS total adds the rows that the total plan adds, in the same
    order, so the two show the same number. *)
Theorem sidebar_windows (w : workbook) (a b c : Z) :
  let rows := fun lo hi => filter (fun r => (lo <=? fst r) && (fst r <=? hi))
                                  (day_totals_cg w) in
  (a <= b + 1 -> b <= c ->
   cg_sel w (a, c) = sum (map snd (rows a b ++ rows (b + 1) c)))
  /\ ((forall r, In r (dispatch_cg w) -> a <= Dispatch_Day r <= b) ->
      cg_sel w (a, b) = sum (map snd (day_totals_cg w)))
  /\ ((forall r, In r (dispatch_lg w) -> 1 <= Day r <= b) ->
      lg_sel w (a, b) = total_plan w).
Proof.
  cbv zeta. unfold cg_sel, lg_sel, total_plan, day_totals_cg, day_totals_lg.
  cbn [fst snd]. split; [|split].
  - intros Hab Hbc. rewrite <- window_rows_split; [reflexivity| |assumption|assumption].
    apply day_totals_sorted.
  - intros H. rewrite window_rows_all by exact H. reflexivity.
  - intros H. rewrite window_rows_all by exact H. reflexivity.
Qed.

Lemma sidebar_windows_witness :
  cg_sel Sample.plan (0, 30)
  = sum (map snd
           (filter (fun r => (0 <=? fst r) && (fst r <=? 1)) (day_totals_cg Sample.plan)
            ++ filter (fun r => (1 + 1 <=? fst r) && (fst r <=? 30))
                      (day_totals_cg Sample.plan)))
  /\ lg_sel Sample.plan (0, 30) = total_plan Sample.plan.
Proof.
  destruct (sidebar_windows Sample.plan 0 1 30) as (Hsplit & _).
  destruct (sidebar_windows Sample.plan 0 30 30) as (_ & _ & Hall).
  split.
  - apply Hsplit; vm_compute; discriminate.
  - apply Hall. intros r [<-|[<-|[<-|[]]]]; split; vm_compute; discriminate.
Defined.

Lemma map_filter_snapshot (e : Z) (l : list fps_stock_row) :
  map (fun r => Stock_Level_tons (snapshot r))
      (filter (fun r => st_Day (snapshot r) =? e) l)
  = map Stock_Level_tons (filter (fun s => st_Day s =? e) (map snapshot l)).
Proof.
  induction l as [|r l IH]; cbn [filter map]; [reflexivity|].
  destruct (st_Day (snapshot r) =? e); cbn [map]; rewrite IH; reflexivity.
Qed.

(** X24. When every shop is registered once, the "FPS Stock on Hand" tile
    is the sum of the stock of the FPS snapshots taken on the end day whose
    shop is in the registry; a snapshot of an unregistered shop is not
    counted. *)
Theorem fps_onhand_registered_snapshots (w : workbook) (day_range : Z * Z) :
  NoDup (map FPS_ID (fps w)) ->
  fps_onhand w day_range
  = sum (map Stock_Level_tons
           (filter (fun s => st_Day s =? end_day w day_range)
              (filter (fun s => is_FPS s
                                && existsb (fun f => (Entity_ID s =? FPS_ID f)%string)
                                           (fps w))
                      (stock_levels w)))).
Proof.
  intros Hnd. unfold fps_onhand. rewrite map_filter_snapshot.
  rewrite (proj2 (StockFacts.fps_stock_snapshots w) Hnd). reflexivity.
Qed.

Lemma fps_onhand_registered_snapshots_witness :
  fps_onhand Sample.plan (0, 3)
  = sum (map Stock_Level_tons
           (filter (fun s => st_Day s =? end_day Sample.plan (0, 3))
              (filter (fun s => is_FPS s
                                && existsb (fun f => (Entity_ID s =? FPS_ID f)%string)
                                           (fps Sample.plan))
                      (stock_levels Sample.plan)))).
Proof.
  apply (fps_onhand_registered_snapshots Sample.plan (0, 3)).
  repeat constructor; simpl; intuition discriminate.
Defined.

End TotalsFacts.

(* ------------------------------------------------------------------ *)
(** * The lead time in binary64 *)
(* ------------------------------------------------------------------ *)

Module Binary64Facts.

Import Binary64.
Import PrimFloat FloatOps SpecFloat.

Set Warnings "-inexact-float".

(** ** Finite floats and their values *)

Lemma toQ_pos (x : float) (q : Q) :
  toQ x = Some q -> ((0 <? x)%float = true <-> (0 < q)%Q).
Proof.
  unfold toQ. rewrite FloatAxioms.ltb_spec.
  change (Prim2SF 0) with (S754_zero false).
  destruct (Prim2SF x) as [s|s| |s m e]; try discriminate; intros H; injection H as <-.
  - cbn. split; [discriminate|]. intros H. apply Qlt_irrefl in H. contradiction.
  - unfold SFltb, SFcompare.
    destruct s, e as [|p|p]; unfold Qlt, inject_Z; cbn [Qnum Qden];
      split; intros H; try reflexivity; try discriminate; lia.
Qed.

Lemma toQ_not_zero (x : float) (q : Q) :
  toQ x = Some q -> (0 < q)%Q -> (x =? 0)%float = false.
Proof.
  unfold toQ. rewrite FloatAxioms.eqb_spec.
  change (Prim2SF 0) with (S754_zero false).
  destruct (Prim2SF x) as [s|s| |s m e]; try discriminate; intros H; injection H as <-.
  - intros H. apply Qlt_irrefl in H. contradiction.
  - intros _. unfold SFeqb, SFcompare. destruct s; reflexivity.
Qed.

Lemma toQ_not_infinity (x : float) (q : Q) :
  toQ x = Some q -> is_infinity x = false.
Proof.
  unfold toQ, is_infinity. rewrite FloatAxioms.eqb_spec, FloatAxioms.abs_spec.
  change (Prim2SF infinity) with (S754_infinity false).
  destruct (Prim2SF x) as [s|s| |s m e]; try discriminate; intros _; reflexivity.
Qed.

Lemma value_pos (x : float) : (0 < value x)%Q -> toQ x = Some (value x).
Proof.
  unfold value. destruct (toQ x); [reflexivity|].
  intros H. apply Qlt_irrefl in H. contradiction.
Qed.

Lemma stands_for_spec (x : float) (q : Q) :
  stands_for x q = true -> toQ x = Some (value x) /\ (value x == q)%Q.
Proof.
  unfold stands_for, value. destruct (toQ x) as [v|]; [|discriminate].
  intros H. apply Qeq_bool_iff in H. split; [reflexivity|exact H].
Qed.

Lemma same_ceiling_spec (x : float) (q : Q) :
  same_ceiling x q = true -> toQ x = Some (value x) /\ Qceiling (value x) = Qceiling q.
Proof.
  unfold same_ceiling, value. destruct (toQ x) as [v|]; [|discriminate].
  intros H. apply Z.eqb_eq in H. split; [reflexivity|exact H].
Qed.

Lemma float_of_int_finite (n : Z) (q : Q) :
  toQ (of_Z n) = Some q -> float_of_int n = Ok (of_Z n).
Proof.
  intros H. unfold float_of_int. cbv zeta.
  rewrite (toQ_not_infinity _ _ H). reflexivity.
Qed.

(** ** One day of the loop *)

Lemma least_cover_Qeq (c q q' : Q) (d a : Z) :
  (q == q')%Q -> least_cover c q d a -> least_cover c q' d a.
Proof.
  intros E (H0 & H1 & H2). split; [exact H0|]. split.
  - rewrite <- E. exact H1.
  - intros y Hy Hc. apply H2; [exact Hy|]. rewrite E. exact Hc.
Qed.

(** The entry of a day whose quotient [over] has the value [v], in terms of
    the exact quotient [q] of the same ceiling. *)
Lemma ceiling_cover (c need v : Q) (d : Z) :
  (0 < c)%Q ->
  Qceiling v = Qceiling ((need - c * inject_Z d) / c) ->
  least_cover c need d (if Qlt_le_dec 0 v then Qceiling v else 0).
Proof.
  intros Hc Hceil.
  set (q := ((need - c * inject_Z d) / c)%Q) in *.
  assert (need == c * inject_Z d + c * q)%Q as Hneed.
  { unfold q. field. intros E. rewrite E in Hc. apply Qlt_irrefl in Hc. exact Hc. }
  pose proof (Qle_ceiling q) as Hq.
  pose proof (Qle_ceiling v) as Hv.
  assert (forall y, (c * q <= c * inject_Z y)%Q -> Qceiling q <= y) as Hleast.
  { intros y Hy. apply Qmult_le_l in Hy; [|exact Hc].
    apply Qceiling_resp_le in Hy. rewrite Qceiling_Z in Hy. exact Hy. }
  destruct (Qlt_le_dec 0 v) as [Hpos|Hneg].
  - rewrite Hceil. repeat split.
    + assert (0 < inject_Z (Qceiling v))%Q as H by lra.
      rewrite <- (Zlt_Qlt 0) in H. lia.
    + rewrite Hneed, inject_Z_plus.
      assert (c * q <= c * inject_Z (Qceiling q))%Q by (apply Qmult_le_l; assumption).
      lra.
    + intros y Hy Hfeas. apply Hleast.
      rewrite Hneed, inject_Z_plus in Hfeas. lra.
  - assert (Qceiling q <= 0) as Hq0.
    { rewrite <- Hceil. apply Qceiling_resp_le in Hneg.
      exact Hneg. }
    repeat split; [lia| |intros; lia].
    rewrite Hneed, Z.add_0_r.
    assert (inject_Z (Qceiling q) <= 0)%Q as H by (rewrite (Zle_Qle _ 0) in Hq0; exact Hq0).
    assert (c * q <= c * 0)%Q by (apply Qmult_le_l; [assumption|lra]).
    lra.
Qed.

Lemma adv_entry_accurate (cap : float) (totals : list (Z * float))
    (cum_need : number) (d : Z) :
  (0 < value cap)%Q ->
  accurate_day cap totals cum_need d = true ->
  (value (as_float (add_need totals cum_need d))
   == value (as_float cum_need) + demand totals d)%Q
  /\ exists a, adv_entry cap (add_need totals cum_need d) d = Ok a
       /\ least_cover (value cap) (value (as_float (add_need totals cum_need d))) d a.
Proof.
  intros Hcap H. unfold accurate_day in H. cbv zeta in H.
  repeat (apply andb_true_iff in H; destruct H as (H & ?)).
  rename H into Hsum, H0 into Hquot, H1 into Hdiff, H2 into Hprod, H3 into Hd.
  set (cum' := add_need totals cum_need d) in *.
  apply stands_for_spec in Hsum, Hd, Hprod, Hdiff.
  destruct Hsum as (Hsum_fin & Hsum), Hd as (Hd_fin & Hd),
    Hprod as (_ & Hprod), Hdiff as (_ & Hdiff).
  apply same_ceiling_spec in Hquot. destruct Hquot as (Hover_fin & Hceil).
  split; [exact Hsum|].
  set (over := ((as_float cum' - cap * of_Z d) / cap)%float) in *.
  assert (overflow_ratio cap cum' d = Ok over) as Hover.
  { unfold overflow_ratio.
    rewrite (float_of_int_finite d _ Hd_fin). cbn [bind].
    destruct cum' as [n|x] eqn:E; [|reflexivity].
    cbn [as_float] in Hsum_fin.
    rewrite (float_of_int_finite n _ Hsum_fin). cbn [bind].
    rewrite (toQ_not_zero cap _ (value_pos cap Hcap) Hcap). reflexivity. }
  assert (Qceiling (value over)
          = Qceiling ((value (as_float cum') - value cap * inject_Z d) / value cap)) as Hceil'.
  { rewrite Hceil. apply Qceiling_comp. rewrite Hdiff, Hprod. reflexivity. }
  pose proof (ceiling_cover (value cap) (value (as_float cum')) (value over) d Hcap Hceil')
    as Hcover.
  unfold adv_entry. rewrite Hover. cbn [bind].
  destruct (Qlt_le_dec 0 (value over)) as [Hpos|Hneg].
  - rewrite (proj2 (toQ_pos over _ Hover_fin) Hpos). unfold ceil. rewrite Hover_fin.
    eexists. split; [reflexivity|exact Hcover].
  - destruct (0 <? over)%float eqn:E.
    + apply (toQ_pos over _ Hover_fin) in E. exfalso. apply (Qlt_irrefl 0). apply Qlt_le_trans with (value over); assumption.
    + eexists. split; [reflexivity|exact Hcover].
Qed.

(** ** The loop *)

Lemma cumulative_demand_step (totals : list (Z * float)) (d : Z) :
  1 <= d ->
  (cumulative_demand totals d == cumulative_demand totals (d - 1) + demand totals d)%Q.
Proof.
  intros Hd. unfold cumulative_demand.
  rewrite <- (FeasibilityFacts.range_snoc d Hd), fold_left_app. cbn [fold_left].
  replace (d - 1 + 1) with d by lia. reflexivity.
Qed.

Lemma adv_loop_accurate (cap : float) (totals : list (Z * float)) :
  (0 < value cap)%Q ->
  forall (n : nat) (lo : Z) (cum_need : number) (adv0 : list Z),
  1 <= lo ->
  (value (as_float cum_need) == cumulative_demand totals (lo - 1))%Q ->
  accurate_run cap totals cum_need (range_from lo n) = true ->
  exists cum' adv,
    adv_loop cap totals cum_need adv0 (range_from lo n) = Ok (cum', adv0 ++ adv)
    /\ Forall2 (fun d a => least_cover (value cap) (cumulative_demand totals d) d a)
               (range_from lo n) adv.
Proof.
  intros Hcap. induction n as [|n IH]; intros lo cum_need adv0 Hlo Hinv Hrun.
  - exists cum_need, []. cbn [range_from adv_loop]. rewrite app_nil_r.
    split; [reflexivity|constructor].
  - cbn [range_from accurate_run] in Hrun. apply andb_true_iff in Hrun.
    destruct Hrun as (Hday & Hrun).
    destruct (adv_entry_accurate cap totals cum_need lo Hcap Hday)
      as (Hsum & a & Ha & Hcover).
    assert (value (as_float (add_need totals cum_need lo))
            == cumulative_demand totals lo)%Q as Hinv'.
    { rewrite Hsum, Hinv. symmetry. apply cumulative_demand_step. exact Hlo. }
    destruct (IH (lo + 1) (add_need totals cum_need lo) (adv0 ++ [a])) as (cum' & adv & Hloop & Hall).
    + lia.
    + replace (lo + 1 - 1) with lo by lia. exact Hinv'.
    + exact Hrun.
    + exists cum', (a :: adv). split.
      * cbn [range_from adv_loop]. rewrite Ha. cbn [bind].
        rewrite Hloop, <- app_assoc. reflexivity.
      * constructor; [|exact Hall].
        apply (least_cover_Qeq _ _ _ _ _ Hinv'). exact Hcover.
Qed.

Lemma Forall2_In_r {A B : Type} (R : A -> B -> Prop) (l : list A) (bs : list B) (b : B) :
  Forall2 R l bs -> In b bs -> exists a, In a l /\ R a b.
Proof.
  induction 1 as [|x y l bs Hxy _ IH]; intros Hin; [contradiction|].
  destruct Hin as [<-|Hin].
  - exists x. split; [left; reflexivity|exact Hxy].
  - destruct (IH Hin) as (a & Ha & Hab). exists a. split; [right; exact Ha|exact Hab].
Qed.

(** The lead time of a run without rounding error. *)
Lemma X_accurate (cap : float) (DAYS : Z) (daily_total_cg : list (Z * float)) :
  1 <= DAYS -> (0 < value cap)%Q ->
  accurate cap DAYS daily_total_cg = true ->
  exists x, X cap DAYS daily_total_cg = Ok x
    /\ 0 <= x
    /\ (forall d, 1 <= d <= DAYS ->
          (cumulative_demand daily_total_cg d <= value cap * inject_Z (d + x))%Q)
    /\ (forall y, 0 <= y ->
          (forall d, 1 <= d <= DAYS ->
             (cumulative_demand daily_total_cg d <= value cap * inject_Z (d + y))%Q) ->
          x <= y).
Proof.
  intros Hdays Hcap Hacc. unfold accurate, range in Hacc. unfold X, range.
  destruct (adv_loop_accurate cap daily_total_cg Hcap
              (Z.to_nat (DAYS + 1 - 1)) 1 (PyInt 0) []) as (cum' & adv & Hloop & Hall).
  - lia.
  - reflexivity.
  - exact Hacc.
  - rewrite Hloop. cbn [bind snd app].
    assert (forall d, In d (range_from 1 (Z.to_nat (DAYS + 1 - 1))) <-> 1 <= d <= DAYS) as Hin.
    { intros d. rewrite FeasibilityFacts.In_range_from. lia. }
    destruct adv as [|a0 adv].
    { exfalso. apply Forall2_length in Hall. cbn [List.length] in Hall.
      destruct (Z.to_nat (DAYS + 1 - 1)) eqn:E; [lia|discriminate]. }
    cbn [max].
    destruct (FeasibilityFacts.fold_max_spec adv a0) as (Hm & Hle & Hmax).
    set (m := fold_left Z.max adv a0) in *.
    assert (In m (a0 :: adv)) as Hmin
      by (destruct Hm as [->|Hm]; [left; reflexivity|right; exact Hm]).
    assert (forall a, In a (a0 :: adv) -> a <= m) as Hub
      by (intros a [<-|Ha]; [exact Hle|apply Hmax, Ha]).
    exists m. split; [reflexivity|].
    destruct (Forall2_In_r _ _ _ _ Hall Hmin) as (dm & Hdm & (Hm0 & _ & Hleast)).
    split; [exact Hm0|]. split.
    + intros d Hd. apply Hin in Hd.
      destruct (ReachFacts.Forall2_In_l _ _ _ _ Hall Hd) as (a & Ha & (_ & Hcov & _)).
      specialize (Hub a Ha).
      rewrite inject_Z_plus in *.
      assert (value cap * inject_Z a <= value cap * inject_Z m)%Q.
      { apply Qmult_le_l; [exact Hcap|]. rewrite <- Zle_Qle. exact Hub. }
      lra.
    + intros y Hy Hfeas. apply Hleast; [exact Hy|]. apply Hfeas, Hin, Hdm.
Qed.

(** ** The lead time *)

(** The series of line 41 for the sample inputs. *)
Example day_totals_cg_tenths :
  day_totals_cg Inputs.tenths = [(1, 0.1%float); (2, 0.2%float)].
Proof. vm_compute. reflexivity. Qed.

(** C1 as stated fails.  One vehicle making one trip a day with a tenth of a
    ton gives [DAILY_CAP = 0.1]; with a tenth of a ton due on day 1 and two
    tenths on day 2, over a horizon of two days, the loop returns [X = 2]:
    on day 2 the overflow ratio [(0.1 + 0.2 - 0.1 * 2) / 0.1] is
    [1.0000000000000002], whose ceiling is 2.  Yet one advance day covers
    the cumulative demand of both days, in the floats of the program
    ([0.1 <= 0.1 * 2] and [0.1 + 0.2 <= 0.1 * 3]) and on their exact
    values: the returned [X] is not the smallest such number. *)
Lemma X_not_least_in_binary64 :
  DAILY_CAP 1 0.1 = Ok 0.1%float
  /\ X 0.1 2 (day_totals_cg Inputs.tenths) = Ok 2
  /\ (0.1 <=? 0.1 * of_Z (1 + 1))%float = true
  /\ (0.1 + 0.2 <=? 0.1 * of_Z (2 + 1))%float = true
  /\ (cumulative_demand (day_totals_cg Inputs.tenths) 1
      <= value 0.1 * inject_Z (1 + 1))%Q
  /\ (cumulative_demand (day_totals_cg Inputs.tenths) 2
      <= value 0.1 * inject_Z (2 + 1))%Q.
Proof.
  repeat split; try (vm_compute; reflexivity); vm_compute; discriminate.
Qed.

(** C1 (as amended).  For a horizon of at least one day and a positive finite
    daily capacity, when the loop is computed without rounding error (the
    running sums, the products [DAILY_CAP * d] and the differences are
    exact, and each quotient is rounded within its interval between two
    integers), the start-up loop returns an [X] that is the least
    non-negative integer [x] such that on every day [d] of the horizon the
    cumulative demand through [d] is at most [DAILY_CAP * (d + x)]. *)
Theorem X_least_feasible_lead_without_rounding
    (cap : float) (DAYS : Z) (daily_total_cg : list (Z * float)) :
  1 <= DAYS -> (0 < value cap)%Q ->
  accurate cap DAYS daily_total_cg = true ->
  exists x, X cap DAYS daily_total_cg = Ok x
    /\ 0 <= x
    /\ (forall d, 1 <= d <= DAYS ->
          (cumulative_demand daily_total_cg d <= value cap * inject_Z (d + x))%Q)
    /\ (forall y, 0 <= y ->
          (forall d, 1 <= d <= DAYS ->
             (cumulative_demand daily_total_cg d <= value cap * inject_Z (d + y))%Q) ->
          x <= y).
Proof. exact (X_accurate cap DAYS daily_total_cg). Qed.

Lemma X_least_feasible_lead_without_rounding_witness :
  1 <= 30 /\ (0 < value 200)%Q
  /\ accurate 200 30 (day_totals_cg Inputs.plan) = true
  /\ exists x, X 200 30 (day_totals_cg Inputs.plan) = Ok x
    /\ 0 <= x
    /\ (forall d, 1 <= d <= 30 ->
          (cumulative_demand (day_totals_cg Inputs.plan) d
           <= value 200 * inject_Z (d + x))%Q)
    /\ (forall y, 0 <= y ->
          (forall d, 1 <= d <= 30 ->
             (cumulative_demand (day_totals_cg Inputs.plan) d
              <= value 200 * inject_Z (d + y))%Q) ->
          x <= y).
Proof.
  assert (1 <= 30) as Hdays by lia.
  assert (0 < value 200)%Q as Hcap by reflexivity.
  assert (accurate 200 30 (day_totals_cg Inputs.plan) = true) as Hacc
    by (vm_compute; reflexivity).
  split; [exact Hdays|]. split; [exact Hcap|]. split; [exact Hacc|].
  exact (X_least_feasible_lead_without_rounding 200 30 _ Hdays Hcap Hacc).
Defined.

(** The example of the specification: 350 t due on day 1 against 200 t a
    day give an offset of one day; so they do against 300 t a day, where
    the overflow ratios are not binary fractions. *)
Example X_plan_binary64 :
  X 200 30 (day_totals_cg Inputs.plan) = Ok 1
  /\ X 300 30 (day_totals_cg Inputs.plan) = Ok 1
  /\ accurate 300 30 (day_totals_cg Inputs.plan) = true.
Proof. repeat split; vm_compute; reflexivity. Qed.

(** X2. In a run without rounding error, no advance day is needed
    ([X = 0]) exactly when, on every day [d] of the horizon, the cumulative
    demand through [d] is within [d] days of fleet capacity. *)
Theorem X_zero_iff_within_capacity
    (cap : float) (DAYS : Z) (daily_total_cg : list (Z * float)) :
  1 <= DAYS -> (0 < value cap)%Q ->
  accurate cap DAYS daily_total_cg = true ->
  (X cap DAYS daily_total_cg = Ok 0
   <-> forall d, 1 <= d <= DAYS ->
         (cumulative_demand daily_total_cg d <= value cap * inject_Z d)%Q).
Proof.
  intros Hdays Hcap Hacc.
  destruct (X_accurate cap DAYS daily_total_cg Hdays Hcap Hacc)
    as (x & Hx & Hpos & Hfeas & Hleast).
  split.
  - intros H0. rewrite Hx in H0. injection H0 as ->.
    intros d Hd. specialize (Hfeas d Hd). rewrite Z.add_0_r in Hfeas. exact Hfeas.
  - intros H. rewrite Hx. f_equal.
    assert (x <= 0); [|lia].
    apply Hleast; [lia|]. intros d Hd. rewrite Z.add_0_r. apply H, Hd.
Qed.

Lemma X_zero_iff_within_capacity_witness :
  1 <= 30 /\ (0 < value 200)%Q
  /\ accurate 200 30 (day_totals_cg Inputs.light) = true
  /\ X 200 30 (day_totals_cg Inputs.light) = Ok 0
  /\ forall d, 1 <= d <= 30 ->
       (cumulative_demand (day_totals_cg Inputs.light) d <= value 200 * inject_Z d)%Q.
Proof.
  assert (1 <= 30) as Hdays by lia.
  assert (0 < value 200)%Q as Hcap by reflexivity.
  assert (accurate 200 30 (day_totals_cg Inputs.light) = true) as Hacc
    by (vm_compute; reflexivity).
  assert (X 200 30 (day_totals_cg Inputs.light) = Ok 0) as H0
    by (vm_compute; reflexivity).
  split; [exact Hdays|]. split; [exact Hcap|]. split; [exact Hacc|].
  split; [exact H0|].
  exact (proj1 (X_zero_iff_within_capacity 200 30 _ Hdays Hcap Hacc) H0).
Defined.

(** ** A fleet without capacity *)

(** X25. With [DAILY_CAP = 0] and a horizon of at least one day, the
    start-up loop fails with [ZeroDivisionError] on day 1 when no quantity
    is due that day: [cum_need] is still the Python [int] 0, and line 47
    divides a Python float by zero. *)
Theorem X_zero_capacity_no_record (cap : float) (DAYS : Z) (daily_total_cg : list (Z * float)) :
  1 <= DAYS -> (cap =? 0)%float = true -> get daily_total_cg 1 = None ->
  X cap DAYS daily_total_cg = Raise ZeroDivisionError.
Proof.
  intros Hdays Hcap Hget. unfold X.
  rewrite (FeasibilityFacts.range_split 1 DAYS) by lia.
  cbn [range range_from Z.to_nat app adv_loop].
  change (range 1 1) with (@nil Z). cbn [app adv_loop].
  unfold add_need. rewrite Hget.
  unfold adv_entry, overflow_ratio.
  change (float_of_int 1) with (Ok (of_Z 1)). cbn [bind].
  change (float_of_int (0 + 0)) with (Ok (of_Z 0)). cbn [bind].
  rewrite Hcap. reflexivity.
Qed.

Lemma X_zero_capacity_no_record_witness :
  1 <= 2 /\ (0 =? 0)%float = true /\ get [(2, 0.5%float)] 1 = None
  /\ X 0 2 [(2, 0.5%float)] = Raise ZeroDivisionError.
Proof.
  assert (1 <= 2) as Hdays by lia.
  assert ((0 =? 0)%float = true) as Hcap by reflexivity.
  assert (get [(2, 0.5%float)] 1 = None) as Hget by reflexivity.
  split; [exact Hdays|]. split; [exact Hcap|]. split; [exact Hget|].
  exact (X_zero_capacity_no_record 0 2 _ Hdays Hcap Hget).
Defined.

(** Once a quantity is due, [cum_need] is a numpy number and the division
    by zero gives an infinity, which [math.ceil] refuses, or a NaN, which
    is not positive. *)
Example X_zero_capacity :
  X 0 2 [(2, 0.5%float)] = Raise ZeroDivisionError
  /\ X 0 2 [(1, 0.5%float)] = Raise OverflowError
  /\ X 0 2 [(1, 0%float)] = Ok 0.
Proof. repeat split; vm_compute; reflexivity. Qed.

(** ** Grouping by day *)




End Binary64Facts.
